(** * cv_resume_latex: the section builder, the metadata parser and the
      bibliography splitter

    A shallow embedding of [utils/build_section.py], [utils/status.py] and
    [utils/generate_bibfiles.py], followed by the properties of these scripts.

    Conventions of the embedding.
    - A Python [str] is a [string]; a character is a code point below 256,
      and [isspace], [isdigit] and [lower] are Python's on that range.
    - A Python [dict] is insertion ordered: it is an association list in
      which assigning to a present key keeps the key's position
      ([ODict.set]).
    - An exception is a value of [exn]; [sys.exit(n)] is [SystemExit n].
    - Standard output is the list of the strings given to [print].
    - The file system is read only through [world]: the lines that iterating
      over the metadata file yields, and the text of each unit file, both
      already decoded.  Failures of the operating system other than a
      missing file are not modelled.
    - A [Path] is the string that [str] gives for it on POSIX
      ([Path_str]); files are looked up and written under that string.
    - A process ends with the exit status [exit_status] of its outcome. *)

From Stdlib Require Import List String Ascii ZArith Bool Arith Lia.
From Stdlib Require Import Permutation Sorted.
Import ListNotations.

Local Open Scope string_scope.

(* ================================================================== *)
(** * Part I: definitions *)
(* ================================================================== *)

(** ** Python's string primitives *)
Module PyStr.

Definition chars (s : string) : list ascii := list_ascii_of_string s.
Definition of_chars (l : list ascii) : string := string_of_list_ascii l.

(** [c.isspace()] on code points below 256: TAB..CR, FS..US, space,
    NEL (0x85) and the no-break space (0xA0). *)
Definition isspace (c : ascii) : bool :=
  let n := nat_of_ascii c in
  (((9 <=? n) && (n <=? 13)) || ((28 <=? n) && (n <=? 32))
   || (n =? 133) || (n =? 160))%nat.

(** [c.isdigit()] on code points below 256: the decimal digits and the
    superscripts two (0xB2), three (0xB3) and one (0xB9). *)
Definition isdigit_char (c : ascii) : bool :=
  let n := nat_of_ascii c in
  (((48 <=? n) && (n <=? 57)) || (n =? 178) || (n =? 179) || (n =? 185))%nat.

(** The characters [int] accepts as digits: ['0'..'9']. *)
Definition isdecimal_char (c : ascii) : bool :=
  let n := nat_of_ascii c in ((48 <=? n) && (n <=? 57))%nat.

(** [c.lower()] on code points below 256. *)
Definition lower_char (c : ascii) : ascii :=
  let n := nat_of_ascii c in
  if (((65 <=? n) && (n <=? 90))
      || ((192 <=? n) && (n <=? 222) && negb (n =? 215)))%nat
  then ascii_of_nat (n + 32) else c.

Fixpoint lower (s : string) : string :=
  match s with
  | EmptyString => EmptyString
  | String c r => String (lower_char c) (lower r)
  end.

Definition rev_str (s : string) : string := of_chars (rev (chars s)).

Fixpoint lstrip (s : string) : string :=
  match s with
  | EmptyString => EmptyString
  | String c r => if isspace c then lstrip r else s
  end.

Definition rstrip (s : string) : string := rev_str (lstrip (rev_str s)).

Definition strip (s : string) : string := lstrip (rstrip s).

(** [s.startswith(p)] and [s.endswith(p)]. *)
Definition startswith (s p : string) : bool := String.prefix p s.
Definition endswith (s p : string) : bool :=
  String.prefix (rev_str p) (rev_str s).

Definition tail (s : string) : string :=
  match s with EmptyString => EmptyString | String _ r => r end.

(** [s[:-1]] *)
Definition drop_last (s : string) : string := rev_str (tail (rev_str s)).

(** [s[1:-1]] *)
Definition inner (s : string) : string := drop_last (tail s).

(** [s[n:]] *)
Fixpoint drop (n : nat) (s : string) : string :=
  match n, s with
  | O, _ => s
  | S _, EmptyString => EmptyString
  | S m, String _ r => drop m r
  end.

(** [c in s] for a single character [c]. *)
Definition contains_char (c : ascii) (s : string) : bool :=
  existsb (Ascii.eqb c) (chars s).

(** [t in s] for strings: the substring test. *)
Definition contains (s t : string) : bool :=
  match String.index 0 t s with Some _ => true | None => false end.

(** [s.split(c)] for a one-character separator. *)
Fixpoint split (c : ascii) (s : string) : list string :=
  match s with
  | EmptyString => [EmptyString]
  | String a r =>
      if Ascii.eqb a c then EmptyString :: split c r
      else match split c r with
           | h :: t => String a h :: t
           | [] => [String a EmptyString]
           end
  end.

(** [s.split(c, 1)]: split at the first [c] only. *)
Fixpoint split1 (c : ascii) (s : string) : list string :=
  match s with
  | EmptyString => [EmptyString]
  | String a r =>
      if Ascii.eqb a c then [EmptyString; r]
      else match split1 c r with
           | h :: t => String a h :: t
           | [] => [String a EmptyString]
           end
  end.

(** [s.isdigit()]: non-empty and every character a digit. *)
Definition isdigit (s : string) : bool :=
  negb (s =? EmptyString) && forallb isdigit_char (chars s).

Definition isdecimal (s : string) : bool :=
  negb (s =? EmptyString) && forallb isdecimal_char (chars s).

Definition digit_value (c : ascii) : Z := Z.of_nat (nat_of_ascii c - 48).

Definition decimal_value (s : string) : Z :=
  fold_left (fun acc c => (10 * acc + digit_value c)%Z) (chars s) 0%Z.

(** [sep.join(l)] *)
Definition join (sep : string) (l : list string) : string :=
  String.concat sep l.

(** Truth value of a string: [bool(s)]. *)
Definition nonempty (s : string) : bool := negb (s =? EmptyString).

(** Truth value of a variable holding [None] or a string. *)
Definition truthy (o : option string) : bool :=
  match o with Some s => nonempty s | None => false end.

End PyStr.

(** ** Insertion-ordered dictionaries *)
Module ODict.

Definition t (V : Type) : Type := list (string * V).

Definition empty {V : Type} : t V := [].

(** [d.get(k)] / [k in d] *)
Fixpoint get {V : Type} (d : t V) (k : string) : option V :=
  match d with
  | [] => None
  | (k', v) :: r => if String.eqb k' k then Some v else get r k
  end.

(** [d[k] = v]: a present key keeps its position, a new key goes last. *)
Fixpoint set {V : Type} (d : t V) (k : string) (v : V) : t V :=
  match d with
  | [] => [(k, v)]
  | (k', v') :: r =>
      if String.eqb k' k then (k', v) :: r else (k', v') :: set r k v
  end.

(** [d.pop(k, None)] as a statement: the key is removed when present. *)
Definition remove {V : Type} (d : t V) (k : string) : t V :=
  filter (fun p => negb (String.eqb (fst p) k)) d.

Definition mem {V : Type} (d : t V) (k : string) : bool :=
  match get d k with Some _ => true | None => false end.

Definition keys {V : Type} (d : t V) : list string := map fst d.

(** The invariant of a dictionary: no key occurs twice. *)
Definition wf {V : Type} (d : t V) : Prop := NoDup (keys d).

(** [bool(d)] *)
Definition nonempty {V : Type} (d : t V) : bool :=
  match d with [] => false | _ => true end.

End ODict.

(** ** Exceptions, results and programs that print *)

Inductive exn : Type :=
| KeyError (k : string)
| ValueError
| TypeError
| SystemExit (code : Z).

Inductive result (A : Type) : Type :=
| Ok (a : A)
| Raise (e : exn).

Arguments Ok {A} a.
Arguments Raise {A} e.

Definition rbind {A B : Type} (r : result A) (k : A -> result B) : result B :=
  match r with Ok a => k a | Raise e => Raise e end.

Declare Scope py_scope.
Delimit Scope py_scope with py.

Notation "x <- c1 ;; c2" := (rbind c1 (fun x => c2))
  (at level 61, c1 at next level, right associativity) : py_scope.

(** [d[k]] as an expression: [KeyError] when the key is absent. *)
Definition getitem {V : Type} (d : ODict.t V) (k : string) : result V :=
  match ODict.get d k with Some v => Ok v | None => Raise (KeyError k) end.


(** Standard output: the printed strings, oldest first. *)
Definition stdout : Type := list string.

(** A program reads the output so far, extends it and returns or raises. *)
Definition prog (A : Type) : Type := stdout -> stdout * result A.

Definition ret {A : Type} (a : A) : prog A := fun out => (out, Ok a).

Definition raise {A : Type} (e : exn) : prog A := fun out => (out, Raise e).

Definition lift {A : Type} (r : result A) : prog A := fun out => (out, r).

Definition print (msg : string) : prog unit :=
  fun out => ((out ++ [msg])%list, Ok tt).

Definition pbind {A B : Type} (p : prog A) (k : A -> prog B) : prog B :=
  fun out =>
    match p out with
    | (out', Ok a) => k a out'
    | (out', Raise e) => (out', Raise e)
    end.

Declare Scope prog_scope.
Delimit Scope prog_scope with prog.

Notation "x <-- c1 ;; c2" := (pbind c1 (fun x => c2))
  (at level 61, c1 at next level, right associativity) : prog_scope.
Notation "c1 ;;; c2" := (pbind c1 (fun _ => c2))
  (at level 61, right associativity) : prog_scope.

(** ** The metadata model *)

(** A property value: [str], [int] or [list] of [str]. *)
Inductive pyval : Type :=
| VStr (s : string)
| VInt (n : Z)
| VList (l : list string).

(** unit name -> property name -> value *)
Definition unit_meta : Type := ODict.t pyval.
Definition section_meta : Type := ODict.t unit_meta.
(** section name -> unit name -> properties *)
Definition metadata_t : Type := ODict.t section_meta.

(** What the scripts see of the file system. *)
Record world : Type := {
  (** [utils/unit_metadata.yaml]: [None] when the file does not exist,
      otherwise the lines that [for line in f] yields. *)
  metadata_lines : option (list string);
  (** The text [f.read()] returns for a path, [None] when
      [Path.exists()] is false. *)
  read_file : string -> option string
}.

(** The characters and strings that cannot be written inside a literal. *)
Definition dquote : string := String (ascii_of_nat 34) EmptyString.
Definition nl : string := String (ascii_of_nat 10) EmptyString.
(** The separator of the assembled units: one blank line. *)
Definition blank_line : string := nl ++ nl.

(** CPython's default limit on the number of digits of a decimal string
    given to [int] ([sys.int_info.default_max_str_digits]). *)
Definition max_str_digits : Z := 4300.

(** The strings that passed [isdigit] and that [int] converts: every
    character is one of ['0'..'9'] (the superscript digits are digits for
    [isdigit] and not for [int]) and the digits are within the limit. *)
Definition int_accepts (s : string) : bool :=
  PyStr.isdecimal s && (Z.of_nat (String.length s) <=? max_str_digits)%Z.

(** [int(value)] on a string that passed [isdigit]: its decimal value, or
    [ValueError]. *)
Definition py_int (s : string) : result Z :=
  if int_accepts s then Ok (PyStr.decimal_value s) else Raise ValueError.

(** [a < b] on property values: defined between two values of one type. *)
Fixpoint list_lt (a b : list string) : bool :=
  match a, b with
  | [], [] => false
  | [], _ :: _ => true
  | _ :: _, [] => false
  | x :: a', y :: b' => if String.eqb x y then list_lt a' b' else String.ltb x y
  end.

Definition py_lt (a b : pyval) : result bool :=
  match a, b with
  | VInt x, VInt y => Ok (x <? y)%Z
  | VStr x, VStr y => Ok (String.ltb x y)
  | VList x, VList y => Ok (list_lt x y)
  | _, _ => Raise TypeError
  end.

(** [tag in unit_tags]: membership in a list, the substring test on a
    string, [TypeError] on an int. *)
Definition py_in (tag : string) (unit_tags : pyval) : result bool :=
  match unit_tags with
  | VList l => Ok (existsb (String.eqb tag) l)
  | VStr s => Ok (PyStr.contains s tag)
  | VInt _ => Raise TypeError
  end.

(** ** Paths *)

(** The root of a POSIX path: [/], or [//] for exactly two leading
    slashes; empty for a relative path. *)
Definition path_root (s : string) : string :=
  if PyStr.startswith s "///" then "/"
  else if PyStr.startswith s "//" then "//"
  else if PyStr.startswith s "/" then "/"
  else EmptyString.

(** The components of a path: what stands between the slashes, without
    the empty components and the components that are a single dot. *)
Definition path_parts (s : string) : list string :=
  filter (fun x => PyStr.nonempty x && negb (x =? "."))
    (PyStr.split "/" s).

(** [str(Path(s))] on POSIX: the root and the components joined by
    slashes, a dot for the empty relative path. *)
Definition Path_str (s : string) : string :=
  match path_root s, path_parts s with
  | EmptyString, [] => "."
  | root, parts => root ++ PyStr.join "/" parts
  end.

(** ** utils/build_section.py *)
Module BuildSection.
Import PyStr.
Local Open Scope py_scope.

(** The three variables of the parsing loop of [load_metadata]. *)
Record pstate : Type := {
  metadata : metadata_t;
  current_section : option string;
  current_unit : option string
}.

Definition init : pstate :=
  {| metadata := []; current_section := None; current_unit := None |}.

(** The name held by a variable that is truthy. *)
Definition held (o : option string) : option string :=
  match o with
  | Some s => if nonempty s then Some s else None
  | None => None
  end.

(** Lines 60-73: the typed value of a property. *)
Definition parse_value (value : string) : result pyval :=
  if startswith value "[" && endswith value "]" then
    Ok (VList (filter nonempty (map strip (split "," (inner value)))))
  else if isdigit value then
    n <- py_int value ;; Ok (VInt n)
  else
    Ok (VStr (if startswith value dquote && endswith value dquote
              then inner value else value)).

(** [metadata[cs][cu][key] = v] *)
Definition set_property (md : metadata_t) (cs cu key : string) (v : pyval)
  : result metadata_t :=
  sec <- getitem md cs ;;
  u <- getitem sec cu ;;
  Ok (ODict.set md cs (ODict.set sec cu (ODict.set u key v))).

(** [metadata[cs][cu] = {}] *)
Definition set_unit (md : metadata_t) (cs cu : string) : result metadata_t :=
  sec <- getitem md cs ;;
  Ok (ODict.set md cs (ODict.set sec cu ODict.empty)).

(** One iteration of the loop of lines 34-73. *)
Definition parse_line (st : pstate) (raw : string) : result pstate :=
  let line := rstrip raw in
  if negb (nonempty (strip line)) || startswith (strip line) "#" then Ok st
  else if endswith line ":" && negb (startswith line " ") then
    let cs := drop_last line in
    Ok {| metadata := ODict.set (metadata st) cs ODict.empty;
          current_section := Some cs;
          current_unit := current_unit st |}
  else if startswith line "  " && endswith line ":"
          && negb (startswith line "    ") then
    let cu := drop_last (strip line) in
    match held (current_section st) with
    | Some cs =>
        md <- set_unit (metadata st) cs cu ;;
        Ok {| metadata := md;
              current_section := current_section st;
              current_unit := Some cu |}
    | None =>
        Ok {| metadata := metadata st;
              current_section := current_section st;
              current_unit := Some cu |}
    end
  else if startswith line "    " && contains_char ":" line then
    match split1 ":" (strip line) with
    | [key; value] =>
        let value := strip value in
        match held (current_section st), held (current_unit st) with
        | Some cs, Some cu =>
            v <- parse_value value ;;
            md <- set_property (metadata st) cs cu key v ;;
            Ok {| metadata := md;
                  current_section := current_section st;
                  current_unit := current_unit st |}
        | _, _ => Ok st
        end
    | _ => Raise ValueError
    end
  else Ok st.

Fixpoint parse_lines (st : pstate) (lines : list string) : result pstate :=
  match lines with
  | [] => Ok st
  | l :: r => st' <- parse_line st l ;; parse_lines st' r
  end.

(** The parsing loop run on the lines of a file that exists. *)
Definition parse_metadata (lines : list string) : result metadata_t :=
  st <- parse_lines init lines ;; Ok (metadata st).

Local Open Scope prog_scope.

Definition load_metadata (w : world) : prog metadata_t :=
  match metadata_lines w with
  | None =>
      print "Error: Metadata file utils/unit_metadata.yaml not found!" ;;;
      raise (SystemExit 1)
  | Some lines => lift (parse_metadata lines)
  end.

Local Open Scope py_scope.

(** [any(tag in unit_tags for tag in tags)] *)
Fixpoint any_in (tags : list string) (unit_tags : pyval) : result bool :=
  match tags with
  | [] => Ok false
  | t :: r =>
      b <- py_in t unit_tags ;;
      if b then Ok true else any_in r unit_tags
  end.

(** [unit_meta.get('tags', [])] *)
Definition tags_of (m : unit_meta) : pyval :=
  match ODict.get m "tags" with Some v => v | None => VList [] end.

(** [exclude_tags and any(...)] *)
Definition excluded (exclude_tags : option (list string)) (m : unit_meta)
  : result bool :=
  match exclude_tags with
  | Some (t :: r) => any_in (t :: r) (tags_of m)
  | _ => Ok false
  end.

(** [tags is None or any(...)] *)
Definition included (tags : option (list string)) (m : unit_meta)
  : result bool :=
  match tags with
  | None => Ok true
  | Some ts => any_in ts (tags_of m)
  end.

(** Lines 98-108: the loop that fills [filtered_units]. *)
Fixpoint filter_loop (items : list (string * unit_meta))
    (tags exclude_tags : option (list string))
    (filtered_units : list (string * unit_meta))
  : result (list (string * unit_meta)) :=
  match items with
  | [] => Ok filtered_units
  | (unit_name, m) :: r =>
      ex <- excluded exclude_tags m ;;
      if ex then filter_loop r tags exclude_tags filtered_units
      else
        inc <- included tags m ;;
        if inc
        then filter_loop r tags exclude_tags
               (filtered_units ++ [(unit_name, m)])%list
        else filter_loop r tags exclude_tags filtered_units
  end.

Definition filter_units (section_data : section_meta)
    (tags exclude_tags : option (list string)) :=
  filter_loop section_data tags exclude_tags [].

(** The sort key of line 111: [x[1].get('priority', 999)]. *)
Definition priority_key (x : string * unit_meta) : pyval :=
  match ODict.get (snd x) "priority" with Some v => v | None => VInt 999 end.

(** [list.sort(key=...)] is a stable sort that compares keys with [<]
    only and lets the [TypeError] of a comparison escape.  The result of a
    stable sort is determined by the keys, and a sort of two or more
    elements whose keys are not all of one type has to compare two keys of
    different types; so the stable insertion sort below returns what
    [list.sort] returns and raises when it raises. *)
Fixpoint insert_unit (x : string * unit_meta) (l : list (string * unit_meta))
  : result (list (string * unit_meta)) :=
  match l with
  | [] => Ok [x]
  | y :: r =>
      b <- py_lt (priority_key y) (priority_key x) ;;
      if b then (r' <- insert_unit x r ;; Ok (y :: r'))
      else Ok (x :: y :: r)
  end.

Fixpoint sort_units (l : list (string * unit_meta))
  : result (list (string * unit_meta)) :=
  match l with
  | [] => Ok []
  | x :: r => r' <- sort_units r ;; insert_unit x r'
  end.

(** [l[:n]] *)
Definition slice_to {A : Type} (n : Z) (l : list A) : list A :=
  if (0 <=? n)%Z then firstn (Z.to_nat n) l
  else firstn (List.length l - Z.to_nat (- n)) l.

(** Lines 114-115: [if max_items: filtered_units = filtered_units[:max_items]] *)
Definition limit_units {A : Type} (max_items : option Z) (l : list A)
  : list A :=
  match max_items with
  | Some n => if (n =? 0)%Z then l else slice_to n l
  | None => l
  end.

(** Lines 98-115: the units whose files are read, in order. *)
Definition select_units (section_data : section_meta)
    (tags : option (list string)) (max_items : option Z)
    (exclude_tags : option (list string))
  : result (list (string * unit_meta)) :=
  filtered <- filter_units section_data tags exclude_tags ;;
  sorted <- sort_units filtered ;;
  Ok (limit_units max_items sorted).

(** Line 119: [Path(f"units/{section_name}/{unit_name}.tex")], as the
    string under which the file is tested, opened and printed. *)
Definition unit_path (section_name unit_name : string) : string :=
  Path_str ("units/" ++ section_name ++ "/" ++ unit_name ++ ".tex").

Local Open Scope prog_scope.

(** Lines 118-127: the loop that fills [section_content]. *)
Fixpoint read_units (w : world) (section_name : string)
    (units : list (string * unit_meta)) (section_content : list string)
  : prog (list string) :=
  match units with
  | [] => ret section_content
  | (unit_name, _) :: r =>
      let unit_file := unit_path section_name unit_name in
      match read_file w unit_file with
      | Some text =>
          let content := strip text in
          read_units w section_name r
            (if nonempty content
             then (section_content ++ [content])%list
             else section_content)
      | None =>
          print ("Warning: Unit file " ++ unit_file ++ " not found!") ;;;
          read_units w section_name r section_content
      end
  end.

Definition build_section (w : world) (section_name : string)
    (tags : option (list string)) (max_items : option Z)
    (exclude_tags : option (list string)) : prog string :=
  metadata <-- load_metadata w ;;
  let section_data :=
    match ODict.get metadata section_name with
    | Some d => d
    | None => ODict.empty
    end in
  if negb (ODict.nonempty section_data) then
    print ("Warning: No metadata found for section '" ++ section_name ++ "'") ;;;
    ret EmptyString
  else
    units <-- lift (select_units section_data tags max_items exclude_tags) ;;
    section_content <-- read_units w section_name units [] ;;
    match section_content with
    | [] =>
        print ("Warning: No content generated for section '"
               ++ section_name ++ "'") ;;;
        ret EmptyString
    | _ => ret (join blank_line section_content)
    end.

(** The parsed command line of [main]. *)
Record args : Type := {
  arg_section : string;
  arg_tags : option (list string);
  arg_exclude_tags : option (list string);
  arg_max_items : option Z;
  arg_output : option string;
  arg_include_header : bool;
  arg_verbose : bool
}.

Definition when (b : bool) (p : prog unit) : prog unit :=
  if b then p else ret tt.

Definition nonempty_list (o : option (list string)) : bool :=
  match o with Some (_ :: _) => true | _ => false end.

Definition nonzero (o : option Z) : bool :=
  match o with Some n => negb (n =? 0)%Z | None => false end.

Section Main.

(** [get_section_header] (lines 135-146) is a table of LaTeX headers, one
    of which holds a character above code point 255, with [str.title] as
    the default; the verbose messages format a list and an int.  No
    property below depends on these texts, so [main] is stated for any
    such functions. *)
Variable get_section_header : string -> string.
Variable str_of_list : list string -> string.
Variable str_of_int : Z -> string.

(** What [main] wrote: [Some (path, text)] for [--output], the path
    being [str(Path(args.output))], and [None] when the content went to
    standard output.  The directories that line 203 creates above the
    file are not part of the model. *)
Definition main (w : world) (a : args) : prog (option (string * string)) :=
  when (arg_verbose a)
    (print ("Building section: " ++ arg_section a) ;;;
     when (nonempty_list (arg_tags a))
       (print ("Including tags: "
               ++ str_of_list (match arg_tags a with Some l => l | None => [] end))) ;;;
     when (nonempty_list (arg_exclude_tags a))
       (print ("Excluding tags: "
               ++ str_of_list (match arg_exclude_tags a with Some l => l | None => [] end))) ;;;
     when (nonzero (arg_max_items a))
       (print ("Max items: "
               ++ str_of_int (match arg_max_items a with Some n => n | None => 0%Z end)))) ;;;
  content <-- build_section w (arg_section a) (arg_tags a)
                (arg_max_items a) (arg_exclude_tags a) ;;
  if negb (nonempty content) then
    print ("No content generated for section '" ++ arg_section a ++ "'") ;;;
    raise (SystemExit 1)
  else
    let content :=
      if arg_include_header a
      then get_section_header (arg_section a) ++ blank_line ++ content
      else content in
    match held (arg_output a) with
    | Some output =>
        let output_path := Path_str output in
        when (arg_verbose a)
          (print ("Section written to: " ++ output_path)) ;;;
        ret (Some (output_path, content))
    | None => print content ;;; ret None
    end.

End Main.

(** *** The vocabulary of the properties *)

(** A unit's tag list: the ['tags'] property when it is a list, the empty
    list when the unit has no such property. *)
Definition tag_list (m : unit_meta) : list string :=
  match ODict.get m "tags" with Some (VList l) => l | _ => [] end.

Definition tags_is_list (m : unit_meta) : bool :=
  match ODict.get m "tags" with
  | None | Some (VList _) => true
  | Some _ => false
  end.

(** A unit's integer priority, 999 when it has none. *)
Definition priority (x : string * unit_meta) : Z :=
  match ODict.get (snd x) "priority" with Some (VInt n) => n | _ => 999%Z end.

Definition priority_is_int (x : string * unit_meta) : bool :=
  match ODict.get (snd x) "priority" with
  | None | Some (VInt _) => true
  | Some _ => false
  end.

(** The selection rule in words: some requested tag is in the list. *)
Definition has_any (wanted unit_tags : list string) : Prop :=
  exists t, In t wanted /\ In t unit_tags.

Definition selected_by (tags exclude_tags : option (list string))
    (m : unit_meta) : Prop :=
  (tags = None \/ exists ts, tags = Some ts /\ has_any ts (tag_list m))
  /\ ~ (exists ex, exclude_tags = Some ex /\ has_any ex (tag_list m)).

(** What one selected unit adds to the output: the stripped text of its
    file, nothing when the file is missing or blank. *)
Definition contribution (w : world) (section_name : string)
    (x : string * unit_meta) : list string :=
  match read_file w (unit_path section_name (fst x)) with
  | Some text => if nonempty (strip text) then [strip text] else []
  | None => []
  end.

Definition contributions (w : world) (section_name : string)
    (units : list (string * unit_meta)) : list string :=
  flat_map (contribution w section_name) units.

(** The section's units as [build_section] sees them: the empty mapping
    when the section is not in the metadata. *)
Definition section_data_of (md : metadata_t) (section_name : string)
  : section_meta :=
  match ODict.get md section_name with Some d => d | None => ODict.empty end.

(** A string value with one surrounding pair of double quotes removed if
    present: a pair takes two characters. *)
Definition unquote_pair (v : string) : string :=
  if (2 <=? String.length v)%nat && startswith v dquote && endswith v dquote
  then inner v else v.

(** The recognised shape of a section line and its name. *)
Definition is_section_line (raw : string) : bool :=
  let line := rstrip raw in
  negb (negb (nonempty (strip line)) || startswith (strip line) "#")
  && endswith line ":" && negb (startswith line " ").

Definition section_name_of (raw : string) : string := drop_last (rstrip raw).

(** *** The shapes of a line *)

(** What an iteration of the parsing loop does with a line. *)
Inductive line_kind : Type :=
| Skipped
| SectionLine (cs : string)
| UnitLine (cu : string)
| PropertyLine (key value : string)
| BadProperty.

Definition classify (raw : string) : line_kind :=
  let line := rstrip raw in
  if negb (nonempty (strip line)) || startswith (strip line) "#" then Skipped
  else if endswith line ":" && negb (startswith line " ") then
    SectionLine (drop_last line)
  else if startswith line "  " && endswith line ":"
          && negb (startswith line "    ") then
    UnitLine (drop_last (strip line))
  else if startswith line "    " && contains_char ":" line then
    match split1 ":" (strip line) with
    | [key; value] => PropertyLine key (strip value)
    | _ => BadProperty
    end
  else Skipped.

Local Open Scope py_scope.

Definition apply_kind (st : pstate) (k : line_kind) : result pstate :=
  match k with
  | Skipped => Ok st
  | SectionLine cs =>
      Ok {| metadata := ODict.set (metadata st) cs ODict.empty;
            current_section := Some cs;
            current_unit := current_unit st |}
  | UnitLine cu =>
      match held (current_section st) with
      | Some cs =>
          md <- set_unit (metadata st) cs cu ;;
          Ok {| metadata := md;
                current_section := current_section st;
                current_unit := Some cu |}
      | None =>
          Ok {| metadata := metadata st;
                current_section := current_section st;
                current_unit := Some cu |}
      end
  | PropertyLine key value =>
      match held (current_section st), held (current_unit st) with
      | Some cs, Some cu =>
          v <- parse_value value ;;
          md <- set_property (metadata st) cs cu key v ;;
          Ok {| metadata := md;
                current_section := current_section st;
                current_unit := current_unit st |}
      | _, _ => Ok st
      end
  | BadProperty => Raise ValueError
  end.

(** A property line: indented four spaces, containing [':'], and neither
    blank nor a comment. *)
Definition is_property_line (raw : string) : bool :=
  let line := rstrip raw in
  negb (negb (nonempty (strip line)) || startswith (strip line) "#")
  && startswith line "    " && contains_char ":" line.

(** A value written between brackets. *)
Definition bracketed (v : string) : bool :=
  startswith v "[" && endswith v "]".

(** The comma-separated, trimmed, non-empty tokens of a bracketed value. *)
Definition tokens (v : string) : list string :=
  filter nonempty (map strip (split "," (inner v))).

(** The property stored for a unit of a section. *)
Definition lookup (md : metadata_t) (cs cu key : string) : option pyval :=
  match ODict.get md cs with
  | Some sec =>
      match ODict.get sec cu with
      | Some u => ODict.get u key
      | None => None
      end
  | None => None
  end.

(** The selection rule as a test on tag lists. *)
Definition any_of (wanted unit_tags : list string) : bool :=
  existsb (fun t => existsb (String.eqb t) unit_tags) wanted.

Definition selectedb (tags exclude_tags : option (list string))
    (m : unit_meta) : bool :=
  negb (match exclude_tags with
        | Some ex => any_of ex (tag_list m)
        | None => false
        end)
  && match tags with
     | None => true
     | Some ts => any_of ts (tag_list m)
     end.

(** The warnings of the reading loop: one for each missing unit file. *)
Definition warning_of (w : world) (section_name : string)
    (x : string * unit_meta) : list string :=
  match read_file w (unit_path section_name (fst x)) with
  | Some _ => []
  | None =>
      ["Warning: Unit file " ++ unit_path section_name (fst x) ++ " not found!"]
  end.

Definition warnings (w : world) (section_name : string)
    (units : list (string * unit_meta)) : list string :=
  flat_map (warning_of w section_name) units.

(** A result that is not a process exit. *)
Definition no_exit {A : Type} (r : result A) : Prop :=
  match r with Raise (SystemExit _) => False | _ => True end.

(** The two messages that precede an exit with status 1. *)
Definition missing_metadata_msg : string :=
  "Error: Metadata file utils/unit_metadata.yaml not found!".



(** *** Two runs of the parsing loop

    [agree s st1 st2] relates the loop variables of two runs that are in
    the same section and hold the same units for that section and for the
    section [s]; the first run may still hold the unit of an earlier
    section ([stale]), which no section it is in has. *)
Definition stale (st : pstate) : Prop :=
  forall c c1 sec,
    held (current_section st) = Some c ->
    held (current_unit st) = Some c1 ->
    ODict.get (metadata st) c = Some sec ->
    ODict.get sec c1 = None.

Definition agree (s : string) (st1 st2 : pstate) : Prop :=
  current_section st1 = current_section st2
  /\ ODict.get (metadata st1) s = ODict.get (metadata st2) s
  /\ (forall c, current_section st1 = Some c ->
                ODict.get (metadata st1) c = ODict.get (metadata st2) c)
  /\ (current_unit st1 = current_unit st2
      \/ (current_unit st2 = None /\ stale st1)).


(** Ascending priority, and the units of one priority. *)
Definition by_priority (a b : string * unit_meta) : Prop :=
  (priority a <= priority b)%Z.

Definition same_priority (p : Z) (x : string * unit_meta) : bool :=
  (priority x =? p)%Z.


End BuildSection.

(** ** utils/status.py *)
Module Status.

(** [load_simple_metadata] (lines 17-64): the loop of lines 27-62 is the
    loop of [build_section.load_metadata] line for line; a missing file
    gives the empty mapping instead of an exit. *)
Definition load_simple_metadata (w : world) : result metadata_t :=
  match metadata_lines w with
  | None => Ok ODict.empty
  | Some lines => BuildSection.parse_metadata lines
  end.

End Status.

(** ** utils/generate_bibfiles.py *)
Module GenerateBibfiles.
Import PyStr.

(** A [pybtex.database.Entry].  [fields] is the mapping as a lookup sees
    it.  The fields of a parsed entry are a case-insensitive mapping: a
    name is looked up in lower case, so [fields] holds the names in lower
    case, and [spelling] holds, for a name that was written otherwise, the
    name as written.  The fields of an entry that [process_keywords] built
    are a plain dict: [fields] holds the names as they are and [spelling]
    is empty.  The script only looks up ['keywords'], which is in lower
    case. *)
Record Entry : Type := {
  type : string;
  original_type : string;
  fields : ODict.t string;
  spelling : ODict.t string;
  persons : ODict.t (list string);
  key : option string
}.

(** [Entry(type_)] *)
Definition new_Entry (type_ : string) : Entry :=
  {| type := lower type_; original_type := type_;
     fields := ODict.empty; spelling := ODict.empty;
     persons := ODict.empty; key := None |}.

(** The name under which a field was written. *)
Definition written (entry : Entry) (name : string) : string :=
  match ODict.get (spelling entry) name with
  | Some as_written => as_written
  | None => name
  end.

(** [dict(entry.fields)]: the plain dict of the fields under their names
    as written, in the order of the fields. *)
Definition plain_fields (entry : Entry) : ODict.t string :=
  fold_left (fun d p => ODict.set d (written entry (fst p)) (snd p))
    (fields entry) ODict.empty.

Definition default_prefixes : list string := ["pub:"; "topic:"; "meta:"].

(** [any(mapped_kw.startswith(prefix) for prefix in valid_prefixes)] *)
Definition has_valid_prefix (valid_prefixes : list string) (kw : string)
  : bool :=
  existsb (startswith kw) valid_prefixes.

(** [keyword_mappings.get(kw, kw)] *)
Definition remap (keyword_mappings : ODict.t string) (kw : string) : string :=
  match ODict.get keyword_mappings kw with Some new => new | None => kw end.

(** Lines 40-46: the loop that fills [remapped]. *)
Fixpoint remap_loop (keywords : list string) (keyword_mappings : ODict.t string)
    (valid_prefixes : list string) (remapped : list string) : list string :=
  match keywords with
  | [] => remapped
  | kw :: r =>
      let mapped_kw := remap keyword_mappings kw in
      remap_loop r keyword_mappings valid_prefixes
        (if has_valid_prefix valid_prefixes mapped_kw
         then (remapped ++ [mapped_kw])%list else remapped)
  end.

(** [process_keywords] (lines 29-61).  The test and the lookup of line 36
    are those of the entry's own mapping; the new entry gets the plain
    dict of line 50, in which ['keywords'] is assigned or popped under
    that very name. *)
Definition process_keywords (entry : Entry) (keyword_mappings : ODict.t string)
    (valid_prefixes : option (list string)) : Entry :=
  match ODict.get (fields entry) "keywords" with
  | None => entry
  | Some kws =>
      let valid_prefixes :=
        match valid_prefixes with Some l => l | None => default_prefixes end in
      let keywords := map strip (split "," kws) in
      let remapped := remap_loop keywords keyword_mappings valid_prefixes [] in
      let new_entry := new_Entry (type entry) in
      let new_fields := plain_fields entry in
      {| type := type new_entry;
         original_type := original_type new_entry;
         fields := match remapped with
                   | [] => ODict.remove new_fields "keywords"
                   | _ => ODict.set new_fields "keywords" (join ", " remapped)
                   end;
         spelling := ODict.empty;
         persons := persons entry;
         key := key new_entry |}
  end.

(** [subsets]: a [defaultdict(dict)], subset name -> key -> entry. *)
Definition subsets_t : Type := ODict.t (ODict.t Entry).

(** [subsets[subset_name][key] = entry] *)
Definition place (subsets : subsets_t) (subset_name key : string)
    (entry : Entry) : subsets_t :=
  let d := match ODict.get subsets subset_name with
           | Some d => d
           | None => ODict.empty
           end in
  ODict.set subsets subset_name (ODict.set d key entry).

(** [entry.fields.get('keywords', '')] *)
Definition keywords_of (entry : Entry) : string :=
  match ODict.get (fields entry) "keywords" with
  | Some k => k
  | None => EmptyString
  end.

(** Lines 71-75: the tags of an entry for a prefix. *)
Definition tags_for (tag_prefix : string) (entry : Entry) : list string :=
  map strip
    (filter (fun kw => startswith (strip kw) tag_prefix)
       (split "," (keywords_of entry))).

(** [tag[len(tag_prefix):].strip()] *)
Definition subset_name_of (tag_prefix tag : string) : string :=
  strip (drop (String.length tag_prefix) tag).

(** Lines 77-80 *)
Fixpoint tag_loop (tags : list string) (tag_prefix key : string)
    (entry : Entry) (subsets : subsets_t) : subsets_t :=
  match tags with
  | [] => subsets
  | tag :: r =>
      let subset_name := subset_name_of tag_prefix tag in
      tag_loop r tag_prefix key entry
        (if nonempty subset_name
         then place subsets subset_name key entry else subsets)
  end.

(** Lines 69-82 *)
Fixpoint entries_loop (items : list (string * Entry)) (tag_prefix : string)
    (subsets : subsets_t) (all_entries : ODict.t Entry)
  : subsets_t * ODict.t Entry :=
  match items with
  | [] => (subsets, all_entries)
  | (key, entry) :: r =>
      entries_loop r tag_prefix
        (tag_loop (tags_for tag_prefix entry) tag_prefix key entry subsets)
        (ODict.set all_entries key entry)
  end.

(** [bib_data] is given by its [entries]. *)
Definition extract_tagged_entries (entries : ODict.t Entry)
    (tag_prefix : string) : subsets_t * ODict.t Entry :=
  entries_loop entries tag_prefix ODict.empty ODict.empty.

(** *** The vocabulary of the properties *)

(** The entry stored under [key] in the subset [subset_name]. *)
Definition in_subset (subsets : subsets_t) (subset_name key : string)
  : option Entry :=
  match ODict.get subsets subset_name with
  | Some d => ODict.get d key
  | None => None
  end.

(** The rule in words: a keyword of the entry, trimmed, starts with the
    prefix and what follows the prefix, trimmed, is the non-empty [s]. *)
Definition tagged_as (tag_prefix : string) (entry : Entry) (s : string)
  : Prop :=
  exists kw,
    In kw (split "," (keywords_of entry))
    /\ startswith (strip kw) tag_prefix = true
    /\ s = strip (drop (String.length tag_prefix) (strip kw))
    /\ s <> EmptyString.

(** The remapped keywords of a keyword string that start with a valid
    prefix, in their order. *)
Definition surviving_keywords (kws : string) (keyword_mappings : ODict.t string)
    (valid_prefixes : list string) : list string :=
  filter (has_valid_prefix valid_prefixes)
    (map (fun kw => remap keyword_mappings (strip kw)) (split "," kws)).

Definition prefixes_of (valid_prefixes : option (list string)) : list string :=
  match valid_prefixes with Some l => l | None => default_prefixes end.

(** The tests behind [tagged_as]: a tag names the subset [s], and an
    entry has such a tag. *)
Definition names (tag_prefix s : string) (tag : string) : bool :=
  String.eqb (subset_name_of tag_prefix tag) s
  && nonempty (subset_name_of tag_prefix tag).

Definition taggedb (tag_prefix : string) (entry : Entry) (s : string) : bool :=
  existsb (names tag_prefix s) (tags_for tag_prefix entry).


End GenerateBibfiles.

(** ** Sample inputs *)
Module Samples.
Import BuildSection GenerateBibfiles.

(** A metadata file with one section of four units. *)
Definition education_lines : list string :=
  [ "# units of the CV";
    "education:";
    "  phd:";
    "    tags: [full_cv, short_cv]";
    "    priority: 2";
    "  msc:";
    "    tags: [full_cv]";
    "    priority: 1";
    "  bsc:";
    "    tags: [full_cv, old]";
    "  course:";
    "    priority: 1" ].

Definition education_md : metadata_t :=
  [ ("education",
     [ ("phd", [("tags", VList ["full_cv"; "short_cv"]); ("priority", VInt 2)]);
       ("msc", [("tags", VList ["full_cv"]); ("priority", VInt 1)]);
       ("bsc", [("tags", VList ["full_cv"; "old"])]);
       ("course", [("priority", VInt 1)]) ]) ].

(** Every unit file exists and holds its own path between blanks. *)
Definition full_world : world :=
  {| metadata_lines := Some education_lines;
     read_file := fun p => Some (" " ++ p ++ nl) |}.

(** The same, without the file of the unit [msc]. *)
Definition world_without_msc : world :=
  {| metadata_lines := Some education_lines;
     read_file := fun p =>
       if String.eqb p "units/education/msc.tex" then None
       else Some (" " ++ p ++ nl) |}.



(** A property line under a unit of another section. *)
Definition stale_unit_lines : list string :=
  ["a:"; "  u:"; "b:"; "    k: v"].

(** A value that is a digit for [isdigit] and not for [int]. *)
Definition superscript_two : string := String (ascii_of_nat 178) EmptyString.

Definition superscript_lines : list string :=
  ["a:"; "  u:"; "    priority: " ++ superscript_two].

Definition lone_quote_lines : list string :=
  ["s:"; "  u:"; "    k: " ++ dquote].

(** A section named twice. *)
Definition twice_prefix : list string :=
  ["jobs:"; "  first:"; "    priority: 1"; "other:"; "  x:"].
Definition twice_suffix : list string :=
  ["  second:"; "    tags: [full_cv]"].

Definition paper : Entry :=
  {| type := "article";
     original_type := "Article";
     fields := [ ("title", "A title");
                 ("keywords", " pub:journal , peer , topic:ml,pub: ,pub:conf") ];
     spelling := [];
     persons := [("author", ["A. Author"])];
     key := Some "k1" |}.

Definition book : Entry :=
  {| type := "book";
     original_type := "book";
     fields := [("title", "A book")];
     spelling := [];
     persons := [];
     key := Some "k2" |}.

Definition library : ODict.t Entry := [("k1", paper); ("k2", book)].

Definition peer_mapping : ODict.t string := [("peer", "meta:peer")].

End Samples.

(** ** Vocabulary of the further properties of the section builder *)
Module BuildSectionMore.
Import PyStr BuildSection.

(** What the variables of the parsing loop say about a property line to
    come: whether a section and a unit are held, and whether the unit held
    was registered in the section held. *)
Record nesting : Type := {
  in_section : bool;
  in_unit : bool;
  unit_known : bool
}.

Definition outside : nesting :=
  {| in_section := false; in_unit := false; unit_known := false |}.

(** The values [parse_value] returns on. *)
Definition value_ok (v : string) : bool :=
  bracketed v || negb (isdigit v) || int_accepts v.

(** The nesting after a line, [None] when the line cannot be stored. *)
Definition nest (a : nesting) (k : line_kind) : option nesting :=
  match k with
  | Skipped => Some a
  | SectionLine cs =>
      Some {| in_section := nonempty cs; in_unit := in_unit a;
              unit_known := false |}
  | UnitLine cu =>
      Some {| in_section := in_section a; in_unit := nonempty cu;
              unit_known := true |}
  | PropertyLine _ v =>
      if in_section a && in_unit a
      then if unit_known a && value_ok v then Some a else None
      else Some a
  | BadProperty => None
  end.

(** A file is well nested when every property line met while a section
    and a unit are held finds the unit in the section, with a value that
    [parse_value] takes. *)
Fixpoint well_nested_from (a : nesting) (lines : list string) : bool :=
  match lines with
  | [] => true
  | l :: r =>
      match nest a (classify l) with
      | Some a' => well_nested_from a' r
      | None => false
      end
  end.

Definition well_nested (lines : list string) : bool :=
  well_nested_from outside lines.

(** The loop variables and a nesting that describes them. *)
Definition describes (a : nesting) (st : pstate) : Prop :=
  in_section a = truthy (current_section st)
  /\ in_unit a = truthy (current_unit st)
  /\ forall c, held (current_section st) = Some c ->
       exists sec,
         ODict.get (metadata st) c = Some sec
         /\ forall u, held (current_unit st) = Some u ->
              (unit_known a = true <-> ODict.get sec u <> None).

(** Every value of a dictionary has a property. *)
Definition all_values {V : Type} (P : V -> Prop) (d : ODict.t V) : Prop :=
  Forall (fun p => P (snd p)) d.

(** The metadata is made of dictionaries: no section, no unit of a section
    and no property of a unit is there twice. *)
Definition metadata_wf (md : metadata_t) : Prop :=
  ODict.wf md
  /\ all_values (fun sec => ODict.wf sec /\ all_values ODict.wf sec) md.

(** A line that the loop passes over: blank, a comment, or neither ended
    by a colon nor indented four spaces. *)
Definition ignorable (raw : string) : bool :=
  negb (nonempty (strip raw))
  || startswith (strip raw) "#"
  || (negb (endswith (rstrip raw) ":")
      && negb (startswith (rstrip raw) "    ")).



(** The types of the values [<] is defined between. *)
Definition kind_of (v : pyval) : nat :=
  match v with VStr _ => 0 | VInt _ => 1 | VList _ => 2 end.

Definition same_kind (x y : string * unit_meta) : bool :=
  Nat.eqb (kind_of (priority_key x)) (kind_of (priority_key y)).

(** The sort keys of a list of units are of one type. *)
Definition one_kind (l : list (string * unit_meta)) : bool :=
  match l with
  | [] => true
  | x :: r => forallb (same_kind x) r
  end.

(** The number of units that [max_items] lets through out of [n]. *)
Definition kept (max_items : option Z) (n : nat) : nat :=
  match max_items with
  | None => n
  | Some m =>
      if (m =? 0)%Z then n
      else if (0 <? m)%Z then Nat.min (Z.to_nat m) n
      else n - Z.to_nat (- m)
  end.

(** What [build_section] prints once the units are selected. *)
Definition section_messages (w : world) (section_name : string)
    (section_data : section_meta) (units : list (string * unit_meta))
  : list string :=
  if ODict.nonempty section_data then
    (warnings w section_name units
     ++ match contributions w section_name units with
        | [] => [("Warning: No content generated for section '"
                  ++ section_name ++ "'")%string]
        | _ => []
        end)%list
  else ["Warning: No metadata found for section '" ++ section_name ++ "'"].

End BuildSectionMore.

(** ** The rest of utils/generate_bibfiles.py *)
Module GenerateBibfilesMore.
Import PyStr GenerateBibfiles.
Local Open Scope py_scope.

(** [s.split(sep, 1)] for a separator that is not empty: the text before
    the first occurrence of [sep] and the text after it. *)
Fixpoint split1_at (sep s : string) : list string :=
  match s with
  | EmptyString => [EmptyString]
  | String a r =>
      if startswith s sep then [EmptyString; drop (String.length sep) s]
      else match split1_at sep r with
           | h :: t => String a h :: t
           | [] => [String a EmptyString]
           end
  end.

(** The separator of a mapping line. *)
Definition arrow : string := " -> ".

(** Lines 20-25: one line of the mapping file. *)
Definition mapping_line (mappings : ODict.t string) (raw : string)
  : result (ODict.t string) :=
  let line := strip raw in
  if nonempty line && negb (startswith line "#") then
    if contains line arrow then
      match split1_at arrow line with
      | [old; new] => Ok (ODict.set mappings (strip old) (strip new))
      | _ => Raise ValueError
      end
    else Ok mappings
  else Ok mappings.

Fixpoint mapping_lines (mappings : ODict.t string) (lines : list string)
  : result (ODict.t string) :=
  match lines with
  | [] => Ok mappings
  | l :: r => m <- mapping_line mappings l ;; mapping_lines m r
  end.

(** [load_keyword_mappings] (lines 15-26), given what is at
    [mapping_file]: [None] when [os.path.exists] is false, otherwise the
    lines of the file. *)
Definition load_keyword_mappings (file : option (list string))
  : result (ODict.t string) :=
  match file with
  | None => Ok ODict.empty
  | Some lines => mapping_lines ODict.empty lines
  end.

(** A key and a value that are stripped and not empty. *)
Definition tidy_pair (p : string * string) : Prop :=
  (fst p <> EmptyString /\ strip (fst p) = fst p)
  /\ (snd p <> EmptyString /\ strip (snd p) = snd p).

(** A keyword that survives a join with [", "] and a split at [","]: it
    has no comma and no white space around it. *)
Definition clean (kw : string) : bool :=
  negb (contains_char "," kw) && String.eqb (strip kw) kw.

(** The values of a mapping. *)
Definition values {V : Type} (d : ODict.t V) : list V := map snd d.

(** The subset a surviving keyword names, as [tagged_as] on the keywords
    that survive. *)
Definition names_subset (tag_prefix kw s : string) : Prop :=
  startswith kw tag_prefix = true
  /\ s = strip (drop (String.length tag_prefix) kw)
  /\ s <> EmptyString.

(** The entries of a subset, in the order of the bibliography. *)
Definition subset_entries (entries : ODict.t Entry) (tag_prefix s : string)
  : ODict.t Entry :=
  filter (fun x => taggedb tag_prefix (snd x) s) entries.

(** [subsets.get(s, {})] *)
Definition subset_of (subsets : subsets_t) (s : string) : ODict.t Entry :=
  match ODict.get subsets s with Some d => d | None => ODict.empty end.

(** [os.path.join(a, b)] on POSIX paths. *)
Definition path_join (a b : string) : string :=
  if startswith b "/" then b
  else if negb (nonempty a) || endswith a "/" then a ++ b
  else a ++ "/" ++ b.

(** The parsed command line of [main]. *)
Record bib_args : Type := {
  arg_input_bib : string;
  arg_output_dir : string;
  arg_prefix : string;
  arg_keyword_map : string;
  arg_valid_prefixes : list string
}.

(** Lines 121-128: the processed bibliography. *)
Fixpoint process_all (items : list (string * Entry))
    (keyword_mappings : ODict.t string) (valid_prefixes : list string)
    (processed_entries : ODict.t Entry) : ODict.t Entry :=
  match items with
  | [] => processed_entries
  | (key, entry) :: r =>
      process_all r keyword_mappings valid_prefixes
        (ODict.set processed_entries key
           (process_keywords entry keyword_mappings (Some valid_prefixes)))
  end.

Section Main.

(** The file system is a state [fs] with the operations [main] uses; the
    texts of the messages that report a written file hold a character
    above code point 255.  [main] is stated for any such state and
    messages; the entries that pybtex holds are the entries given to it,
    under their keys. *)
Variable fs : Type.
(** [os.path.exists] *)
Variable fs_exists : fs -> string -> bool.
(** [os.makedirs(d, exist_ok=True)] *)
Variable fs_makedirs : fs -> string -> fs.
(** the lines of a text file that exists *)
Variable fs_lines : fs -> string -> list string.
(** [pybtex.database.parse_file] *)
Variable fs_parse : fs -> string -> ODict.t Entry.
(** [BibliographyData(entries=...).to_file(path)] *)
Variable fs_write : fs -> string -> ODict.t Entry -> fs.
(** the message for a written file and its number of entries *)
Variable report : string -> nat -> string.

(** Lines 134-137: one file for each subset. *)
Fixpoint write_subsets (output_dir : string)
    (subsets : list (string * ODict.t Entry)) (s : fs) (out : stdout)
  : fs * stdout :=
  match subsets with
  | [] => (s, out)
  | (name, entries) :: r =>
      let out_path := path_join output_dir (name ++ ".bib") in
      write_subsets output_dir r (fs_write s out_path entries)
        (out ++ [report (name ++ ".bib")%string (List.length entries)])%list
  end.

Definition main (a : bib_args) (s : fs) (out : stdout)
  : fs * stdout * result unit :=
  if negb (fs_exists s (arg_input_bib a)) then
    (s, (out ++ [("Error: " ++ arg_input_bib a ++ " not found")%string])%list,
     Raise (SystemExit 1))
  else
    let s1 := fs_makedirs s (arg_output_dir a) in
    match load_keyword_mappings
            (if fs_exists s1 (arg_keyword_map a)
             then Some (fs_lines s1 (arg_keyword_map a)) else None) with
    | Raise e => (s1, out, Raise e)
    | Ok keyword_mappings =>
        let bib_data := fs_parse s1 (arg_input_bib a) in
        let processed :=
          process_all bib_data keyword_mappings (arg_valid_prefixes a)
            ODict.empty in
        let (subsets, all_entries) :=
          extract_tagged_entries processed (arg_prefix a) in
        let (s2, out2) := write_subsets (arg_output_dir a) subsets s1 out in
        let all_path := path_join (arg_output_dir a) "all.bib" in
        if negb (fs_exists s2 all_path) then
          (fs_write s2 all_path all_entries,
           (out2 ++ [report "all.bib" (List.length all_entries)])%list,
           Ok tt)
        else (s2, out2, Ok tt)
    end.

End Main.








End GenerateBibfilesMore.

(** ** The tag statistics of utils/status.py *)
Module StatusMore.
Import PyStr BuildSection.
Local Open Scope py_scope.

(** [for tag in unit_data.get('tags', [])]: the items the loop visits, the
    characters of a string one by one, [TypeError] on an int. *)
Definition iter_tags (m : unit_meta) : result (list string) :=
  match ODict.get m "tags" with
  | None => Ok []
  | Some (VList l) => Ok l
  | Some (VStr s) => Ok (map (fun c => String c EmptyString) (chars s))
  | Some (VInt _) => Raise TypeError
  end.

(** [tag_count]: tag -> number of units *)
Definition counts : Type := ODict.t Z.

(** Line 190: [tag_count[tag] = tag_count.get(tag, 0) + 1] *)
Definition bump (tag_count : counts) (tag : string) : counts :=
  ODict.set tag_count tag
    (match ODict.get tag_count tag with Some n => n | None => 0%Z end + 1)%Z.

(** Lines 189-190 *)
Fixpoint count_tags (tags : list string) (tag_count : counts) : counts :=
  match tags with
  | [] => tag_count
  | tag :: r => count_tags r (bump tag_count tag)
  end.

(** Lines 188-190 *)
Fixpoint count_units (units : list (string * unit_meta)) (tag_count : counts)
  : result counts :=
  match units with
  | [] => Ok tag_count
  | (_, unit_data) :: r =>
      tags <- iter_tags unit_data ;;
      count_units r (count_tags tags tag_count)
  end.

(** Lines 187-190 *)
Fixpoint count_sections (sections : list (string * section_meta))
    (tag_count : counts) : result counts :=
  match sections with
  | [] => Ok tag_count
  | (_, section_data) :: r =>
      tc <- count_units section_data tag_count ;;
      count_sections r tc
  end.

(** Lines 186-190 of [main]: the Quick Stats. *)
Definition tag_count (metadata : metadata_t) : result counts :=
  count_sections metadata ODict.empty.

(** A stable insertion sort by count, with [<] as the only comparison. *)
Fixpoint insert_count (x : string * Z) (l : list (string * Z))
  : list (string * Z) :=
  match l with
  | [] => [x]
  | y :: r => if (snd y <? snd x)%Z then y :: insert_count x r
              else x :: y :: r
  end.

Fixpoint sort_counts (l : list (string * Z)) : list (string * Z) :=
  match l with
  | [] => []
  | x :: r => insert_count x (sort_counts r)
  end.

(** [sorted(items, key=lambda x: x[1], reverse=True)]: the list is
    reversed, sorted and reversed again, which keeps items of one count in
    their order. *)
Definition sorted_reverse (items : list (string * Z)) : list (string * Z) :=
  rev (sort_counts (rev items)).

(** Line 194: the five most common tags. *)
Definition most_common (tag_count : counts) : list (string * Z) :=
  firstn 5 (sorted_reverse tag_count).

(** *** The vocabulary of the properties *)

(** The tags of all units of all sections, with repetitions. *)
Definition unit_tags (units : section_meta) : list string :=
  flat_map (fun x => tag_list (snd x)) units.

Definition all_tags (md : metadata_t) : list string :=
  flat_map (fun x => unit_tags (snd x)) md.

(** Every ['tags'] property of the metadata is a list. *)
Definition tags_are_lists (md : metadata_t) : bool :=
  forallb (fun s => forallb (fun x => tags_is_list (snd x)) (snd s)) md.

(** The number of times a tag occurs. *)
Definition occurrences (l : list string) (t : string) : nat :=
  count_occ string_dec l t.

(** What a count dictionary says of a number of occurrences. *)
Definition counted (n : nat) : option Z :=
  match n with O => None | S _ => Some (Z.of_nat n) end.

(** The orders of the ranking: by descending and by ascending count. *)
Definition higher (a b : string * Z) : Prop := (snd b <= snd a)%Z.

Definition lower_first (a b : string * Z) : Prop := (snd a <= snd b)%Z.

(** The items of one count. *)
Definition with_count (c : Z) (x : string * Z) : bool := (snd x =? c)%Z.

(** A metadata with repeated tags. *)
Definition sample_md : metadata_t :=
  [ ("education",
     [ ("phd", [("tags", VList ["full_cv"; "short_cv"])]);
       ("msc", [("tags", VList ["full_cv"])]);
       ("bsc", []) ]);
    ("jobs",
     [ ("first", [("tags", VList ["old"; "full_cv"])]) ]) ].

End StatusMore.

(** ** More sample inputs *)
Module MoreSamples.
Import BuildSection GenerateBibfiles GenerateBibfilesMore Samples.

(** [education_lines] as a file yields them, each with its line end. *)
Definition education_lines_nl : list string :=
  map (fun l => l ++ nl) education_lines.

(** Units whose priorities are an int and a string. *)
Definition mixed_priorities : section_meta :=
  [ ("a", [("priority", VInt 1)]); ("b", [("priority", VStr "high")]) ].


(** The entry read from
    [@article{k3, Title = {A title}, Keywords = {pub:journal, peer}}]. *)
Definition capitalised : Entry :=
  {| type := "article";
     original_type := "article";
     fields := [("title", "A title"); ("keywords", "pub:journal, peer")];
     spelling := [("title", "Title"); ("keywords", "Keywords")];
     persons := [];
     key := Some "k3" |}.

(** The entry read from [@article{k4, Keywords = {peer}}]. *)
Definition capitalised_untagged : Entry :=
  {| type := "article";
     original_type := "article";
     fields := [("keywords", "peer")];
     spelling := [("keywords", "Keywords")];
     persons := [];
     key := Some "k4" |}.

(** The same entries with their field names in lower case. *)
Definition lower_case : Entry :=
  {| type := "article";
     original_type := "article";
     fields := [("title", "A title"); ("keywords", "pub:journal, peer")];
     spelling := [];
     persons := [];
     key := Some "k3" |}.

Definition lower_case_untagged : Entry :=
  {| type := "article";
     original_type := "article";
     fields := [("keywords", "peer")];
     spelling := [];
     persons := [];
     key := Some "k4" |}.

(** A property whose value stands in a pair of double quotes. *)
Definition quoted_lines : list string :=
  ["s:"; "  u:"; "    k: " ++ dquote ++ "M Sc" ++ dquote].

(** A metadata file with a unit named [./phd]. *)
Definition dotted_lines : list string :=
  ["education:"; "  ./phd:"; "    priority: 1"].

(** A mapping file. *)
Definition mapping_file : list string :=
  [ "# old -> new";
    EmptyString;
    "  peer reviewed  ->  meta:peer ";
    "x->y";
    "a -> b -> c" ].

End MoreSamples.

(* ================================================================== *)
(** * Part II: lemmas on strings, dictionaries and the monads *)
(* ================================================================== *)

Section StringFacts.
Import PyStr.

Lemma chars_of_chars (l : list ascii) : chars (of_chars l) = l.
Proof. apply list_ascii_of_string_of_list_ascii. Qed.

Lemma contains_char_rev_str (c : ascii) (s : string) :
  contains_char c (rev_str s) = contains_char c s.
Proof.
  unfold contains_char, rev_str. rewrite chars_of_chars.
  apply eq_true_iff_eq. rewrite !existsb_exists.
  split; intros [x [Hin Hx]]; exists x; split; auto;
    [apply in_rev | apply in_rev in Hin]; assumption.
Qed.

Lemma contains_char_lstrip (c : ascii) (s : string) :
  isspace c = false -> contains_char c (lstrip s) = contains_char c s.
Proof.
  intros Hc. induction s as [|a s IH]; [reflexivity|].
  simpl. destruct (isspace a) eqn:Ha; [|reflexivity].
  rewrite IH. unfold contains_char. simpl.
  destruct (Ascii.eqb c a) eqn:E; [|reflexivity].
  apply Ascii.eqb_eq in E. subst a. congruence.
Qed.

Lemma contains_char_rstrip (c : ascii) (s : string) :
  isspace c = false -> contains_char c (rstrip s) = contains_char c s.
Proof.
  intros Hc. unfold rstrip.
  rewrite contains_char_rev_str, contains_char_lstrip by assumption.
  apply contains_char_rev_str.
Qed.

Lemma contains_char_strip (c : ascii) (s : string) :
  isspace c = false -> contains_char c (strip s) = contains_char c s.
Proof.
  intros Hc. unfold strip.
  rewrite contains_char_lstrip, contains_char_rstrip by assumption.
  reflexivity.
Qed.

(** Splitting at the first separator of a string that has one gives
    exactly two parts. *)
Lemma split1_two (c : ascii) (s : string) :
  contains_char c s = true -> exists k v, split1 c s = [k; v].
Proof.
  induction s as [|a s IH]; [discriminate|].
  unfold contains_char. simpl. intros H.
  destruct (Ascii.eqb a c) eqn:E.
  - eauto.
  - rewrite Ascii.eqb_sym, E in H. simpl in H.
    destruct (IH H) as [k [v Hkv]]. rewrite Hkv. eauto.
Qed.

Lemma startswith_cons (a b : ascii) (s p : string) :
  startswith (String a s) (String b p) = Ascii.eqb a b && startswith s p.
Proof.
  unfold startswith. simpl.
  destruct (ascii_dec b a) as [->|Hne].
  - rewrite Ascii.eqb_refl. reflexivity.
  - destruct (Ascii.eqb a b) eqn:E; [|reflexivity].
    apply Ascii.eqb_eq in E. congruence.
Qed.

Lemma startswith_nil (p : string) (a : ascii) :
  startswith EmptyString (String a p) = false.
Proof. reflexivity. Qed.

(** A line indented four spaces is indented one space and two. *)
Lemma indent4_indent1 (s : string) :
  startswith s "    " = true -> startswith s " " = true.
Proof.
  destruct s as [|a s]; [discriminate|].
  rewrite !startswith_cons. intros H.
  apply andb_true_iff in H. destruct H as [H _]. rewrite H.
  destruct s; reflexivity.
Qed.

(** The only string shorter than two characters that starts and ends
    with a double quote is the lone double quote. *)
Lemma lone_quote (v : string) :
  startswith v dquote = true -> (String.length v < 2)%nat -> v = dquote.
Proof.
  destruct v as [|a [|b v]]; intros H Hlen.
  - discriminate.
  - unfold dquote in *. rewrite startswith_cons in H.
    apply andb_true_iff in H. destruct H as [H _].
    apply Ascii.eqb_eq in H. subst a. reflexivity.
  - simpl in Hlen. lia.
Qed.

Lemma unquote_pair_code (v : string) :
  v <> dquote ->
  (if startswith v dquote && endswith v dquote then inner v else v)
  = BuildSection.unquote_pair v.
Proof.
  intros Hv. unfold BuildSection.unquote_pair.
  destruct (2 <=? String.length v)%nat eqn:Hlen; [reflexivity|].
  apply Nat.leb_gt in Hlen. simpl.
  destruct (startswith v dquote) eqn:Hs; [|reflexivity].
  exfalso. apply Hv. apply lone_quote; assumption.
Qed.

Lemma append_nonempty (a b : string) :
  a <> EmptyString -> (a ++ b)%string <> EmptyString.
Proof. destruct a; [congruence | discriminate]. Qed.


Lemma nonempty_true (s : string) : nonempty s = true <-> s <> EmptyString.
Proof.
  unfold nonempty. rewrite negb_true_iff.
  split; intros H.
  - intros ->. discriminate.
  - apply String.eqb_neq. assumption.
Qed.


End StringFacts.

Section DictFacts.
Context {V : Type}.
Implicit Types (d : ODict.t V) (k : string) (v : V).

Lemma get_set_same d k v : ODict.get (ODict.set d k v) k = Some v.
Proof.
  induction d as [|[k' v'] d IH]; simpl.
  - rewrite String.eqb_refl. reflexivity.
  - destruct (String.eqb k' k) eqn:E; simpl; rewrite E; auto.
Qed.

Lemma get_set_other d k k' v :
  k <> k' -> ODict.get (ODict.set d k v) k' = ODict.get d k'.
Proof.
  intros Hne. induction d as [|[k0 v0] d IH]; simpl.
  - apply String.eqb_neq in Hne. rewrite Hne. reflexivity.
  - destruct (String.eqb k0 k) eqn:E; simpl.
    + apply String.eqb_eq in E. subst k0.
      apply String.eqb_neq in Hne. rewrite Hne. reflexivity.
    + rewrite IH. reflexivity.
Qed.

Lemma get_set d k k' v :
  ODict.get (ODict.set d k v) k'
  = if String.eqb k k' then Some v else ODict.get d k'.
Proof.
  destruct (String.eqb k k') eqn:E.
  - apply String.eqb_eq in E. subst. apply get_set_same.
  - apply String.eqb_neq in E. apply get_set_other. assumption.
Qed.

Lemma get_remove_same d k : ODict.get (ODict.remove d k) k = None.
Proof.
  unfold ODict.remove. induction d as [|[k' v'] d IH]; simpl; auto.
  destruct (String.eqb k' k) eqn:E; simpl; auto. rewrite E. assumption.
Qed.

Lemma get_remove_other d k k' :
  k <> k' -> ODict.get (ODict.remove d k) k' = ODict.get d k'.
Proof.
  intros Hne. unfold ODict.remove.
  induction d as [|[k0 v0] d IH]; simpl; auto.
  destruct (String.eqb k0 k) eqn:E; simpl.
  - apply String.eqb_eq in E. subst k0.
    apply String.eqb_neq in Hne. rewrite Hne. assumption.
  - rewrite IH. reflexivity.
Qed.

Lemma get_none_keys d k : ODict.get d k = None <-> ~ In k (ODict.keys d).
Proof.
  induction d as [|[k' v'] d IH]; simpl.
  - tauto.
  - destruct (String.eqb k' k) eqn:E.
    + apply String.eqb_eq in E. subst. split; [discriminate | tauto].
    + apply String.eqb_neq in E. rewrite IH. tauto.
Qed.

Lemma get_in d k v : ODict.get d k = Some v -> In (k, v) d.
Proof.
  induction d as [|[k' v'] d IH]; simpl; [discriminate|].
  destruct (String.eqb k' k) eqn:E.
  - apply String.eqb_eq in E. subst. intros [= ->]. auto.
  - auto.
Qed.

(** In a dictionary a key names one value. *)
Lemma in_get d k v : ODict.wf d -> In (k, v) d -> ODict.get d k = Some v.
Proof.
  unfold ODict.wf, ODict.keys.
  induction d as [|[k' v'] d IH]; simpl; [tauto|].
  intros Hnd [Heq | Hin].
  - inversion Heq; subst. rewrite String.eqb_refl. reflexivity.
  - inversion Hnd as [|? ? Hnotin Hnd']; subst.
    destruct (String.eqb k' k) eqn:E.
    + apply String.eqb_eq in E. subst k'. exfalso. apply Hnotin.
      change k with (fst (k, v)). apply in_map. assumption.
    + auto.
Qed.

(** Assigning to a key that is not there appends it. *)
Lemma set_absent d k v :
  ODict.get d k = None -> ODict.set d k v = (d ++ [(k, v)])%list.
Proof.
  induction d as [|[k' v'] d IH]; simpl; [reflexivity|].
  destruct (String.eqb k' k); [discriminate|].
  intros H. rewrite IH by assumption. reflexivity.
Qed.

End DictFacts.

(** ** The parsing loop *)
Section ParserFacts.
Import PyStr BuildSection.

(** An iteration of the loop does what the shape of its line says. *)
Lemma parse_line_classify (st : pstate) (raw : string) :
  parse_line st raw = apply_kind st (classify raw).
Proof.
  unfold parse_line, classify.
  destruct (negb (nonempty (strip (rstrip raw)))
            || startswith (strip (rstrip raw)) "#"); [reflexivity|].
  destruct (endswith (rstrip raw) ":" && negb (startswith (rstrip raw) " "));
    [reflexivity|].
  destruct (startswith (rstrip raw) "  " && endswith (rstrip raw) ":"
            && negb (startswith (rstrip raw) "    ")); [reflexivity|].
  destruct (startswith (rstrip raw) "    " && contains_char ":" (rstrip raw));
    [|reflexivity].
  destruct (split1 ":" (strip (rstrip raw))) as [|key [|value [|x l]]];
    reflexivity.
Qed.

Lemma classify_section_line (raw : string) :
  is_section_line raw = true ->
  classify raw = SectionLine (section_name_of raw).
Proof.
  unfold is_section_line, classify, section_name_of.
  intros H. apply andb_true_iff in H. destruct H as [H H3].
  apply andb_true_iff in H. destruct H as [H1 H2].
  apply negb_true_iff in H1. rewrite H1, H2, H3. reflexivity.
Qed.

(** A property line is split into a key and a value. *)
Lemma classify_property_line (raw : string) :
  is_property_line raw = true ->
  exists key value,
    split1 ":" (strip (rstrip raw)) = [key; value]
    /\ classify raw = PropertyLine key (strip value).
Proof.
  unfold is_property_line, classify. intros H.
  apply andb_true_iff in H. destruct H as [H H3].
  apply andb_true_iff in H. destruct H as [H1 H2].
  apply negb_true_iff in H1. rewrite H1, H2, H3.
  rewrite (indent4_indent1 _ H2). simpl. rewrite !andb_false_r.
  destruct (split1_two ":" (strip (rstrip raw))) as [key [value Hs]].
  - rewrite contains_char_strip by reflexivity. assumption.
  - exists key, value. rewrite Hs. split; reflexivity.
Qed.

Lemma parse_lines_app (st : pstate) (l1 l2 : list string) :
  parse_lines st (l1 ++ l2)
  = rbind (parse_lines st l1) (fun st' => parse_lines st' l2).
Proof.
  revert st. induction l1 as [|x l1 IH]; intros st;
    cbn [app parse_lines rbind]; [reflexivity|].
  destruct (parse_line st x); cbn [rbind]; auto.
Qed.

Lemma rbind_ok {A B : Type} (r : result A) (k : A -> result B) (b : B) :
  rbind r k = Ok b -> exists a, r = Ok a /\ k a = Ok b.
Proof. destruct r; simpl; [eauto | discriminate]. Qed.

Lemma isdecimal_isdigit (v : string) :
  isdecimal v = true -> isdigit v = true.
Proof.
  unfold isdecimal, isdigit. intros H.
  apply andb_true_iff in H. destruct H as [Hne Hall].
  rewrite Hne. simpl. rewrite forallb_forall in *.
  intros c Hc. specialize (Hall c Hc).
  unfold isdigit_char, isdecimal_char in *. rewrite Hall. reflexivity.
Qed.

(** When [int] takes every value that [isdigit] takes, the digit test and
    the decimal test agree. *)
Lemma accepted_digits (v : string) :
  isdigit v = int_accepts v -> isdecimal v = int_accepts v.
Proof.
  unfold int_accepts. intros H.
  destruct (isdecimal v) eqn:Hd; [|reflexivity].
  rewrite (isdecimal_isdigit v Hd) in H. rewrite <- H. reflexivity.
Qed.

Lemma lookup_set_property (md md' : metadata_t) (cs cu key : string)
    (v : pyval) :
  set_property md cs cu key v = Ok md' -> lookup md' cs cu key = Some v.
Proof.
  unfold set_property, getitem, lookup. intros H.
  destruct (ODict.get md cs) as [sec|]; simpl in H; [|discriminate].
  destruct (ODict.get sec cu) as [u|]; simpl in H; [|discriminate].
  injection H as <-. rewrite !get_set_same. reflexivity.
Qed.

Lemma set_property_ok (md : metadata_t) (cs cu key : string) (v : pyval)
    (sec : section_meta) (u : unit_meta) :
  ODict.get md cs = Some sec -> ODict.get sec cu = Some u ->
  set_property md cs cu key v
  = Ok (ODict.set md cs (ODict.set sec cu (ODict.set u key v))).
Proof.
  intros H1 H2. unfold set_property, getitem. rewrite H1. simpl.
  rewrite H2. reflexivity.
Qed.

(** The parser raises [KeyError], [ValueError] or nothing: it never
    exits. *)
Lemma parse_value_no_exit (v : string) : no_exit (parse_value v).
Proof.
  unfold parse_value, py_int.
  destruct (startswith v "[" && endswith v "]"); simpl; auto.
  destruct (isdigit v); simpl; auto. destruct (int_accepts v); simpl; auto.
Qed.

Lemma apply_kind_no_exit (st : pstate) (k : line_kind) :
  no_exit (apply_kind st k).
Proof.
  destruct k as [|cs|cu|key value|]; simpl; auto.
  - destruct (held (current_section st)); simpl; auto.
    unfold set_unit, getitem.
    destruct (ODict.get (metadata st) s); simpl; auto.
  - destruct (held (current_section st)); simpl; auto.
    destruct (held (current_unit st)); simpl; auto.
    pose proof (parse_value_no_exit value) as Hv.
    destruct (parse_value value) as [v|e]; simpl; auto.
    unfold set_property, getitem.
    destruct (ODict.get (metadata st) s) as [sec|]; simpl; auto.
    destruct (ODict.get sec s0); simpl; auto.
Qed.

Lemma parse_lines_no_exit (lines : list string) (st : pstate) :
  no_exit (parse_lines st lines).
Proof.
  revert st. induction lines as [|x l IH]; intros st;
    cbn [parse_lines]; [exact I|].
  pose proof (apply_kind_no_exit st (classify x)) as H.
  rewrite parse_line_classify.
  destruct (apply_kind st (classify x)); cbn [rbind]; auto.
Qed.

Lemma parse_metadata_no_exit (lines : list string) :
  no_exit (parse_metadata lines).
Proof.
  unfold parse_metadata.
  pose proof (parse_lines_no_exit lines init) as H.
  destruct (parse_lines init lines); simpl; auto.
Qed.

End ParserFacts.

(** ** A section name that occurs again *)
Section Rebinding.
Import PyStr BuildSection.
Variable s : string.

Lemma held_some (o : option string) (c : string) :
  held o = Some c -> o = Some c.
Proof.
  destruct o as [x|]; simpl; [|discriminate].
  destruct (nonempty x); [congruence | discriminate].
Qed.

Lemma agree_step (k : line_kind) (st1 st2 st1' : pstate) :
  agree s st1 st2 -> apply_kind st1 k = Ok st1' ->
  exists st2', apply_kind st2 k = Ok st2' /\ agree s st1' st2'.
Proof.
  intros (Hcs & Hs & Hcur & Hcu) Hstep.
  destruct k as [|cs|cu|key value|]; simpl in *.
  - (* a skipped line *)
    injection Hstep as <-. exists st2. repeat split; auto.
  - (* a section line *)
    injection Hstep as <-. eexists. split; [reflexivity|].
    repeat split; simpl.
    + rewrite !get_set. destruct (String.eqb cs s); auto.
    + intros c [= <-]. rewrite !get_set_same. reflexivity.
    + destruct Hcu as [Hcu | [Hnone _]]; [left; assumption|].
      right. split; [assumption|].
      intros c c1 sec Hc _ Hsec. simpl in Hc, Hsec.
      change (held (Some cs) = Some c) in Hc.
      apply held_some in Hc. injection Hc as <-.
      rewrite get_set_same in Hsec. injection Hsec as <-. reflexivity.
  - (* a unit line *)
    rewrite <- Hcs.
    destruct (held (current_section st1)) as [c|] eqn:Hheld.
    + apply held_some in Hheld.
      unfold set_unit, getitem in *. rewrite <- (Hcur c Hheld).
      destruct (ODict.get (metadata st1) c) as [sec|]; simpl in *;
        [|discriminate].
      injection Hstep as <-. eexists. split; [reflexivity|].
      repeat split; simpl; auto.
      * rewrite !get_set. destruct (String.eqb c s); auto.
      * intros c' Hc'. rewrite Hheld in Hc'. injection Hc' as <-.
        rewrite !get_set_same. reflexivity.
    + injection Hstep as <-. eexists. split; [reflexivity|].
      repeat split; simpl; auto.
  - (* a property line *)
    rewrite <- Hcs.
    destruct (held (current_section st1)) as [c|] eqn:Hheld;
      [|injection Hstep as <-; exists st2; repeat split; auto].
    destruct Hcu as [Hcu | [Hnone Hstale]].
    + rewrite <- Hcu.
      destruct (held (current_unit st1)) as [c1|] eqn:Hheld1;
        [|injection Hstep as <-; exists st2; repeat split; auto].
      destruct (parse_value value) as [v|e]; simpl in *; [|discriminate].
      pose proof (held_some _ _ Hheld) as Hc.
      unfold set_property, getitem in *. rewrite <- (Hcur c Hc).
      destruct (ODict.get (metadata st1) c) as [sec|]; simpl in *;
        [|discriminate].
      destruct (ODict.get sec c1) as [u|]; simpl in *; [|discriminate].
      injection Hstep as <-. eexists. split; [reflexivity|].
      repeat split; simpl; auto.
      * rewrite !get_set. destruct (String.eqb c s); auto.
      * intros c' Hc'. rewrite Hc in Hc'. injection Hc' as <-.
        rewrite !get_set_same. reflexivity.
    + rewrite Hnone. simpl.
      destruct (held (current_unit st1)) as [c1|] eqn:Hheld1.
      * exfalso.
        destruct (parse_value value) as [v|e]; simpl in *; [|discriminate].
        unfold set_property, getitem in Hstep.
        destruct (ODict.get (metadata st1) c) as [sec|] eqn:Hsec;
          simpl in *; [|discriminate].
        rewrite (Hstale c c1 sec Hheld Hheld1 Hsec) in Hstep.
        discriminate.
      * injection Hstep as <-. exists st2. repeat split; auto.
  - discriminate.
Qed.

Lemma agree_run (lines : list string) (st1 st2 f1 : pstate) :
  agree s st1 st2 -> parse_lines st1 lines = Ok f1 ->
  exists f2, parse_lines st2 lines = Ok f2 /\ agree s f1 f2.
Proof.
  revert st1 st2. induction lines as [|x l IH]; intros st1 st2 Hag Hrun.
  - cbn [parse_lines] in *. injection Hrun as <-. eauto.
  - cbn [parse_lines] in *. apply rbind_ok in Hrun.
    destruct Hrun as [st1' [H1 Hrest]].
    rewrite parse_line_classify in *.
    destruct (agree_step _ _ _ _ Hag H1) as [st2' [H2 Hag']].
    rewrite H2. cbn [rbind]. eapply IH; eassumption.
Qed.

(** After a line that names the section [s], a run agrees with a run
    that starts at that line. *)
Lemma agree_after_section (st1 : pstate) :
  agree s
    {| metadata := ODict.set (metadata st1) s ODict.empty;
       current_section := Some s;
       current_unit := current_unit st1 |}
    {| metadata := ODict.set (metadata init) s ODict.empty;
       current_section := Some s;
       current_unit := current_unit init |}.
Proof.
  repeat split; simpl.
  - rewrite get_set_same, String.eqb_refl. reflexivity.
  - intros c [= <-]. rewrite get_set_same, String.eqb_refl. reflexivity.
  - right. split; [reflexivity|].
    intros c c1 sec Hc _ Hsec. simpl in Hc, Hsec.
    change (held (Some s) = Some c) in Hc.
    apply held_some in Hc. injection Hc as <-.
    rewrite get_set_same in Hsec. injection Hsec as <-. reflexivity.
Qed.

End Rebinding.

(** ** Selecting, ordering and reading the units *)
Section SelectionFacts.
Import PyStr BuildSection.

Lemma any_in_list (ts l : list string) :
  any_in ts (VList l) = Ok (any_of ts l).
Proof.
  induction ts as [|t ts IH]; simpl; [reflexivity|].
  destruct (existsb (String.eqb t) l); simpl; auto.
Qed.

Lemma tags_of_list (m : unit_meta) :
  tags_is_list m = true -> tags_of m = VList (tag_list m).
Proof.
  unfold tags_is_list, tags_of, tag_list.
  destruct (ODict.get m "tags") as [[x|n|l]|]; congruence.
Qed.

Lemma excluded_list (ex : option (list string)) (m : unit_meta) :
  tags_is_list m = true ->
  excluded ex m
  = Ok (match ex with Some l => any_of l (tag_list m) | None => false end).
Proof.
  intros H. unfold excluded. destruct ex as [[|t r]|]; try reflexivity.
  rewrite (tags_of_list m H). apply any_in_list.
Qed.

Lemma included_list (tags : option (list string)) (m : unit_meta) :
  tags_is_list m = true ->
  included tags m
  = Ok (match tags with Some l => any_of l (tag_list m) | None => true end).
Proof.
  intros H. unfold included. destruct tags as [ts|]; [|reflexivity].
  rewrite (tags_of_list m H). apply any_in_list.
Qed.

(** On units whose tags are lists the loop is a filter. *)
Lemma filter_loop_filter (items : list (string * unit_meta))
    (tags ex : option (list string)) (acc : list (string * unit_meta)) :
  forallb (fun x => tags_is_list (snd x)) items = true ->
  filter_loop items tags ex acc
  = Ok (acc ++ filter (fun x => selectedb tags ex (snd x)) items)%list.
Proof.
  revert acc. induction items as [|[u m] items IH]; intros acc H; simpl.
  - rewrite app_nil_r. reflexivity.
  - simpl in H. apply andb_true_iff in H. destruct H as [Hm Hrest].
    rewrite (excluded_list ex m Hm). simpl. unfold selectedb at 1.
    destruct (match ex with Some l => any_of l (tag_list m) | None => false end);
      simpl; [apply IH; assumption|].
    rewrite (included_list tags m Hm). simpl.
    destruct (match tags with Some l => any_of l (tag_list m) | None => true end).
    + rewrite IH by assumption. rewrite <- app_assoc. reflexivity.
    + apply IH; assumption.
Qed.

Lemma any_of_has_any (wanted l : list string) :
  any_of wanted l = true <-> has_any wanted l.
Proof.
  unfold any_of, has_any. rewrite existsb_exists.
  split.
  - intros [t [Hin Hex]]. apply existsb_exists in Hex.
    destruct Hex as [y [Hy E]]. apply String.eqb_eq in E. subst y. eauto.
  - intros [t [Hin Hl]]. exists t. split; [assumption|].
    apply existsb_exists. exists t. split; [assumption|].
    apply String.eqb_refl.
Qed.

Lemma selectedb_selected_by (tags ex : option (list string)) (m : unit_meta) :
  selectedb tags ex m = true <-> selected_by tags ex m.
Proof.
  unfold selectedb, selected_by. rewrite andb_true_iff, negb_true_iff.
  split.
  - intros [Hex Hin]. split.
    + destruct tags as [ts|]; [right | left; reflexivity].
      exists ts. split; [reflexivity|]. apply any_of_has_any. assumption.
    + intros [l [-> Hl]]. apply any_of_has_any in Hl. congruence.
  - intros [Hin Hex]. split.
    + destruct ex as [l|]; [|reflexivity].
      destruct (any_of l (tag_list m)) eqn:E; [|reflexivity].
      exfalso. apply Hex. exists l. split; [reflexivity|].
      apply any_of_has_any. assumption.
    + destruct Hin as [-> | [ts [-> Hts]]]; [reflexivity|].
      apply any_of_has_any. assumption.
Qed.

(** The filter raises [TypeError] or nothing. *)
Lemma any_in_no_exit (ts : list string) (v : pyval) : no_exit (any_in ts v).
Proof.
  induction ts as [|t ts IH]; simpl; auto.
  destruct v as [x|n|l]; simpl; auto.
  - destruct (contains x t); simpl; auto.
  - destruct (existsb (String.eqb t) l); simpl; auto.
Qed.

Lemma filter_loop_no_exit (items : list (string * unit_meta))
    (tags ex : option (list string)) (acc : list (string * unit_meta)) :
  no_exit (filter_loop items tags ex acc).
Proof.
  revert acc. induction items as [|[u m] items IH]; intros acc; simpl; auto.
  assert (He : no_exit (excluded ex m)).
  { unfold excluded. destruct ex as [[|t r]|]; simpl; auto.
    apply (any_in_no_exit (t :: r)). }
  destruct (excluded ex m) as [[|]|e]; simpl; auto.
  assert (Hi : no_exit (included tags m)).
  { unfold included. destruct tags as [ts|]; simpl; auto.
    apply any_in_no_exit. }
  destruct (included tags m) as [[|]|e]; simpl; auto.
Qed.

(** *** The sort *)

Lemma insert_unit_perm (x : string * unit_meta)
    (l l' : list (string * unit_meta)) :
  insert_unit x l = Ok l' -> Permutation (x :: l) l'.
Proof.
  revert l'. induction l as [|y l IH]; intros l' H; simpl in H.
  - injection H as <-. apply Permutation_refl.
  - destruct (py_lt (priority_key y) (priority_key x)) as [[|]|e];
      simpl in H; try discriminate.
    + destruct (insert_unit x l) as [r|e]; simpl in H; [|discriminate].
      injection H as <-.
      eapply Permutation_trans; [apply perm_swap|].
      apply perm_skip. apply IH. reflexivity.
    + injection H as <-. apply Permutation_refl.
Qed.

Lemma sort_units_perm (l l' : list (string * unit_meta)) :
  sort_units l = Ok l' -> Permutation l l'.
Proof.
  revert l'. induction l as [|x l IH]; intros l' H; simpl in H.
  - injection H as <-. apply perm_nil.
  - destruct (sort_units l) as [r|e]; simpl in H; [|discriminate].
    eapply Permutation_trans; [apply perm_skip, IH; reflexivity|].
    apply insert_unit_perm. assumption.
Qed.

Lemma priority_key_int (x : string * unit_meta) :
  priority_is_int x = true -> priority_key x = VInt (priority x).
Proof.
  unfold priority_is_int, priority_key, priority.
  destruct (ODict.get (snd x) "priority") as [[s|n|l]|]; congruence.
Qed.

Lemma insert_unit_int (x : string * unit_meta)
    (l : list (string * unit_meta)) :
  priority_is_int x = true ->
  forallb priority_is_int l = true ->
  exists l',
    insert_unit x l = Ok l'
    /\ forallb priority_is_int l' = true
    /\ (StronglySorted by_priority l -> StronglySorted by_priority l')
    /\ (forall p, filter (same_priority p) l'
                  = filter (same_priority p) (x :: l))
    /\ (forall y, In y l' -> y = x \/ In y l).
Proof.
  intros Hx. induction l as [|y l IH]; intros Hl.
  - exists [x]. simpl. rewrite Hx. repeat split; auto.
    + intros _. constructor; constructor.
    + intros y [<-|[]]. auto.
  - simpl in Hl. apply andb_true_iff in Hl. destruct Hl as [Hy Hl].
    simpl. rewrite (priority_key_int x Hx), (priority_key_int y Hy). simpl.
    destruct (priority y <? priority x)%Z eqn:E.
    + destruct (IH Hl) as (r & Hr & Hint & Hsort & Hstab & Hin).
      rewrite Hr. simpl. exists (y :: r). split; [reflexivity|].
      apply Z.ltb_lt in E. repeat split.
      * simpl. rewrite Hy, Hint. reflexivity.
      * intros Hs. inversion Hs as [|? ? Hs' Hall]; subst.
        constructor; [auto|].
        apply Forall_forall. intros z Hz.
        destruct (Hin z Hz) as [-> | Hz'].
        -- unfold by_priority. lia.
        -- rewrite Forall_forall in Hall. apply Hall. assumption.
      * intros p. simpl. rewrite Hstab. simpl.
        destruct (same_priority p y) eqn:Ey, (same_priority p x) eqn:Ex;
          try reflexivity.
        unfold same_priority in Ey, Ex. apply Z.eqb_eq in Ey, Ex. lia.
      * intros z [<- | Hz]; [right; left; reflexivity|].
        destruct (Hin z Hz) as [-> | Hz']; [left | right; right]; auto.
    + exists (x :: y :: l). split; [reflexivity|].
      apply Z.ltb_ge in E. repeat split.
      * simpl. rewrite Hx, Hy, Hl. reflexivity.
      * intros Hs. constructor; [assumption|].
        inversion Hs as [|? ? Hs' Hall]; subst.
        constructor; [exact E|].
        eapply Forall_impl; [|exact Hall].
        intros z Hz. unfold by_priority in *. lia.
      * intros z [<- | Hz]; auto.
Qed.

(** On integer priorities the sort returns, and returns a sorted list
    in which units of one priority are in their former order. *)
Lemma sort_units_int (l : list (string * unit_meta)) :
  forallb priority_is_int l = true ->
  exists l',
    sort_units l = Ok l'
    /\ forallb priority_is_int l' = true
    /\ StronglySorted by_priority l'
    /\ (forall p, filter (same_priority p) l' = filter (same_priority p) l).
Proof.
  induction l as [|x l IH]; intros Hl.
  - exists []. repeat split; auto. constructor.
  - simpl in Hl. apply andb_true_iff in Hl. destruct Hl as [Hx Hl].
    destruct (IH Hl) as (r & Hr & Hint & Hsort & Hstab).
    destruct (insert_unit_int x r Hx Hint) as (l' & Hl' & Hint' & Hs' & Hst' & _).
    exists l'. simpl. rewrite Hr. simpl. repeat split; auto.
    intros p. rewrite Hst'. simpl. rewrite Hstab. reflexivity.
Qed.

Lemma insert_unit_no_exit (x : string * unit_meta)
    (l : list (string * unit_meta)) : no_exit (insert_unit x l).
Proof.
  induction l as [|y l IH]; simpl; auto.
  destruct (priority_key y) as [a|a|a], (priority_key x) as [b|b|b];
    simpl; auto;
    match goal with
    | |- context [if ?c then _ else _] => destruct c; simpl; auto
    end;
    destruct (insert_unit x l) as [r|[]]; simpl in *; auto.
Qed.

Lemma sort_units_no_exit (l : list (string * unit_meta)) :
  no_exit (sort_units l).
Proof.
  induction l as [|x l IH]; simpl; auto.
  destruct (sort_units l) as [r|e]; simpl; auto.
  apply insert_unit_no_exit.
Qed.

Lemma select_units_no_exit (sd : section_meta) (tags : option (list string))
    (max_items : option Z) (ex : option (list string)) :
  no_exit (select_units sd tags max_items ex).
Proof.
  unfold select_units, filter_units.
  pose proof (filter_loop_no_exit sd tags ex []) as Hf.
  destruct (filter_loop sd tags ex []) as [f|e]; simpl; auto.
  pose proof (sort_units_no_exit f) as Hs.
  destruct (sort_units f) as [r|e]; simpl; auto.
Qed.

(** *** The reading loop *)

Lemma read_units_spec (w : world) (section_name : string)
    (units : list (string * unit_meta)) (acc : list string) (out : stdout) :
  read_units w section_name units acc out
  = ((out ++ warnings w section_name units)%list,
     Ok (acc ++ contributions w section_name units)%list).
Proof.
  revert acc out. induction units as [|[u m] units IH]; intros acc out.
  - simpl. rewrite !app_nil_r. reflexivity.
  - simpl. unfold contribution, warning_of. simpl.
    destruct (read_file w (unit_path section_name u)) as [text|].
    + rewrite IH. simpl.
      destruct (nonempty (strip text)); simpl.
      * rewrite <- app_assoc. reflexivity.
      * reflexivity.
    + unfold pbind, print. rewrite IH. simpl.
      rewrite <- app_assoc. reflexivity.
Qed.

Lemma contribution_nonempty (w : world) (section_name : string)
    (x : string * unit_meta) (c : string) :
  In c (contribution w section_name x) -> c <> EmptyString.
Proof.
  unfold contribution.
  destruct (read_file w (unit_path section_name (fst x))) as [text|];
    [|intros []].
  destruct (nonempty (strip text)) eqn:E; [|intros []].
  intros [<-|[]]. apply nonempty_true. assumption.
Qed.

Lemma contributions_nonempty (w : world) (section_name : string)
    (units : list (string * unit_meta)) (c : string) :
  In c (contributions w section_name units) -> c <> EmptyString.
Proof.
  unfold contributions. rewrite in_flat_map.
  intros [x [_ Hc]]. eapply contribution_nonempty; eassumption.
Qed.


End SelectionFacts.

(** ** The section builder and its command line *)
Section BuilderFacts.
Import PyStr BuildSection.

Lemma select_units_empty (tags : option (list string)) (max_items : option Z)
    (ex : option (list string)) :
  select_units [] tags max_items ex = Ok [].
Proof.
  unfold select_units, filter_units, limit_units, slice_to. simpl.
  destruct max_items as [n|]; [|reflexivity].
  destruct (n =? 0)%Z; [reflexivity|].
  destruct (0 <=? n)%Z; simpl; [rewrite firstn_nil|]; reflexivity.
Qed.

(** What [build_section] returns and prints, by what it finds. *)
Lemma build_section_cases (w : world) (section_name : string)
    (tags : option (list string)) (max_items : option Z)
    (ex : option (list string)) (out : stdout) :
  match metadata_lines w with
  | None =>
      build_section w section_name tags max_items ex out
      = ((out ++ [missing_metadata_msg])%list, Raise (SystemExit 1))
  | Some lines =>
      match parse_metadata lines with
      | Raise e =>
          build_section w section_name tags max_items ex out
          = (out, Raise e)
      | Ok md =>
          match select_units (section_data_of md section_name)
                  tags max_items ex with
          | Raise e =>
              build_section w section_name tags max_items ex out
              = (out, Raise e)
          | Ok units =>
              exists o,
                build_section w section_name tags max_items ex out
                = (o, Ok (join blank_line
                            (contributions w section_name units)))
          end
      end
  end.
Proof.
  unfold build_section, load_metadata, pbind.
  destruct (metadata_lines w) as [lines|]; [|reflexivity].
  unfold lift. destruct (parse_metadata lines) as [md|e]; [|reflexivity].
  fold (section_data_of md section_name).
  destruct (section_data_of md section_name) as [|x sd] eqn:Hsd.
  - rewrite (select_units_empty tags max_items ex). simpl.
    eexists. reflexivity.
  - change (ODict.nonempty (x :: sd)) with true. cbn [negb].
    destruct (select_units (x :: sd) tags max_items ex) as [units|e];
      [|reflexivity].
    cbv beta. rewrite read_units_spec. simpl app.
    destruct (contributions w section_name units) as [|c l];
      eexists; reflexivity.
Qed.



Variable get_section_header : string -> string.
Variable str_of_list : list string -> string.
Variable str_of_int : Z -> string.


End BuilderFacts.

(** ** The bibliography *)
Section BibFacts.
Import PyStr GenerateBibfiles.

Lemma remap_loop_filter (kws : list string) (m : ODict.t string)
    (vp acc : list string) :
  remap_loop kws m vp acc
  = (acc ++ filter (has_valid_prefix vp) (map (remap m) kws))%list.
Proof.
  revert acc. induction kws as [|kw kws IH]; intros acc; simpl.
  - rewrite app_nil_r. reflexivity.
  - rewrite IH. destruct (has_valid_prefix vp (remap m kw)).
    + rewrite <- app_assoc. reflexivity.
    + reflexivity.
Qed.

Lemma in_subset_place (subs : subsets_t) (S k S' k' : string) (e : Entry) :
  in_subset (place subs S k e) S' k'
  = if String.eqb S S' && String.eqb k k' then Some e
    else in_subset subs S' k'.
Proof.
  unfold in_subset, place. rewrite get_set.
  destruct (String.eqb S S') eqn:ES; simpl; [|reflexivity].
  apply String.eqb_eq in ES. subst S'. rewrite get_set.
  destruct (String.eqb k k'); [reflexivity|].
  destruct (ODict.get subs S); reflexivity.
Qed.

Lemma in_subset_tag_loop (tags : list string) (p key : string) (e : Entry)
    (subs : subsets_t) (S k : string) :
  in_subset (tag_loop tags p key e subs) S k
  = if String.eqb key k && existsb (names p S) tags then Some e
    else in_subset subs S k.
Proof.
  revert subs. induction tags as [|tag tags IH]; intros subs; simpl.
  - rewrite andb_false_r. reflexivity.
  - rewrite IH. unfold names at 2.
    destruct (nonempty (subset_name_of p tag)).
    + rewrite in_subset_place.
      destruct (String.eqb key k), (existsb (names p S) tags),
        (String.eqb (subset_name_of p tag) S); reflexivity.
    + rewrite andb_false_r. reflexivity.
Qed.

Lemma in_subset_entries_loop (items : list (string * Entry)) (p : string)
    (subs : subsets_t) (all : ODict.t Entry) (S k : string) :
  ODict.wf items ->
  in_subset (fst (entries_loop items p subs all)) S k
  = match ODict.get items k with
    | Some e => if taggedb p e S then Some e else in_subset subs S k
    | None => in_subset subs S k
    end.
Proof.
  unfold ODict.wf, ODict.keys.
  revert subs all. induction items as [|[key e] items IH];
    intros subs all Hnd; simpl; [reflexivity|].
  inversion Hnd as [|? ? Hnotin Hnd']; subst.
  rewrite IH by assumption. rewrite in_subset_tag_loop.
  fold (taggedb p e S).
  destruct (String.eqb key k) eqn:E; simpl.
  - apply String.eqb_eq in E. subst k.
    apply get_none_keys in Hnotin. rewrite Hnotin. reflexivity.
  - destruct (ODict.get items k) as [e'|]; reflexivity.
Qed.

Lemma all_entries_loop (items : list (string * Entry)) (p : string)
    (subs : subsets_t) (all : ODict.t Entry) :
  ODict.wf (all ++ items)%list ->
  snd (entries_loop items p subs all) = (all ++ items)%list.
Proof.
  unfold ODict.wf, ODict.keys.
  revert subs all. induction items as [|[key e] items IH];
    intros subs all Hnd; simpl.
  - rewrite app_nil_r. reflexivity.
  - assert (Hnone : ODict.get all key = None).
    { apply get_none_keys. rewrite map_app in Hnd. simpl in Hnd.
      apply NoDup_remove_2 in Hnd. intros Hin. apply Hnd.
      apply in_or_app. left. assumption. }
    rewrite (set_absent all key e Hnone).
    rewrite IH; rewrite <- app_assoc; [reflexivity | assumption].
Qed.

Lemma taggedb_tagged_as (p : string) (e : Entry) (S : string) :
  taggedb p e S = true <-> tagged_as p e S.
Proof.
  unfold taggedb, tagged_as, tags_for, names, subset_name_of.
  rewrite existsb_exists. split.
  - intros [tag [Hin H]]. apply in_map_iff in Hin.
    destruct Hin as [kw [<- Hkw]]. apply filter_In in Hkw.
    destruct Hkw as [Hkw Hstart].
    apply andb_true_iff in H. destruct H as [Heq Hne].
    apply String.eqb_eq in Heq. exists kw. repeat split; auto.
    rewrite <- Heq. apply nonempty_true. assumption.
  - intros [kw (Hin & Hstart & -> & Hne)].
    exists (strip kw). split.
    + apply in_map. apply filter_In. auto.
    + rewrite String.eqb_refl. simpl. apply nonempty_true. assumption.
Qed.

End BibFacts.

(* ================================================================== *)
(** * Part III: the properties of the scripts *)
(* ================================================================== *)

Module Claims.
Import PyStr BuildSection GenerateBibfiles Samples.

(** C1 - tag-based selection in [build_section].  For a section whose
    units have a list (or nothing) as their ['tags'] property, the filter
    of lines 97-108 returns, and a unit of the section is among the
    filtered units exactly when (the tags filter is [None] or its tag list
    has one of the requested tags) and not (an exclude list is given and
    its tag list has one of the excluded tags).  A unit with no ['tags']
    property has the empty tag list: it is selected only when the tags
    filter is [None].  Without an item limit the filtered units, sorted,
    are the units whose files make the assembled output. *)
Theorem C1_tag_selection (md : metadata_t) (section_name : string)
    (tags exclude_tags : option (list string)) :
  forallb (fun x => tags_is_list (snd x)) (section_data_of md section_name)
  = true ->
  exists filtered,
    filter_units (section_data_of md section_name) tags exclude_tags
    = Ok filtered
    /\ (forall u m, In (u, m) (section_data_of md section_name) ->
          (In (u, m) filtered <-> selected_by tags exclude_tags m))
    /\ (forall x, In x filtered -> In x (section_data_of md section_name))
    /\ (forall u m, In (u, m) (section_data_of md section_name) ->
          ODict.get m "tags" = None ->
          (In (u, m) filtered <-> tags = None))
    /\ (forall sorted w lines out,
          sort_units filtered = Ok sorted ->
          metadata_lines w = Some lines ->
          parse_metadata lines = Ok md ->
          Permutation filtered sorted
          /\ snd (build_section w section_name tags None exclude_tags out)
             = Ok (join blank_line (contributions w section_name sorted))).
Proof.
  intros Htyped.
  set (sd := section_data_of md section_name) in *.
  exists (filter (fun x => selectedb tags exclude_tags (snd x)) sd).
  assert (Hiff : forall u m, In (u, m) sd ->
            (In (u, m) (filter (fun x => selectedb tags exclude_tags (snd x)) sd)
             <-> selected_by tags exclude_tags m)).
  { intros u m Hin. rewrite filter_In. simpl.
    rewrite selectedb_selected_by. tauto. }
  split; [|split; [|split; [|split]]].
  - unfold filter_units. rewrite filter_loop_filter by assumption.
    reflexivity.
  - exact Hiff.
  - intros x Hx. apply filter_In in Hx. tauto.
  - intros u m Hin Hnone. rewrite (Hiff u m Hin).
    unfold selected_by, has_any, tag_list. rewrite Hnone. split.
    + intros [[Ht | [ts [_ [t [_ []]]]]] _]. assumption.
    + intros ->. split; [left; reflexivity|].
      intros [ex [_ [t [_ []]]]].
  - intros sorted w lines out Hsort Hlines Hparse.
    split; [apply sort_units_perm; assumption|].
    pose proof (build_section_cases w section_name tags None exclude_tags out)
      as Hb.
    rewrite Hlines, Hparse in Hb. fold sd in Hb.
    unfold select_units, filter_units in Hb.
    rewrite filter_loop_filter in Hb by assumption. simpl in Hb.
    rewrite Hsort in Hb. simpl in Hb.
    destruct Hb as [o Hb]. rewrite Hb. reflexivity.
Qed.

Lemma C1_tag_selection_witness :
  forallb (fun x => tags_is_list (snd x))
    (section_data_of education_md "education") = true
  /\ exists filtered,
       filter_units (section_data_of education_md "education")
         (Some ["full_cv"]) (Some ["old"]) = Ok filtered
       /\ map fst filtered = ["phd"; "msc"].
Proof.
  split; [reflexivity|].
  destruct (C1_tag_selection education_md "education"
              (Some ["full_cv"]) (Some ["old"]) eq_refl)
    as [filtered [Hf _]].
  exists filtered. split; [exact Hf|].
  vm_compute in Hf. injection Hf as <-. reflexivity.
Defined.

(** C2 - ordering in [build_section].  When the priorities of the
    filtered units are ints (or absent), the sort of line 111 returns a
    rearrangement of the filtered units in ascending priority, a unit
    without a ['priority'] property having priority 999, in which the
    units of one priority keep their order of appearance; without a limit
    these are the selected units, and with a positive [max_items] the
    selected units are the first [max_items] of them. *)
Theorem C2_ordering (section_data : section_meta)
    (tags exclude_tags : option (list string))
    (filtered : list (string * unit_meta)) :
  filter_units section_data tags exclude_tags = Ok filtered ->
  forallb priority_is_int filtered = true ->
  exists sorted,
    sort_units filtered = Ok sorted
    /\ Permutation filtered sorted
    /\ StronglySorted by_priority sorted
    /\ (forall x, In x filtered ->
          priority_key x = VInt (priority x)
          /\ (ODict.get (snd x) "priority" = None -> priority x = 999%Z))
    /\ (forall p, filter (same_priority p) sorted
                  = filter (same_priority p) filtered)
    /\ select_units section_data tags None exclude_tags = Ok sorted
    /\ (forall n, (0 < n)%Z ->
          select_units section_data tags (Some n) exclude_tags
          = Ok (firstn (Z.to_nat n) sorted)).
Proof.
  intros Hf Hint.
  destruct (sort_units_int filtered Hint) as (sorted & Hs & _ & Hsorted & Hstable).
  exists sorted. repeat split; auto.
  - apply sort_units_perm. assumption.
  - apply priority_key_int. rewrite forallb_forall in Hint. auto.
  - intros Hnone. unfold priority. rewrite Hnone. reflexivity.
  - unfold select_units. rewrite Hf. simpl. rewrite Hs. reflexivity.
  - intros n Hn. unfold select_units. rewrite Hf. simpl. rewrite Hs. simpl.
    unfold limit_units, slice_to.
    destruct (n =? 0)%Z eqn:E0; [apply Z.eqb_eq in E0; lia|].
    destruct (0 <=? n)%Z eqn:E1; [reflexivity|].
    apply Z.leb_gt in E1. lia.
Qed.

Lemma C2_ordering_witness :
  filter_units (section_data_of education_md "education") None None
  = Ok (section_data_of education_md "education")
  /\ forallb priority_is_int (section_data_of education_md "education") = true
  /\ exists sorted,
       sort_units (section_data_of education_md "education") = Ok sorted
       /\ map fst sorted = ["msc"; "course"; "phd"; "bsc"]
       /\ select_units (section_data_of education_md "education")
            None (Some 2%Z) None = Ok (firstn 2 sorted).
Proof.
  split; [reflexivity|]. split; [reflexivity|].
  destruct (C2_ordering (section_data_of education_md "education") None None
              (section_data_of education_md "education") eq_refl eq_refl)
    as (sorted & Hs & _ & _ & _ & _ & _ & Hlimit).
  exists sorted. split; [exact Hs|]. split.
  - vm_compute in Hs. injection Hs as <-. reflexivity.
  - apply (Hlimit 2%Z). reflexivity.
Defined.



(** C4 - typing of the metadata parser; the quote test departs from it.
    The value of a property is to be a list for a bracketed value, an int
    for a value of digits, and otherwise the string without one
    surrounding pair of double quotes.  Line 71 asks that the value starts
    with a double quote and that it ends with one, which the value that is
    one double quote does with that one character: the loop stores the
    empty string for it, where there is no pair to remove and the value
    itself is due.  A value inside a pair of quotes is stored without the
    pair. *)
Theorem C4_lone_quote_stored_empty :
  is_property_line ("    k: " ++ dquote) = true
  /\ unquote_pair dquote = dquote
  /\ parse_value dquote = Ok (VStr EmptyString)
  /\ (exists md,
        parse_metadata lone_quote_lines = Ok md
        /\ lookup md "s" "u" "k" = Some (VStr EmptyString))
  /\ (exists md,
        parse_metadata MoreSamples.quoted_lines = Ok md
        /\ lookup md "s" "u" "k" = Some (VStr "M Sc")).
Proof.
  split; [reflexivity|]. split; [reflexivity|]. split; [reflexivity|].
  split; eexists; split; reflexivity.
Qed.




(** C6 - the parser is not total.  A property line that follows a new
    section line before any unit line of that section is met with the
    unit of the section before, which the new section does not have:
    [load_metadata] and [load_simple_metadata] raise [KeyError] on such a
    file.  A value of superscript digits passes [isdigit] and makes [int]
    raise [ValueError]. *)
Theorem C6_parser_raises :
  parse_metadata stale_unit_lines = Raise (KeyError "u")
  /\ load_metadata
       {| metadata_lines := Some stale_unit_lines;
          read_file := fun _ => None |} []
     = ([], Raise (KeyError "u"))
  /\ Status.load_simple_metadata
       {| metadata_lines := Some stale_unit_lines;
          read_file := fun _ => None |}
     = Raise (KeyError "u")
  /\ parse_metadata superscript_lines = Raise ValueError.
Proof. repeat split; reflexivity. Qed.

(** C7 - splitting the bibliography.  For a bibliography (a dictionary
    of entries) and a tag prefix, an entry is stored under its key in the
    subset named [s] exactly when one of its comma-separated keywords,
    trimmed, starts with the prefix and what follows the prefix, trimmed,
    is the non-empty name [s]; a key that is not in the bibliography is in
    no subset; and [all_entries] is the whole bibliography, whatever the
    keywords. *)
Theorem C7_bibliography_splitting (entries : ODict.t Entry)
    (tag_prefix : string) :
  ODict.wf entries ->
  (forall key entry s, In (key, entry) entries ->
     (in_subset (fst (extract_tagged_entries entries tag_prefix)) s key
      = Some entry
      <-> tagged_as tag_prefix entry s))
  /\ (forall key s, ODict.get entries key = None ->
        in_subset (fst (extract_tagged_entries entries tag_prefix)) s key
        = None)
  /\ snd (extract_tagged_entries entries tag_prefix) = entries.
Proof.
  intros Hwf. unfold extract_tagged_entries. split; [|split].
  - intros k e s Hin. rewrite in_subset_entries_loop by assumption.
    rewrite (in_get entries k e Hwf Hin).
    destruct (taggedb tag_prefix e s) eqn:E; split.
    + intros _. apply taggedb_tagged_as. assumption.
    + reflexivity.
    + discriminate.
    + intros Ht. apply taggedb_tagged_as in Ht. congruence.
  - intros k s Hnone. rewrite in_subset_entries_loop by assumption.
    rewrite Hnone. reflexivity.
  - apply (all_entries_loop entries tag_prefix ODict.empty ODict.empty).
    assumption.
Qed.

Lemma library_wf : ODict.wf library.
Proof.
  unfold ODict.wf. simpl. constructor.
  - simpl. intros [H | []]. discriminate.
  - constructor; [intros [] | constructor].
Defined.

(** The entry [paper] is in two subsets. *)
Lemma C7_bibliography_splitting_witness :
  ODict.wf library
  /\ in_subset (fst (extract_tagged_entries library "pub:")) "journal" "k1"
     = Some paper
  /\ in_subset (fst (extract_tagged_entries library "pub:")) "conf" "k1"
     = Some paper
  /\ tagged_as "pub:" paper "conf"
  /\ snd (extract_tagged_entries library "pub:") = library.
Proof.
  split; [exact library_wf|].
  destruct (C7_bibliography_splitting library "pub:" library_wf)
    as (Hiff & _ & Hall).
  split; [reflexivity|]. split; [reflexivity|]. split; [|exact Hall].
  apply (Hiff "k1" paper "conf"); [left; reflexivity | reflexivity].
Defined.

(** C8 - the item limit zero.  [max_items = 0] is falsy: the cap is not
    applied, [build_section] does what it does without a limit, and the
    selected units are a rearrangement of all the units that pass the tag
    filter. *)
Theorem C8_zero_limit (w : world) (section_name : string)
    (section_data : section_meta) (tags exclude_tags : option (list string))
    (out : stdout) :
  (forall l : list (string * unit_meta), limit_units (Some 0%Z) l = l)
  /\ select_units section_data tags (Some 0%Z) exclude_tags
     = select_units section_data tags None exclude_tags
  /\ build_section w section_name tags (Some 0%Z) exclude_tags out
     = build_section w section_name tags None exclude_tags out
  /\ (forall filtered units,
        filter_units section_data tags exclude_tags = Ok filtered ->
        select_units section_data tags (Some 0%Z) exclude_tags = Ok units ->
        Permutation filtered units).
Proof.
  repeat split.
  intros filtered units Hf Hs. unfold select_units in Hs.
  rewrite Hf in Hs. simpl in Hs.
  destruct (sort_units filtered) as [sorted|e] eqn:Hsort; [|discriminate].
  simpl in Hs. injection Hs as <-. apply sort_units_perm. assumption.
Qed.

Lemma C8_zero_limit_witness :
  snd (build_section full_world "education" None (Some 0%Z) None [])
  = Ok (join blank_line
          [ "units/education/msc.tex"; "units/education/course.tex";
            "units/education/phd.tex"; "units/education/bsc.tex" ])
  /\ build_section full_world "education" None (Some 0%Z) None []
     = build_section full_world "education" None None None [].
Proof.
  split; [reflexivity|].
  apply (C8_zero_limit full_world "education" [] None None []).
Defined.

(** C9 - a section name that occurs again.  At a section line the loop
    binds the name to a fresh empty mapping and makes it the current
    section; when the whole file is parsed, what the returned mapping
    holds for that name is what parsing the file from that line on gives:
    the units read under an earlier occurrence of the name are gone. *)
Theorem C9_duplicate_section (l1 l2 : list string) (sec : string)
    (md : metadata_t) :
  is_section_line sec = true ->
  parse_metadata (l1 ++ sec :: l2)%list = Ok md ->
  (exists st1 st2,
     parse_lines init l1 = Ok st1
     /\ parse_line st1 sec = Ok st2
     /\ ODict.get (metadata st2) (section_name_of sec) = Some ODict.empty
     /\ current_section st2 = Some (section_name_of sec))
  /\ exists md',
       parse_metadata (sec :: l2) = Ok md'
       /\ ODict.get md (section_name_of sec)
          = ODict.get md' (section_name_of sec).
Proof.
  intros Hsec Hparse. unfold parse_metadata in *.
  apply rbind_ok in Hparse. destruct Hparse as [f1 [Hrun Hmd]].
  injection Hmd as <-.
  rewrite parse_lines_app in Hrun. apply rbind_ok in Hrun.
  destruct Hrun as [st1 [H1 Hrun]]. simpl in Hrun.
  rewrite parse_line_classify, (classify_section_line sec Hsec) in Hrun.
  simpl in Hrun.
  destruct (agree_run (section_name_of sec) l2 _ _ f1
              (agree_after_section (section_name_of sec) st1) Hrun)
    as [f2 [H2 Hag]].
  split.
  - exists st1. eexists. split; [exact H1|].
    rewrite parse_line_classify, (classify_section_line sec Hsec). simpl.
    split; [reflexivity|]. split; [apply get_set_same | reflexivity].
  - exists (metadata f2). cbn [parse_lines].
    rewrite parse_line_classify, (classify_section_line sec Hsec).
    cbn [apply_kind rbind]. rewrite H2. simpl. split; [reflexivity|].
    destruct Hag as (_ & Hs & _). exact Hs.
Qed.

Lemma C9_duplicate_section_witness :
  is_section_line "jobs:" = true
  /\ parse_metadata (twice_prefix ++ "jobs:" :: twice_suffix)%list
     = Ok [ ("jobs", [("second", [("tags", VList ["full_cv"])])]);
            ("other", [("x", [])]) ]
  /\ exists md',
       parse_metadata ("jobs:" :: twice_suffix) = Ok md'
       /\ Some [("second", [("tags", VList ["full_cv"])])]
          = ODict.get md' "jobs".
Proof.
  split; [reflexivity|]. split; [reflexivity|].
  apply (C9_duplicate_section twice_prefix twice_suffix "jobs:"
           [ ("jobs", [("second", [("tags", VList ["full_cv"])])]);
             ("other", [("x", [])]) ]
           eq_refl eq_refl).
Defined.

(** C10 - the frame of keyword processing; the code departs from it on a
    field that is not written [keywords] in lower case.  The mapping of a
    parsed entry finds the field written [Keywords] under ['keywords'], so
    the entry is processed; the plain dict of line 50 holds the field
    under [Keywords], where the assignment of line 53 and the [pop] of
    line 56 do not reach it.  The field [Keywords] is returned with all its
    keywords, beside a new field [keywords] when some keyword survives and
    alone when none does, where the keywords field is due to hold the
    surviving keywords or to be absent.  For the same entries written in
    lower case the field is replaced, or removed. *)
Theorem C10_capitalised_keywords_kept :
  process_keywords MoreSamples.capitalised_untagged ODict.empty None
  = {| type := "article";
       original_type := "article";
       fields := [("Keywords", "peer")];
       spelling := [];
       persons := [];
       key := None |}
  /\ surviving_keywords "peer" ODict.empty default_prefixes = []
  /\ process_keywords MoreSamples.capitalised ODict.empty None
     = {| type := "article";
          original_type := "article";
          fields := [ ("Title", "A title");
                      ("Keywords", "pub:journal, peer");
                      ("keywords", "pub:journal") ];
          spelling := [];
          persons := [];
          key := None |}
  /\ surviving_keywords "pub:journal, peer" ODict.empty default_prefixes
     = ["pub:journal"]
  /\ fields (process_keywords MoreSamples.lower_case_untagged ODict.empty None)
     = []
  /\ fields (process_keywords MoreSamples.lower_case ODict.empty None)
     = [("title", "A title"); ("keywords", "pub:journal")].
Proof. repeat split. Qed.

End Claims.

(* ================================================================== *)
(** * Part IV: further properties of the scripts *)
(* ================================================================== *)

(** ** More on stripping, splitting and joining *)
Section StripFacts.
Import PyStr.

Lemma of_chars_app (l1 l2 : list ascii) :
  of_chars (l1 ++ l2)%list = of_chars l1 ++ of_chars l2.
Proof.
  induction l1 as [|a l1 IH]; simpl; [reflexivity|].
  unfold of_chars in *. simpl. rewrite IH. reflexivity.
Qed.

Lemma of_chars_chars (s : string) : of_chars (chars s) = s.
Proof. apply string_of_list_ascii_of_string. Qed.

Lemma rev_str_cons (a : ascii) (s : string) :
  rev_str (String a s) = rev_str s ++ String a EmptyString.
Proof.
  unfold rev_str. simpl. rewrite of_chars_app. reflexivity.
Qed.

Lemma rev_str_snoc (a : ascii) (s : string) :
  rev_str (s ++ String a EmptyString) = String a (rev_str s).
Proof.
  induction s as [|b s IH]; [reflexivity|].
  simpl. rewrite !rev_str_cons, IH. reflexivity.
Qed.

Lemma rev_str_involutive (s : string) : rev_str (rev_str s) = s.
Proof.
  induction s as [|a s IH]; [reflexivity|].
  rewrite rev_str_cons, rev_str_snoc, IH. reflexivity.
Qed.

Lemma rev_str_empty (s : string) :
  rev_str s = EmptyString -> s = EmptyString.
Proof.
  intros H. rewrite <- (rev_str_involutive s), H. reflexivity.
Qed.

Lemma lstrip_snoc (a : ascii) (s : string) :
  lstrip (s ++ String a EmptyString)
  = match lstrip s with
    | EmptyString => lstrip (String a EmptyString)
    | r => r ++ String a EmptyString
    end.
Proof.
  induction s as [|b s IH]; [reflexivity|].
  simpl. destruct (isspace b); [exact IH | reflexivity].
Qed.

(** [rstrip] read from the left. *)
Lemma rstrip_cons (a : ascii) (s : string) :
  rstrip (String a s)
  = match rstrip s with
    | EmptyString => if isspace a then EmptyString else String a EmptyString
    | r => String a r
    end.
Proof.
  unfold rstrip. rewrite rev_str_cons, lstrip_snoc.
  destruct (lstrip (rev_str s)) as [|b r] eqn:E.
  - simpl. destruct (isspace a); reflexivity.
  - rewrite rev_str_snoc.
    destruct (rev_str (String b r)) eqn:E2; [|reflexivity].
    apply rev_str_empty in E2. discriminate.
Qed.

Lemma lstrip_idempotent (s : string) : lstrip (lstrip s) = lstrip s.
Proof.
  induction s as [|a s IH]; [reflexivity|].
  simpl. destruct (isspace a) eqn:E; [exact IH|].
  simpl. rewrite E. reflexivity.
Qed.

Lemma rstrip_idempotent (s : string) : rstrip (rstrip s) = rstrip s.
Proof.
  induction s as [|a s IH]; [reflexivity|].
  rewrite rstrip_cons. destruct (rstrip s) as [|b r] eqn:E.
  - destruct (isspace a) eqn:Ea; [reflexivity|].
    rewrite rstrip_cons. change (rstrip EmptyString) with EmptyString.
    rewrite Ea. reflexivity.
  - rewrite rstrip_cons, IH. reflexivity.
Qed.

Lemma lstrip_rstrip (s : string) : lstrip (rstrip s) = rstrip (lstrip s).
Proof.
  induction s as [|a s IH]; [reflexivity|].
  rewrite rstrip_cons. simpl lstrip at 2.
  destruct (isspace a) eqn:Ea.
  - rewrite <- IH. destruct (rstrip s) as [|b r]; [reflexivity|].
    simpl. rewrite Ea. reflexivity.
  - rewrite rstrip_cons.
    destruct (rstrip s) as [|b r]; simpl; rewrite Ea; reflexivity.
Qed.

(** Stripping twice is stripping once. *)
Lemma strip_idempotent (s : string) : strip (strip s) = strip s.
Proof.
  unfold strip. rewrite <- (lstrip_rstrip (rstrip s)).
  rewrite rstrip_idempotent, lstrip_idempotent. reflexivity.
Qed.

(** Leading white space does not survive [strip]. *)
Lemma strip_space_cons (a : ascii) (s : string) :
  isspace a = true -> strip (String a s) = strip s.
Proof.
  intros Ea. unfold strip. rewrite !lstrip_rstrip. simpl. rewrite Ea.
  reflexivity.
Qed.

Lemma rstrip_spaces (ws : string) :
  forallb isspace (chars ws) = true -> rstrip ws = EmptyString.
Proof.
  induction ws as [|a ws IH]; [reflexivity|].
  simpl. intros H. apply andb_true_iff in H. destruct H as [Ha Hws].
  rewrite rstrip_cons, (IH Hws), Ha. reflexivity.
Qed.

(** Trailing white space does not change [rstrip]. *)
Lemma rstrip_app_spaces (s ws : string) :
  forallb isspace (chars ws) = true -> rstrip (s ++ ws) = rstrip s.
Proof.
  intros Hws. induction s as [|a s IH].
  - simpl. apply rstrip_spaces. assumption.
  - simpl. rewrite !rstrip_cons, IH. reflexivity.
Qed.

Lemma contains_char_cons (c a : ascii) (s : string) :
  contains_char c (String a s) = Ascii.eqb c a || contains_char c s.
Proof. reflexivity. Qed.

(** A string without the separator is one piece. *)
Lemma split_none (c : ascii) (s : string) :
  contains_char c s = false -> split c s = [s].
Proof.
  induction s as [|a s IH]; [reflexivity|].
  rewrite contains_char_cons. intros H.
  apply orb_false_iff in H. destruct H as [Ha Hs].
  simpl. rewrite Ascii.eqb_sym, Ha, (IH Hs). reflexivity.
Qed.

Lemma split_app (c : ascii) (x r : string) :
  contains_char c x = false ->
  split c (x ++ String c r) = x :: split c r.
Proof.
  induction x as [|a x IH].
  - intros _. simpl. rewrite Ascii.eqb_refl. reflexivity.
  - rewrite contains_char_cons. intros H.
    apply orb_false_iff in H. destruct H as [Ha Hx].
    simpl. rewrite Ascii.eqb_sym, Ha, (IH Hx). reflexivity.
Qed.

(** The pieces of a split do not hold the separator. *)
Lemma split_pieces (c : ascii) (s x : string) :
  In x (split c s) -> contains_char c x = false.
Proof.
  revert x. induction s as [|a s IH]; intros x.
  - intros [<-|[]]. reflexivity.
  - simpl. destruct (Ascii.eqb a c) eqn:E.
    + intros [<-|H]; [reflexivity | auto].
    + destruct (split c s) as [|h t] eqn:Es.
      * intros [<-|[]]. rewrite contains_char_cons, Ascii.eqb_sym, E.
        reflexivity.
      * intros [<-|H].
        -- rewrite contains_char_cons, Ascii.eqb_sym, E. simpl.
           apply IH. left. reflexivity.
        -- apply IH. right. assumption.
Qed.

Lemma split_nonempty (c : ascii) (s : string) : split c s <> [].
Proof.
  destruct s as [|a s]; simpl; [discriminate|].
  destruct (Ascii.eqb a c); [discriminate|].
  destruct (split c s); discriminate.
Qed.

End StripFacts.

(** ** When the parsing loop returns, and what it returns *)
Section NestingFacts.
Import PyStr BuildSection BuildSectionMore.

Lemma parse_lines_cons (st : pstate) (x : string) (l : list string) :
  parse_lines st (x :: l)
  = rbind (apply_kind st (classify x)) (fun st' => parse_lines st' l).
Proof. cbn [parse_lines]. rewrite parse_line_classify. reflexivity. Qed.

Lemma held_truthy (o : option string) :
  truthy o = match held o with Some _ => true | None => false end.
Proof.
  destruct o as [s|]; simpl; [|reflexivity]. destruct (nonempty s); reflexivity.
Qed.

Lemma held_Some (s c : string) : held (Some s) = Some c -> c = s.
Proof.
  simpl. destruct (nonempty s); [intros [= <-]; reflexivity | discriminate].
Qed.

Lemma held_Some_nonempty (s : string) :
  held (Some s) = if nonempty s then Some s else None.
Proof. reflexivity. Qed.

Lemma value_ok_parse (v : string) :
  if value_ok v then exists pv, parse_value v = Ok pv
  else parse_value v = Raise ValueError.
Proof.
  unfold value_ok, parse_value, py_int, bracketed.
  destruct (startswith v "[" && endswith v "]"); simpl; [eauto|].
  destruct (isdigit v); simpl; [|eauto].
  destruct (int_accepts v); simpl; eauto.
Qed.

(** A line keeps the description of the loop variables, and is stored
    exactly when the nesting lets it. *)
Lemma describes_step (a : nesting) (st : pstate) (k : line_kind) :
  describes a st ->
  match nest a k with
  | Some a' => exists st', apply_kind st k = Ok st' /\ describes a' st'
  | None => exists e, apply_kind st k = Raise e
  end.
Proof.
  intros Hd. pose proof Hd as (Hs & Hu & Hmd).
  destruct k as [|cs|cu|key v|]; cbn [nest apply_kind].
  - exists st. split; [reflexivity | exact Hd].
  - eexists. split; [reflexivity|]. unfold describes. cbn.
    split; [reflexivity|]. split; [assumption|].
    intros c Hc.
    destruct (nonempty cs); [|discriminate]. injection Hc as <-.
    exists ODict.empty. rewrite get_set_same. split; [reflexivity|].
    intros u _. split; [discriminate | intros H; exfalso; apply H; reflexivity].
  - destruct (held (current_section st)) as [c|] eqn:Hc.
    + destruct (Hmd c eq_refl) as (sec & Hsec & _).
      unfold set_unit, getitem. rewrite Hsec. cbn [rbind].
      eexists. split; [reflexivity|]. unfold describes. cbn.
      split; [assumption|]. split; [reflexivity|].
      intros c' Hc'. rewrite Hc in Hc'. injection Hc' as <-.
      eexists. rewrite get_set_same. split; [reflexivity|].
      intros u Hu'.
      destruct (nonempty cu); [|discriminate]. injection Hu' as <-.
      rewrite get_set_same. split; [discriminate | reflexivity].
    + eexists. split; [reflexivity|]. unfold describes. cbn.
      split; [assumption|]. split; [reflexivity|].
      intros c' Hc'. rewrite Hc in Hc'. discriminate.
  - rewrite Hs, Hu, !held_truthy.
    destruct (held (current_section st)) as [c|] eqn:Hc; cbn [andb];
      [|exists st; split; [reflexivity | exact Hd]].
    destruct (held (current_unit st)) as [u|] eqn:Hcu;
      [|exists st; split; [reflexivity | exact Hd]].
    destruct (Hmd c eq_refl) as (sec & Hsec & Hknown).
    specialize (Hknown u eq_refl).
    pose proof (value_ok_parse v) as Hv.
    destruct (unit_known a) eqn:Hk; cbn [andb].
    + destruct (value_ok v).
      * destruct Hv as [pv Hv]. rewrite Hv. cbn [rbind].
        destruct (ODict.get sec u) as [m|] eqn:Hm;
          [|exfalso; apply (proj1 Hknown eq_refl); reflexivity].
        rewrite (set_property_ok _ _ _ _ _ _ _ Hsec Hm). cbn [rbind].
        eexists. split; [reflexivity|]. unfold describes. cbn.
        split; [assumption|]. split; [assumption|].
        intros c' Hc'. rewrite Hc in Hc'. injection Hc' as <-.
        eexists. rewrite get_set_same. split; [reflexivity|].
        intros u' Hu'. rewrite Hcu in Hu'. injection Hu' as <-.
        rewrite get_set_same, Hk. split; [discriminate | reflexivity].
      * rewrite Hv. eexists. reflexivity.
    + destruct (parse_value v) as [pv|e]; cbn [rbind];
        [|eexists; reflexivity].
      unfold set_property, getitem. rewrite Hsec. cbn [rbind].
      destruct (ODict.get sec u) as [m|] eqn:Hm; cbn [rbind];
        [|eexists; reflexivity].
      assert (Hf : false = true) by (apply Hknown; discriminate).
      discriminate.
  - eexists. reflexivity.
Qed.

Lemma nested_run (lines : list string) (a : nesting) (st : pstate) :
  describes a st ->
  if well_nested_from a lines
  then exists f, parse_lines st lines = Ok f
  else exists e, parse_lines st lines = Raise e.
Proof.
  revert a st. induction lines as [|x l IH]; intros a st Hd.
  - simpl. eauto.
  - cbn [well_nested_from]. rewrite parse_lines_cons.
    pose proof (describes_step a st (classify x) Hd) as Hstep.
    destruct (nest a (classify x)) as [a'|].
    + destruct Hstep as (st' & Hst' & Hd'). rewrite Hst'. cbn [rbind].
      apply IH. assumption.
    + destruct Hstep as [e He]. rewrite He. eexists. reflexivity.
Qed.

Lemma describes_init : describes outside init.
Proof.
  unfold describes. cbn. repeat split. intros c Hc. discriminate.
Qed.

(** *** The dictionaries of the metadata *)

Lemma keys_set {V : Type} (d : ODict.t V) (k : string) (v : V) :
  ODict.keys (ODict.set d k v)
  = if ODict.mem d k then ODict.keys d else (ODict.keys d ++ [k])%list.
Proof.
  unfold ODict.mem. induction d as [|[k' v'] d IH]; [reflexivity|].
  simpl. destruct (String.eqb k' k) eqn:E; [reflexivity|].
  simpl. rewrite IH. destruct (ODict.get d k); reflexivity.
Qed.

Lemma wf_set {V : Type} (d : ODict.t V) (k : string) (v : V) :
  ODict.wf d -> ODict.wf (ODict.set d k v).
Proof.
  unfold ODict.wf. intros Hd. rewrite keys_set. unfold ODict.mem.
  destruct (ODict.get d k) eqn:E; [assumption|].
  apply get_none_keys in E.
  apply NoDup_rev in Hd. rewrite <- (rev_involutive (_ ++ _)).
  apply NoDup_rev. rewrite rev_app_distr. simpl. constructor; [|assumption].
  rewrite <- in_rev. assumption.
Qed.

Lemma all_values_set {V : Type} (P : V -> Prop) (d : ODict.t V)
    (k : string) (v : V) :
  all_values P d -> P v -> all_values P (ODict.set d k v).
Proof.
  unfold all_values. intros Hd Hv.
  induction d as [|[k' v'] d IH]; simpl.
  - constructor; [assumption | constructor].
  - inversion Hd as [|? ? Hp Hd']; subst.
    destruct (String.eqb k' k); constructor; auto.
Qed.

Lemma all_values_get {V : Type} (P : V -> Prop) (d : ODict.t V)
    (k : string) (v : V) :
  all_values P d -> ODict.get d k = Some v -> P v.
Proof.
  unfold all_values. intros Hd Hg. apply get_in in Hg.
  rewrite Forall_forall in Hd. apply (Hd (k, v)). assumption.
Qed.

Lemma wf_empty {V : Type} : ODict.wf (@ODict.empty V).
Proof. constructor. Qed.

Lemma metadata_wf_step (st st' : pstate) (k : line_kind) :
  metadata_wf (metadata st) -> apply_kind st k = Ok st' ->
  metadata_wf (metadata st').
Proof.
  intros [Hwf Hall] Hstep.
  destruct k as [|cs|cu|key v|]; cbn [apply_kind] in Hstep.
  - injection Hstep as <-. split; assumption.
  - injection Hstep as <-. cbn. split; [apply wf_set; assumption|].
    apply all_values_set; [assumption|].
    split; [apply wf_empty | constructor].
  - destruct (held (current_section st)) as [c|];
      [|injection Hstep as <-; split; assumption].
    unfold set_unit, getitem in Hstep.
    destruct (ODict.get (metadata st) c) as [sec|] eqn:Hsec;
      cbn [rbind] in Hstep; [|discriminate].
    injection Hstep as <-. cbn.
    destruct (all_values_get _ _ _ _ Hall Hsec) as [Hsw Hsa].
    split; [apply wf_set; assumption|].
    apply all_values_set; [assumption|].
    split; [apply wf_set; assumption|].
    apply all_values_set; [assumption | apply wf_empty].
  - destruct (held (current_section st)) as [c|];
      [|injection Hstep as <-; split; assumption].
    destruct (held (current_unit st)) as [u|];
      [|injection Hstep as <-; split; assumption].
    destruct (parse_value v) as [pv|e]; cbn [rbind] in Hstep; [|discriminate].
    unfold set_property, getitem in Hstep.
    destruct (ODict.get (metadata st) c) as [sec|] eqn:Hsec;
      cbn [rbind] in Hstep; [|discriminate].
    destruct (ODict.get sec u) as [m|] eqn:Hm;
      cbn [rbind] in Hstep; [|discriminate].
    injection Hstep as <-. cbn.
    destruct (all_values_get _ _ _ _ Hall Hsec) as [Hsw Hsa].
    pose proof (all_values_get _ _ _ _ Hsa Hm) as Hmw.
    split; [apply wf_set; assumption|].
    apply all_values_set; [assumption|].
    split; [apply wf_set; assumption|].
    apply all_values_set; [assumption | apply wf_set; assumption].
  - discriminate.
Qed.

Lemma metadata_wf_run (lines : list string) (st f : pstate) :
  metadata_wf (metadata st) -> parse_lines st lines = Ok f ->
  metadata_wf (metadata f).
Proof.
  revert st. induction lines as [|x l IH]; intros st Hwf Hrun.
  - cbn [parse_lines] in Hrun. injection Hrun as <-. assumption.
  - rewrite parse_lines_cons in Hrun. apply rbind_ok in Hrun.
    destruct Hrun as (st' & Hst' & Hrest).
    apply (IH st'); [|assumption].
    eapply metadata_wf_step; eassumption.
Qed.

(** *** Lines that do not count *)

Lemma strip_rstrip (s : string) : strip (rstrip s) = strip s.
Proof. unfold strip. rewrite rstrip_idempotent. reflexivity. Qed.

Lemma classify_ignorable (raw : string) :
  ignorable raw = true -> classify raw = Skipped.
Proof.
  unfold ignorable, classify. rewrite strip_rstrip. intros H.
  destruct (negb (nonempty (strip raw)) || startswith (strip raw) "#");
    [reflexivity|].
  simpl in H. apply andb_true_iff in H. destruct H as [He H4].
  apply negb_true_iff in He, H4. rewrite He, H4.
  rewrite andb_false_r. reflexivity.
Qed.

Lemma classify_rstrip (raw ws : string) :
  forallb isspace (chars ws) = true -> classify (raw ++ ws) = classify raw.
Proof.
  intros Hws. unfold classify. rewrite (rstrip_app_spaces raw ws Hws).
  reflexivity.
Qed.

End NestingFacts.

(** ** More on the section builder *)
Section BuilderMoreFacts.
Import PyStr BuildSection BuildSectionMore.

Lemma filter_loop_incl (items : list (string * unit_meta))
    (tags ex : option (list string)) (acc l : list (string * unit_meta)) :
  filter_loop items tags ex acc = Ok l ->
  forall x, In x l -> In x acc \/ In x items.
Proof.
  revert acc l. induction items as [|[u m] items IH]; intros acc l H x Hx.
  - cbn [filter_loop] in H. injection H as <-. left. assumption.
  - cbn [filter_loop] in H.
    destruct (excluded ex m) as [[|]|e]; cbn [rbind] in H; try discriminate.
    + destruct (IH _ _ H x Hx); [left | right; right]; assumption.
    + destruct (included tags m) as [[|]|e]; cbn [rbind] in H;
        try discriminate.
      * destruct (IH _ _ H x Hx) as [Hacc | Hin]; [|right; right; assumption].
        apply in_app_or in Hacc. destruct Hacc as [Hacc | [<-|[]]].
        -- left. assumption.
        -- right. left. reflexivity.
      * destruct (IH _ _ H x Hx); [left | right; right]; assumption.
Qed.

Lemma in_firstn {A : Type} (n : nat) (l : list A) (x : A) :
  In x (firstn n l) -> In x l.
Proof.
  intros H. rewrite <- (firstn_skipn n l). apply in_or_app. left. assumption.
Qed.

Lemma limit_units_incl {A : Type} (max_items : option Z) (l : list A) (x : A) :
  In x (limit_units max_items l) -> In x l.
Proof.
  unfold limit_units, slice_to. destruct max_items as [n|]; [|auto].
  destruct (n =? 0)%Z; [auto|].
  destruct (0 <=? n)%Z; apply in_firstn.
Qed.

(** The selected units are units of the section. *)
Lemma select_units_incl (sd : section_meta) (tags : option (list string))
    (max_items : option Z) (ex : option (list string))
    (units : list (string * unit_meta)) :
  select_units sd tags max_items ex = Ok units ->
  forall x, In x units -> In x sd.
Proof.
  unfold select_units, filter_units. intros H x Hx.
  destruct (filter_loop sd tags ex []) as [f|e] eqn:Hf;
    cbn [rbind] in H; [|discriminate].
  destruct (sort_units f) as [s|e] eqn:Hs; cbn [rbind] in H; [|discriminate].
  injection H as <-. apply limit_units_incl in Hx.
  apply (Permutation_in x (Permutation_sym (sort_units_perm f s Hs))) in Hx.
  destruct (filter_loop_incl _ _ _ _ _ Hf x Hx) as [[]|]. assumption.
Qed.

Lemma flat_map_agree {A B : Type} (f g : A -> list B) (l : list A) :
  (forall x, In x l -> f x = g x) -> flat_map f l = flat_map g l.
Proof.
  induction l as [|a l IH]; intros H; simpl; [reflexivity|].
  rewrite (H a (or_introl eq_refl)), IH; [reflexivity|].
  intros x Hx. apply H. right. assumption.
Qed.

(** What [build_section] prints and returns once the file is parsed and
    the units are selected. *)
Lemma build_section_full (w : world) (section_name : string)
    (tags : option (list string)) (max_items : option Z)
    (ex : option (list string)) (out : stdout) (lines : list string)
    (md : metadata_t) (units : list (string * unit_meta)) :
  metadata_lines w = Some lines ->
  parse_metadata lines = Ok md ->
  select_units (section_data_of md section_name) tags max_items ex
  = Ok units ->
  build_section w section_name tags max_items ex out
  = ((out ++ section_messages w section_name
                (section_data_of md section_name) units)%list,
     Ok (join blank_line (contributions w section_name units))).
Proof.
  intros Hlines Hparse Hsel.
  unfold build_section, load_metadata, pbind, section_messages.
  rewrite Hlines. unfold lift. rewrite Hparse.
  fold (section_data_of md section_name).
  destruct (section_data_of md section_name) as [|x sd] eqn:Hsd.
  - rewrite select_units_empty in Hsel. injection Hsel as <-.
    reflexivity.
  - change (ODict.nonempty (x :: sd)) with true. cbn [negb].
    rewrite Hsel. cbv beta. rewrite read_units_spec. simpl app.
    destruct (contributions w section_name units) as [|c l].
    + unfold print, ret. rewrite app_assoc. reflexivity.
    + unfold ret. rewrite app_nil_r. reflexivity.
Qed.

(** *** The item limit *)

Lemma firstn_min {A : Type} (n : nat) (l : list A) :
  firstn n l = firstn (Nat.min n (List.length l)) l.
Proof.
  destruct (Nat.le_ge_cases n (List.length l)) as [H | H].
  - rewrite (Nat.min_l _ _ H). reflexivity.
  - rewrite (Nat.min_r _ _ H), firstn_all. apply firstn_all2. assumption.
Qed.

Lemma limit_units_kept {A : Type} (max_items : option Z) (l : list A) :
  limit_units max_items l = firstn (kept max_items (List.length l)) l.
Proof.
  unfold limit_units, kept, slice_to. destruct max_items as [m|].
  - destruct (m =? 0)%Z eqn:E0; [rewrite firstn_all; reflexivity|].
    apply Z.eqb_neq in E0.
    destruct (0 <=? m)%Z eqn:E1.
    + apply Z.leb_le in E1. assert (H : (0 <? m)%Z = true) by (apply Z.ltb_lt; lia).
      rewrite H. apply firstn_min.
    + apply Z.leb_gt in E1. assert (H : (0 <? m)%Z = false) by (apply Z.ltb_ge; lia).
      rewrite H. reflexivity.
  - rewrite firstn_all. reflexivity.
Qed.

Lemma kept_le (max_items : option Z) (n : nat) : kept max_items n <= n.
Proof.
  unfold kept. destruct max_items as [m|]; [|lia].
  destruct (m =? 0)%Z; [lia|]. destruct (0 <? m)%Z; lia.
Qed.

(** *** When the sort returns *)

Lemma py_lt_kind (a b : pyval) :
  if Nat.eqb (kind_of a) (kind_of b)
  then exists r, py_lt a b = Ok r
  else py_lt a b = Raise TypeError.
Proof. destruct a, b; simpl; eauto. Qed.

Lemma same_kind_sym (x y : string * unit_meta) :
  same_kind x y = same_kind y x.
Proof. unfold same_kind. apply Nat.eqb_sym. Qed.

Lemma same_kind_trans (x y z : string * unit_meta) :
  same_kind x y = true -> same_kind y z = true -> same_kind x z = true.
Proof.
  unfold same_kind. rewrite !Nat.eqb_eq. congruence.
Qed.

Lemma insert_unit_same (x : string * unit_meta)
    (l : list (string * unit_meta)) :
  forallb (same_kind x) l = true -> exists r, insert_unit x l = Ok r.
Proof.
  induction l as [|y l IH]; intros H; cbn [insert_unit]; [eauto|].
  cbn [forallb] in H. apply andb_true_iff in H. destruct H as [Hy Hl].
  pose proof (py_lt_kind (priority_key y) (priority_key x)) as Hk.
  rewrite same_kind_sym in Hy. unfold same_kind in Hy. rewrite Hy in Hk.
  destruct Hk as [b Hb]. rewrite Hb. cbn [rbind].
  destruct b; [|eauto].
  destruct (IH Hl) as [r Hr]. rewrite Hr. cbn [rbind]. eauto.
Qed.

Lemma insert_unit_other (x y : string * unit_meta)
    (l : list (string * unit_meta)) :
  same_kind x y = false -> insert_unit x (y :: l) = Raise TypeError.
Proof.
  intros H. cbn [insert_unit].
  pose proof (py_lt_kind (priority_key y) (priority_key x)) as Hk.
  rewrite same_kind_sym in H. unfold same_kind in H. rewrite H in Hk.
  rewrite Hk. reflexivity.
Qed.

Lemma one_kind_cons (x : string * unit_meta) (l : list (string * unit_meta)) :
  one_kind (x :: l) = true -> one_kind l = true.
Proof.
  cbn [one_kind]. destruct l as [|y l]; [reflexivity|].
  cbn [forallb one_kind]. intros H. apply andb_true_iff in H.
  destruct H as [Hy Hl]. rewrite forallb_forall in *.
  intros z Hz. apply (same_kind_trans y x z).
  - rewrite same_kind_sym. assumption.
  - apply Hl. assumption.
Qed.

(** The sort returns on keys of one type and raises [TypeError] on keys
    of two. *)
Lemma sort_units_kind (l : list (string * unit_meta)) :
  if one_kind l then exists r, sort_units l = Ok r
  else sort_units l = Raise TypeError.
Proof.
  induction l as [|x l IH]; [cbn; eauto|].
  cbn [sort_units].
  destruct (one_kind (x :: l)) eqn:Hx.
  - rewrite (one_kind_cons x l Hx) in IH. destruct IH as [r Hr].
    rewrite Hr. cbn [rbind]. apply insert_unit_same.
    cbn [one_kind] in Hx. rewrite forallb_forall in *.
    intros y Hy. apply Hx.
    apply (Permutation_in y (Permutation_sym (sort_units_perm l r Hr))).
    assumption.
  - destruct (one_kind l) eqn:Hl.
    + destruct IH as [r Hr]. rewrite Hr. cbn [rbind].
      pose proof (sort_units_perm l r Hr) as Hp.
      destruct r as [|y r].
      * apply Permutation_sym, Permutation_nil in Hp. subst l. discriminate.
      * apply insert_unit_other.
        destruct (same_kind x y) eqn:Hxy; [|reflexivity].
        exfalso. cbn [one_kind] in Hx.
        assert (Hall : forallb (same_kind x) l = true); [|congruence].
        apply forallb_forall. intros z Hz.
        apply (same_kind_trans x y z Hxy).
        assert (Hy : In y l).
        { apply (Permutation_in y (Permutation_sym Hp)). left. reflexivity. }
        destruct l as [|h t]; [destruct Hz|].
        cbn [one_kind] in Hl. rewrite forallb_forall in Hl.
        destruct Hy as [<- | Hy], Hz as [<- | Hz].
        -- unfold same_kind. apply Nat.eqb_refl.
        -- apply Hl. assumption.
        -- rewrite same_kind_sym. apply Hl. assumption.
        -- apply (same_kind_trans y h z).
           ++ rewrite same_kind_sym. apply Hl. assumption.
           ++ apply Hl. assumption.
    + rewrite IH. reflexivity.
Qed.

(** *** The assembled text has no white space around it *)

Lemma lstrip_length (s : string) : String.length (lstrip s) <= String.length s.
Proof.
  induction s as [|a s IH]; simpl; [lia|].
  destruct (isspace a); simpl; lia.
Qed.

Lemma lstrip_fixed_app (a b : string) :
  a <> EmptyString -> lstrip a = a -> lstrip (a ++ b) = a ++ b.
Proof.
  destruct a as [|c a]; [congruence|]. intros _. simpl.
  destruct (isspace c); [|reflexivity].
  intros H. pose proof (lstrip_length a) as Hl. rewrite H in Hl.
  simpl in Hl. lia.
Qed.

Lemma rstrip_app_fixed (a b : string) :
  rstrip b <> EmptyString -> rstrip (a ++ b) = a ++ rstrip b.
Proof.
  intros Hb. induction a as [|c a IH]; [reflexivity|].
  simpl. rewrite rstrip_cons, IH.
  destruct (a ++ rstrip b) eqn:E; [|reflexivity].
  destruct a; [simpl in E; congruence | discriminate].
Qed.

Lemma strip_fixed (s : string) :
  strip s = s -> lstrip s = s /\ rstrip s = s.
Proof.
  intros H. split.
  - rewrite <- H at 1. unfold strip. rewrite lstrip_idempotent. exact H.
  - rewrite <- H at 1. unfold strip. rewrite lstrip_rstrip, rstrip_idempotent.
    rewrite <- lstrip_rstrip. exact H.
Qed.

Lemma join_cons2 (sep x y : string) (l : list string) :
  join sep (x :: y :: l) = x ++ sep ++ join sep (y :: l).
Proof. reflexivity. Qed.

Lemma join_stripped (sep : string) (l : list string) :
  (forall x, In x l -> x <> EmptyString /\ strip x = x) ->
  l <> [] ->
  join sep l <> EmptyString
  /\ lstrip (join sep l) = join sep l
  /\ rstrip (join sep l) = join sep l.
Proof.
  induction l as [|x l IH]; intros Hall Hne; [congruence|].
  destruct (Hall x (or_introl eq_refl)) as [Hx Hsx].
  destruct (strip_fixed x Hsx) as [Hlx Hrx].
  destruct l as [|y l].
  - unfold join. simpl. auto.
  - destruct IH as (Hj & Hlj & Hrj);
      [intros z Hz; apply Hall; right; assumption | discriminate |].
    rewrite join_cons2. split; [apply append_nonempty; assumption|]. split.
    + apply lstrip_fixed_app; assumption.
    + rewrite rstrip_app_fixed.
      * rewrite rstrip_app_fixed by (rewrite Hrj; assumption).
        rewrite Hrj. reflexivity.
      * rewrite rstrip_app_fixed by (rewrite Hrj; assumption).
        rewrite Hrj. intros H.
        destruct sep; [exact (Hj H) | discriminate].
Qed.

Lemma contributions_stripped (w : world) (section_name : string)
    (units : list (string * unit_meta)) (c : string) :
  In c (contributions w section_name units) ->
  c <> EmptyString /\ strip c = c.
Proof.
  intros H. split; [eapply contributions_nonempty; eassumption|].
  unfold contributions in H. apply in_flat_map in H.
  destruct H as [x [_ Hc]]. unfold contribution in Hc.
  destruct (read_file w (unit_path section_name (fst x))) as [text|];
    [|destruct Hc].
  destruct (nonempty (strip text)); [|destruct Hc].
  destruct Hc as [<-|[]]. apply strip_idempotent.
Qed.

(** *** When the filter returns *)

Lemma any_in_int (t : string) (r : list string) (n : Z) :
  any_in (t :: r) (VInt n) = Raise TypeError.
Proof. reflexivity. Qed.






End BuilderMoreFacts.

(** ** The keyword mappings and the keywords that survive *)
Section KeywordFacts.
Import PyStr GenerateBibfiles GenerateBibfilesMore.

Lemma contains_cons (b : ascii) (s t : string) :
  contains (String b s) t = startswith (String b s) t || contains s t.
Proof.
  unfold contains, startswith. cbn [index].
  destruct (prefix t (String b s)); [reflexivity|].
  destruct (index 0 t s); reflexivity.
Qed.

Lemma startswith_drop (s p : string) :
  startswith s p = true -> s = p ++ drop (String.length p) s.
Proof.
  revert s. induction p as [|a p IH]; intros s H; [reflexivity|].
  destruct s as [|b s]; [discriminate|].
  rewrite startswith_cons in H. apply andb_true_iff in H.
  destruct H as [Hab Hp]. apply Ascii.eqb_eq in Hab. subst b.
  simpl. rewrite <- (IH s Hp). reflexivity.
Qed.

(** A string that holds the separator is cut in two around it. *)
Lemma split1_at_two (sep s : string) :
  sep <> EmptyString -> contains s sep = true ->
  exists old new, split1_at sep s = [old; new] /\ s = old ++ sep ++ new.
Proof.
  intros Hsep. induction s as [|a s IH]; intros H.
  - unfold contains in H. simpl in H.
    destruct sep; [congruence | discriminate].
  - rewrite contains_cons in H. cbn [split1_at].
    destruct (startswith (String a s) sep) eqn:E.
    + exists EmptyString, (drop (String.length sep) (String a s)).
      split; [reflexivity|]. apply startswith_drop. assumption.
    + destruct (IH H) as (old & new & Hs & Heq). rewrite Hs.
      exists (String a old), new. split; [reflexivity|].
      simpl. rewrite <- Heq. reflexivity.
Qed.

Lemma mapping_line_ok (m : ODict.t string) (raw : string) :
  exists m', mapping_line m raw = Ok m'.
Proof.
  unfold mapping_line.
  destruct (nonempty (strip raw) && negb (startswith (strip raw) "#"));
    [|eauto].
  destruct (contains (strip raw) arrow) eqn:E; [|eauto].
  destruct (split1_at_two arrow (strip raw)) as (old & new & Hs & _);
    [discriminate | assumption |].
  rewrite Hs. eauto.
Qed.

(** *** Strings of white space *)

Lemma lstrip_spaces (s : string) :
  lstrip s = EmptyString -> forallb isspace (chars s) = true.
Proof.
  induction s as [|a s IH]; [reflexivity|].
  simpl. destruct (isspace a); [exact IH | discriminate].
Qed.

Lemma spaces_lstrip (ws t : string) :
  forallb isspace (chars ws) = true -> lstrip (ws ++ t) = lstrip t.
Proof.
  induction ws as [|a ws IH]; [reflexivity|].
  simpl. intros H. apply andb_true_iff in H. destruct H as [Ha Hws].
  rewrite Ha. auto.
Qed.

Lemma all_spaces_lstrip (ws : string) :
  forallb isspace (chars ws) = true -> lstrip ws = EmptyString.
Proof.
  induction ws as [|a ws IH]; [reflexivity|].
  simpl. intros H. apply andb_true_iff in H. destruct H as [Ha Hws].
  rewrite Ha. auto.
Qed.

Lemma rstrip_empty_spaces (s : string) :
  rstrip s = EmptyString -> forallb isspace (chars s) = true.
Proof.
  induction s as [|a s IH]; [reflexivity|].
  rewrite rstrip_cons. simpl.
  destruct (rstrip s); [|discriminate].
  destruct (isspace a); [intros _; apply IH; reflexivity | discriminate].
Qed.

Lemma strip_empty_spaces (s : string) :
  strip s = EmptyString -> forallb isspace (chars s) = true.
Proof.
  unfold strip. rewrite lstrip_rstrip. intros H.
  apply rstrip_empty_spaces in H.
  apply lstrip_spaces. rewrite <- lstrip_idempotent.
  apply all_spaces_lstrip. assumption.
Qed.

Lemma rstrip_length (s : string) : String.length (rstrip s) <= String.length s.
Proof.
  induction s as [|a s IH]; [simpl; lia|].
  rewrite rstrip_cons. destruct (rstrip s).
  - destruct (isspace a); simpl; lia.
  - simpl in *. lia.
Qed.

Lemma length_app (a b : string) :
  String.length (a ++ b) = String.length a + String.length b.
Proof. induction a as [|c a IH]; simpl; [reflexivity | rewrite IH; reflexivity]. Qed.

Lemma append_assoc (a b c : string) : (a ++ b) ++ c = a ++ b ++ c.
Proof. induction a as [|x a IH]; simpl; [reflexivity | rewrite IH; reflexivity]. Qed.

(** In a stripped line the texts around the arrow are not blank. *)
Lemma around_arrow (line old new : string) :
  strip line = line -> line = old ++ arrow ++ new ->
  strip old <> EmptyString /\ strip new <> EmptyString.
Proof.
  intros Hstrip Hline. destruct (strip_fixed line Hstrip) as [Hl Hr].
  split; intros H; apply strip_empty_spaces in H.
  - rewrite Hline, (spaces_lstrip old _ H) in Hl.
    change (lstrip (arrow ++ new)) with (lstrip ("-> " ++ new)) in Hl.
    pose proof (lstrip_length ("-> " ++ new)) as Hlen.
    rewrite Hl, !length_app in Hlen. simpl in Hlen. lia.
  - assert (Hsplit : line = (old ++ " ->") ++ (" " ++ new)).
    { rewrite Hline, append_assoc. reflexivity. }
    assert (Hws : forallb isspace (chars (" " ++ new)) = true).
    { simpl. exact H. }
    rewrite Hsplit, (rstrip_app_spaces _ _ Hws) in Hr.
    pose proof (rstrip_length (old ++ " ->")) as Hlen.
    rewrite Hr in Hlen. rewrite !length_app in Hlen. simpl in Hlen. lia.
Qed.

Lemma forall_set {V : Type} (Q : string * V -> Prop) (d : ODict.t V)
    (k : string) (v : V) :
  Forall Q d -> Q (k, v) -> Forall Q (ODict.set d k v).
Proof.
  intros Hd Hq. induction d as [|[k' v'] d IH]; simpl.
  - constructor; [assumption | constructor].
  - inversion Hd as [|? ? Hp Hd']; subst.
    destruct (String.eqb k' k) eqn:E.
    + apply String.eqb_eq in E. subst k'. constructor; assumption.
    + constructor; auto.
Qed.

Lemma mapping_line_tidy (m m' : ODict.t string) (raw : string) :
  Forall tidy_pair m -> mapping_line m raw = Ok m' -> Forall tidy_pair m'.
Proof.
  unfold mapping_line. intros Hm.
  destruct (nonempty (strip raw) && negb (startswith (strip raw) "#"));
    [|intros [= <-]; assumption].
  destruct (contains (strip raw) arrow) eqn:E; [|intros [= <-]; assumption].
  destruct (split1_at_two arrow (strip raw)) as (old & new & Hs & Heq);
    [discriminate | assumption |].
  rewrite Hs. intros [= <-].
  destruct (around_arrow (strip raw) old new (strip_idempotent raw) Heq)
    as [Ho Hn].
  apply forall_set; [assumption|].
  repeat split; simpl; auto using strip_idempotent.
Qed.

Lemma mapping_lines_tidy (lines : list string) (m m' : ODict.t string) :
  Forall tidy_pair m -> mapping_lines m lines = Ok m' -> Forall tidy_pair m'.
Proof.
  revert m. induction lines as [|x l IH]; intros m Hm H.
  - injection H as <-. assumption.
  - cbn [mapping_lines] in H. apply rbind_ok in H.
    destruct H as (m1 & H1 & Hrest).
    apply (IH m1); [|assumption]. eapply mapping_line_tidy; eassumption.
Qed.

Lemma mapping_lines_ok (lines : list string) (m : ODict.t string) :
  exists m', mapping_lines m lines = Ok m'.
Proof.
  revert m. induction lines as [|x l IH]; intros m; [simpl; eauto|].
  cbn [mapping_lines]. destruct (mapping_line_ok m x) as [m1 H1].
  rewrite H1. apply IH.
Qed.

(** *** Joining and splitting keywords *)

Lemma clean_spec (kw : string) :
  clean kw = true <-> contains_char "," kw = false /\ strip kw = kw.
Proof.
  unfold clean. rewrite andb_true_iff, negb_true_iff, String.eqb_eq. tauto.
Qed.

Lemma split_space_cons (s : string) :
  split "," (String " " s)
  = match split "," s with
    | h :: t => String " " h :: t
    | [] => [String " " EmptyString]
    end.
Proof. reflexivity. Qed.

Lemma split_join (x : string) (l : list string) :
  forallb clean (x :: l) = true ->
  split "," (join ", " (x :: l)) = x :: map (String " ") l.
Proof.
  revert x. induction l as [|y l IH]; intros x H.
  - cbn [forallb] in H. apply andb_true_iff in H. destruct H as [Hx _].
    apply clean_spec in Hx. destruct Hx as [Hx _].
    unfold join. simpl. apply split_none. assumption.
  - cbn [forallb] in H. apply andb_true_iff in H. destruct H as [Hx Hl].
    apply clean_spec in Hx. destruct Hx as [Hx _].
    rewrite join_cons2.
    change (", " ++ join ", " (y :: l))
      with (String "," (String " " (join ", " (y :: l)))).
    rewrite (split_app "," x _ Hx), split_space_cons, (IH y Hl).
    reflexivity.
Qed.

(** Keywords without commas and outer blanks come back from the joined
    string. *)
Lemma strip_split_join (l : list string) :
  l <> [] -> forallb clean l = true ->
  map strip (split "," (join ", " l)) = l.
Proof.
  intros Hne H. destruct l as [|x l]; [congruence|].
  rewrite (split_join x l H). cbn [forallb] in H.
  apply andb_true_iff in H. destruct H as [Hx Hl].
  apply clean_spec in Hx. destruct Hx as [_ Hx].
  cbn [map]. rewrite Hx. f_equal. clear Hne.
  induction l as [|y l IH]; [reflexivity|].
  cbn [forallb] in Hl. apply andb_true_iff in Hl. destruct Hl as [Hy Hl].
  apply clean_spec in Hy. destruct Hy as [_ Hy].
  cbn [map]. rewrite (strip_space_cons " " y eq_refl), Hy, (IH Hl).
  reflexivity.
Qed.

Lemma remap_clean (m : ODict.t string) (kw : string) :
  forallb clean (values m) = true -> clean kw = true ->
  clean (remap m kw) = true.
Proof.
  unfold remap. intros Hm Hkw.
  destruct (ODict.get m kw) as [v|] eqn:E; [|assumption].
  apply get_in in E. rewrite forallb_forall in Hm. apply Hm.
  unfold values. change v with (snd (kw, v)). apply in_map. assumption.
Qed.

(** The keywords that survive are clean when the mapping values are. *)
Lemma surviving_clean (kws : string) (m : ODict.t string) (vp : list string) :
  forallb clean (values m) = true ->
  forallb clean (surviving_keywords kws m vp) = true.
Proof.
  intros Hm. unfold surviving_keywords. apply forallb_forall.
  intros x Hx. apply filter_In in Hx. destruct Hx as [Hx _].
  apply in_map_iff in Hx. destruct Hx as (kw & <- & Hkw).
  apply remap_clean; [assumption|]. apply clean_spec. split.
  - rewrite contains_char_strip by reflexivity.
    eapply split_pieces. eassumption.
  - apply strip_idempotent.
Qed.

Lemma surviving_valid (kws : string) (m : ODict.t string) (vp : list string)
    (x : string) :
  In x (surviving_keywords kws m vp) -> has_valid_prefix vp x = true.
Proof.
  unfold surviving_keywords. intros H. apply filter_In in H. tauto.
Qed.

End KeywordFacts.

(** ** The subsets and the files of the bibliography *)
Section SubsetFacts.
Import PyStr GenerateBibfiles GenerateBibfilesMore.

Lemma set_set {V : Type} (d : ODict.t V) (k : string) (v v' : V) :
  ODict.set (ODict.set d k v) k v' = ODict.set d k v'.
Proof.
  induction d as [|[k0 v0] d IH]; simpl.
  - rewrite String.eqb_refl. reflexivity.
  - destruct (String.eqb k0 k) eqn:E; simpl; rewrite E; [reflexivity|].
    rewrite IH. reflexivity.
Qed.

Lemma get_place (subs : subsets_t) (n k S : string) (e : Entry) :
  ODict.get (place subs n k e) S
  = if String.eqb n S then Some (ODict.set (subset_of subs n) k e)
    else ODict.get subs S.
Proof. unfold place, subset_of. apply get_set. Qed.

Lemma subset_of_place (subs : subsets_t) (n k S : string) (e : Entry) :
  subset_of (place subs n k e) S
  = if String.eqb n S then ODict.set (subset_of subs n) k e
    else subset_of subs S.
Proof.
  unfold subset_of at 1. rewrite get_place.
  destruct (String.eqb n S); reflexivity.
Qed.

Lemma tag_loop_get (tags : list string) (p k : string) (e : Entry)
    (subs : subsets_t) (S : string) :
  ODict.get (tag_loop tags p k e subs) S
  = if existsb (names p S) tags
    then Some (ODict.set (subset_of subs S) k e)
    else ODict.get subs S.
Proof.
  revert subs. induction tags as [|tag tags IH]; intros subs;
    [reflexivity|].
  cbn [tag_loop existsb]. rewrite IH. unfold names at 2.
  destruct (nonempty (subset_name_of p tag)) eqn:Hn.
  - rewrite get_place, subset_of_place.
    destruct (String.eqb (subset_name_of p tag) S) eqn:E; cbn [andb orb].
    + apply String.eqb_eq in E. rewrite E.
      destruct (existsb (names p S) tags); [rewrite set_set|]; reflexivity.
    + reflexivity.
  - rewrite andb_false_r. reflexivity.
Qed.

Lemma subset_of_tag_loop (tags : list string) (p k : string) (e : Entry)
    (subs : subsets_t) (S : string) :
  subset_of (tag_loop tags p k e subs) S
  = if existsb (names p S) tags then ODict.set (subset_of subs S) k e
    else subset_of subs S.
Proof.
  unfold subset_of at 1. rewrite tag_loop_get.
  destruct (existsb (names p S) tags); reflexivity.
Qed.

(** A subset grows by the tagged entries, in their order. *)
Lemma entries_loop_get (items : list (string * Entry)) (p : string)
    (subs : subsets_t) (all : ODict.t Entry) (S : string) :
  NoDup (ODict.keys (subset_of subs S) ++ ODict.keys items) ->
  ODict.get (fst (entries_loop items p subs all)) S
  = match subset_entries items p S with
    | [] => ODict.get subs S
    | added => Some (subset_of subs S ++ added)%list
    end.
Proof.
  revert subs all. induction items as [|[k e] items IH]; intros subs all Hnd;
    [reflexivity|].
  cbn [entries_loop]. unfold subset_entries. cbn [filter snd].
  fold (subset_entries items p S).
  assert (Hk : ODict.get (subset_of subs S) k = None).
  { apply get_none_keys. intros Hin.
    apply NoDup_remove_2 in Hnd. apply Hnd. apply in_or_app. left. assumption. }
  rewrite IH.
  - rewrite tag_loop_get, subset_of_tag_loop.
    change (existsb (names p S) (tags_for p e)) with (taggedb p e S).
    destruct (taggedb p e S).
    + rewrite (set_absent _ _ _ Hk).
      destruct (subset_entries items p S); [reflexivity|].
      rewrite <- app_assoc. reflexivity.
    + reflexivity.
  - rewrite subset_of_tag_loop.
    change (existsb (names p S) (tags_for p e)) with (taggedb p e S).
    destruct (taggedb p e S).
    + rewrite (set_absent _ _ _ Hk). unfold ODict.keys in *.
      rewrite map_app, <- app_assoc. exact Hnd.
    + apply NoDup_remove_1 in Hnd. exact Hnd.
Qed.

Lemma taggedb_name (p : string) (e : Entry) (S : string) :
  taggedb p e S = true -> S <> EmptyString.
Proof.
  unfold taggedb. rewrite existsb_exists. intros (tag & _ & H).
  unfold names in H. apply andb_true_iff in H. destruct H as [Heq Hne].
  apply String.eqb_eq in Heq. subst S. apply nonempty_true. assumption.
Qed.

(** The processed bibliography holds the processed entries under the
    keys of the bibliography, in its order. *)
Lemma process_all_map (items : list (string * Entry)) (m : ODict.t string)
    (vp : list string) (acc : ODict.t Entry) :
  NoDup (ODict.keys acc ++ ODict.keys items) ->
  process_all items m vp acc
  = (acc ++ map (fun x => (fst x, process_keywords (snd x) m (Some vp)))
             items)%list.
Proof.
  revert acc. induction items as [|[k e] items IH]; intros acc Hnd.
  - simpl. rewrite app_nil_r. reflexivity.
  - cbn [process_all map fst snd].
    assert (Hk : ODict.get acc k = None).
    { apply get_none_keys. intros Hin.
      apply NoDup_remove_2 in Hnd. apply Hnd. apply in_or_app. left.
      assumption. }
    rewrite (set_absent _ _ _ Hk), IH.
    + rewrite <- app_assoc. reflexivity.
    + unfold ODict.keys in *. rewrite map_app, <- app_assoc. exact Hnd.
Qed.

Lemma filter_all {A : Type} (f : A -> bool) (l : list A) :
  (forall x, In x l -> f x = true) -> filter f l = l.
Proof.
  induction l as [|a l IH]; intros H; simpl; [reflexivity|].
  rewrite (H a (or_introl eq_refl)), IH; [reflexivity|].
  intros x Hx. apply H. right. assumption.
Qed.

Lemma remap_empty (kw : string) : remap ODict.empty kw = kw.
Proof. reflexivity. Qed.

End SubsetFacts.

(** ** Files that are written stay *)
Section FileFacts.
Import PyStr GenerateBibfiles GenerateBibfilesMore.

Variable fs : Type.
Variable fs_exists : fs -> string -> bool.
Variable fs_write : fs -> string -> ODict.t Entry -> fs.
Variable report : string -> nat -> string.

(** A file that is written exists, and writing a file removes none. *)
Hypothesis write_exists :
  forall s p d, fs_exists (fs_write s p d) p = true.
Hypothesis write_keeps :
  forall s p d q, fs_exists s q = true -> fs_exists (fs_write s p d) q = true.



End FileFacts.

(** ** The keywords of a processed entry *)
Section ProcessedFacts.
Import PyStr GenerateBibfiles GenerateBibfilesMore.

(** Filling a dictionary with pairs of distinct new keys appends them. *)
Lemma fold_set_fresh {V : Type} (l acc : ODict.t V) :
  ODict.wf (acc ++ l)%list ->
  fold_left (fun d p => ODict.set d (fst p) (snd p)) l acc = (acc ++ l)%list.
Proof.
  revert acc. induction l as [|[k v] l IH]; intros acc Hwf; cbn [fold_left].
  - rewrite app_nil_r. reflexivity.
  - cbn [fst snd]. rewrite set_absent.
    + rewrite IH; rewrite <- app_assoc; [reflexivity | exact Hwf].
    + apply get_none_keys. unfold ODict.wf, ODict.keys in Hwf.
      rewrite map_app in Hwf. cbn [map fst] in Hwf.
      apply NoDup_remove_2 in Hwf. intros Hin. apply Hwf.
      apply in_or_app. left. exact Hin.
Qed.

Lemma wf_fold_set {V : Type} (f : string * V -> string) (l acc : ODict.t V) :
  ODict.wf acc ->
  ODict.wf (fold_left (fun d p => ODict.set d (f p) (snd p)) l acc).
Proof.
  revert acc. induction l as [|x l IH]; intros acc Hwf; cbn [fold_left].
  - exact Hwf.
  - apply IH. apply wf_set. exact Hwf.
Qed.

Lemma wf_remove {V : Type} (d : ODict.t V) (k : string) :
  ODict.wf d -> ODict.wf (ODict.remove d k).
Proof.
  unfold ODict.wf, ODict.keys, ODict.remove.
  induction d as [|[k' v] d IH]; intros Hwf; cbn [filter map fst].
  - constructor.
  - cbn [map fst] in Hwf. inversion Hwf as [|? ? Hn Hd]; subst.
    destruct (negb (String.eqb k' k)); [|apply IH; exact Hd].
    cbn [map fst]. constructor; [|apply IH; exact Hd].
    intros Hin. apply Hn. apply in_map_iff in Hin.
    destruct Hin as (y & Hy & Hin). apply filter_In in Hin.
    apply in_map_iff. exists y. split; [exact Hy | apply Hin].
Qed.

(** The plain dict of the fields has no name twice. *)
Lemma wf_plain_fields (entry : Entry) : ODict.wf (plain_fields entry).
Proof. unfold plain_fields. apply wf_fold_set. constructor. Qed.

(** The plain dict of fields written as they are looked up is the
    fields. *)
Lemma plain_fields_id (entry : Entry) :
  spelling entry = ODict.empty -> ODict.wf (fields entry) ->
  plain_fields entry = fields entry.
Proof.
  intros Hs Hwf. unfold plain_fields, written. rewrite Hs.
  cbn [ODict.get ODict.empty].
  apply (fold_set_fresh (fields entry) []). exact Hwf.
Qed.

Lemma plain_fields_plain (t ot : string) (f : ODict.t string)
    (ps : ODict.t (list string)) (k : option string) :
  ODict.wf f ->
  plain_fields {| type := t; original_type := ot; fields := f;
                  spelling := ODict.empty; persons := ps; key := k |}
  = f.
Proof. intros Hwf. apply plain_fields_id; [reflexivity | exact Hwf]. Qed.

Lemma process_keywords_some (entry : Entry) (m : ODict.t string)
    (vp : option (list string)) (kws : string) :
  ODict.get (fields entry) "keywords" = Some kws ->
  process_keywords entry m vp
  = {| type := lower (type entry);
       original_type := type entry;
       fields := match surviving_keywords kws m (prefixes_of vp) with
                 | [] => ODict.remove (plain_fields entry) "keywords"
                 | l => ODict.set (plain_fields entry) "keywords"
                          (join ", " l)
                 end;
       spelling := ODict.empty;
       persons := persons entry;
       key := None |}.
Proof.
  intros Hk. unfold process_keywords. rewrite Hk.
  rewrite remap_loop_filter. simpl app. rewrite map_map.
  fold (prefixes_of vp).
  fold (surviving_keywords kws m (prefixes_of vp)).
  destruct (surviving_keywords kws m (prefixes_of vp)); reflexivity.
Qed.

Lemma keywords_of_processed (entry : Entry) (m : ODict.t string)
    (vp : option (list string)) (kws : string) :
  ODict.get (fields entry) "keywords" = Some kws ->
  keywords_of (process_keywords entry m vp)
  = match surviving_keywords kws m (prefixes_of vp) with
    | [] => EmptyString
    | l => join ", " l
    end.
Proof.
  intros Hk. rewrite (process_keywords_some entry m vp kws Hk).
  unfold keywords_of. cbn [fields].
  destruct (surviving_keywords kws m (prefixes_of vp)).
  - rewrite get_remove_same. reflexivity.
  - rewrite get_set_same. reflexivity.
Qed.

(** The written keywords, split and stripped, are the surviving ones. *)
Lemma processed_round_trip (entry : Entry) (m : ODict.t string)
    (vp : option (list string)) (kws : string) :
  forallb clean (values m) = true ->
  ODict.get (fields entry) "keywords" = Some kws ->
  surviving_keywords kws m (prefixes_of vp) <> [] ->
  map strip (split "," (keywords_of (process_keywords entry m vp)))
  = surviving_keywords kws m (prefixes_of vp).
Proof.
  intros Hm Hk Hne.
  rewrite (keywords_of_processed entry _ _ kws Hk).
  pose proof (surviving_clean kws m (prefixes_of vp) Hm) as Hc.
  destruct (surviving_keywords kws m (prefixes_of vp)) as [|x l] eqn:E;
    [congruence|].
  apply strip_split_join; [discriminate | assumption].
Qed.

End ProcessedFacts.

(** ** Counting and ranking the tags *)
Section StatsFacts.
Import PyStr BuildSection StatusMore.

Lemma get_bump (tc : counts) (t t' : string) :
  ODict.get (bump tc t) t'
  = if String.eqb t t'
    then Some (match ODict.get tc t with Some n => n | None => 0%Z end + 1)%Z
    else ODict.get tc t'.
Proof. unfold bump. apply get_set. Qed.

Lemma occurrences_cons (x t : string) (l : list string) :
  occurrences (x :: l) t
  = if String.eqb x t then S (occurrences l t) else occurrences l t.
Proof.
  unfold occurrences. simpl. destruct (string_dec x t) as [->|Hne].
  - rewrite String.eqb_refl. reflexivity.
  - apply String.eqb_neq in Hne. rewrite Hne. reflexivity.
Qed.

Lemma count_tags_get (tags : list string) (tc : counts) (t : string) :
  ODict.get (count_tags tags tc) t
  = match occurrences tags t with
    | O => ODict.get tc t
    | S k => Some (match ODict.get tc t with Some n => n | None => 0%Z end
                   + Z.of_nat (S k))%Z
    end.
Proof.
  revert tc. induction tags as [|x tags IH]; intros tc; [reflexivity|].
  cbn [count_tags]. rewrite IH, occurrences_cons, !get_bump.
  destruct (String.eqb x t) eqn:E.
  - apply String.eqb_eq in E. subst x.
    destruct (occurrences tags t); f_equal; lia.
  - reflexivity.
Qed.

Lemma count_tags_app (a b : list string) (tc : counts) :
  count_tags (a ++ b) tc = count_tags b (count_tags a tc).
Proof.
  revert tc. induction a as [|x a IH]; intros tc; [reflexivity|].
  simpl. apply IH.
Qed.

Lemma iter_tags_list (m : unit_meta) :
  tags_is_list m = true -> iter_tags m = Ok (tag_list m).
Proof.
  unfold tags_is_list, iter_tags, tag_list.
  destruct (ODict.get m "tags") as [[s|n|l]|]; congruence.
Qed.

Lemma count_units_list (units : section_meta) (tc : counts) :
  forallb (fun x => tags_is_list (snd x)) units = true ->
  count_units units tc = Ok (count_tags (unit_tags units) tc).
Proof.
  revert tc. induction units as [|[u m] units IH]; intros tc H;
    [reflexivity|].
  cbn [forallb snd] in H. apply andb_true_iff in H. destruct H as [Hm Hr].
  cbn [count_units]. rewrite (iter_tags_list m Hm). cbn [rbind].
  rewrite (IH _ Hr). unfold unit_tags. cbn [flat_map snd].
  rewrite count_tags_app. reflexivity.
Qed.

Lemma count_sections_list (md : metadata_t) (tc : counts) :
  tags_are_lists md = true ->
  count_sections md tc = Ok (count_tags (all_tags md) tc).
Proof.
  unfold tags_are_lists.
  revert tc. induction md as [|[s sd] md IH]; intros tc H; [reflexivity|].
  cbn [forallb snd] in H. apply andb_true_iff in H. destruct H as [Hs Hr].
  cbn [count_sections]. rewrite (count_units_list sd tc Hs). cbn [rbind].
  rewrite (IH _ Hr). unfold all_tags. cbn [flat_map snd].
  rewrite count_tags_app. reflexivity.
Qed.

(** *** The ranking *)

Lemma insert_count_perm (x : string * Z) (l : list (string * Z)) :
  Permutation (x :: l) (insert_count x l).
Proof.
  induction l as [|y l IH]; simpl; [apply Permutation_refl|].
  destruct (snd y <? snd x)%Z; [|apply Permutation_refl].
  eapply Permutation_trans; [apply perm_swap|]. apply perm_skip. exact IH.
Qed.

Lemma sort_counts_perm (l : list (string * Z)) :
  Permutation l (sort_counts l).
Proof.
  induction l as [|x l IH]; simpl; [apply perm_nil|].
  eapply Permutation_trans; [apply perm_skip; exact IH|].
  apply insert_count_perm.
Qed.

Lemma insert_count_sorted (x : string * Z) (l : list (string * Z)) :
  StronglySorted lower_first l -> StronglySorted lower_first (insert_count x l).
Proof.
  induction l as [|y l IH]; intros Hs; simpl.
  - constructor; constructor.
  - inversion Hs as [|? ? Hs' Hall]; subst.
    destruct (snd y <? snd x)%Z eqn:E.
    + apply Z.ltb_lt in E. constructor; [auto|].
      apply Forall_forall. intros z Hz.
      apply (Permutation_in z (Permutation_sym (insert_count_perm x l))) in Hz.
      destruct Hz as [<- | Hz].
      * unfold lower_first. lia.
      * rewrite Forall_forall in Hall. auto.
    + apply Z.ltb_ge in E. constructor; [assumption|].
      constructor; [exact E|].
      eapply Forall_impl; [|exact Hall]. unfold lower_first. intros; lia.
Qed.

Lemma sort_counts_sorted (l : list (string * Z)) :
  StronglySorted lower_first (sort_counts l).
Proof.
  induction l as [|x l IH]; simpl; [constructor|].
  apply insert_count_sorted. assumption.
Qed.

Lemma insert_count_stable (c : Z) (x : string * Z) (l : list (string * Z)) :
  filter (with_count c) (insert_count x l) = filter (with_count c) (x :: l).
Proof.
  induction l as [|y l IH]; [reflexivity|].
  cbn [insert_count]. destruct (snd y <? snd x)%Z eqn:E; [|reflexivity].
  apply Z.ltb_lt in E. cbn [filter] in *. rewrite IH.
  destruct (with_count c y) eqn:Ey, (with_count c x) eqn:Ex; try reflexivity.
  unfold with_count in Ey, Ex. apply Z.eqb_eq in Ey, Ex. lia.
Qed.

Lemma sort_counts_stable (c : Z) (l : list (string * Z)) :
  filter (with_count c) (sort_counts l) = filter (with_count c) l.
Proof.
  induction l as [|x l IH]; [reflexivity|].
  cbn [sort_counts]. rewrite insert_count_stable. cbn [filter].
  rewrite IH. reflexivity.
Qed.

Lemma sorted_snoc {A : Type} (R : A -> A -> Prop) (l : list A) (x : A) :
  StronglySorted R l -> Forall (fun y => R y x) l ->
  StronglySorted R (l ++ [x]).
Proof.
  induction l as [|a l IH]; intros Hs Hall; simpl.
  - constructor; constructor.
  - inversion Hs as [|? ? Hs' Ha]; subst.
    inversion Hall as [|? ? Hax Hall']; subst.
    constructor; [auto|].
    apply Forall_app. split; [assumption | constructor; [assumption | constructor]].
Qed.

Lemma sorted_rev (l : list (string * Z)) :
  StronglySorted lower_first l -> StronglySorted higher (rev l).
Proof.
  induction l as [|x l IH]; intros Hs; simpl; [constructor|].
  inversion Hs as [|? ? Hs' Hall]; subst.
  apply sorted_snoc; [auto|].
  apply Forall_forall. intros y Hy. apply in_rev in Hy.
  rewrite Forall_forall in Hall. apply Hall. assumption.
Qed.

Lemma sorted_app_inv {A : Type} (R : A -> A -> Prop) (a b : list A) :
  StronglySorted R (a ++ b) ->
  StronglySorted R a /\ forall x y, In x a -> In y b -> R x y.
Proof.
  induction a as [|h a IH]; intros Hs; simpl in *.
  - split; [constructor | intros x y []].
  - inversion Hs as [|? ? Hs' Hall]; subst.
    destruct (IH Hs') as [Ha Hab]. apply Forall_app in Hall.
    destruct Hall as [Hha Hhb]. split; [constructor; assumption|].
    intros x y [<- | Hx] Hy; [|auto].
    rewrite Forall_forall in Hhb. auto.
Qed.

Lemma sorted_reverse_sorted (l : list (string * Z)) :
  StronglySorted higher (sorted_reverse l).
Proof. apply sorted_rev, sort_counts_sorted. Qed.

Lemma sorted_reverse_perm (l : list (string * Z)) :
  Permutation l (sorted_reverse l).
Proof.
  unfold sorted_reverse.
  eapply Permutation_trans; [apply Permutation_rev|].
  eapply Permutation_trans; [apply sort_counts_perm|].
  apply Permutation_rev.
Qed.

Lemma sorted_reverse_stable (c : Z) (l : list (string * Z)) :
  filter (with_count c) (sorted_reverse l) = filter (with_count c) l.
Proof.
  unfold sorted_reverse.
  rewrite filter_rev, sort_counts_stable, filter_rev. apply rev_involutive.
Qed.

End StatsFacts.

(** ** The properties *)

Module Extras.
Import PyStr BuildSection BuildSectionMore.
Import GenerateBibfiles GenerateBibfilesMore Samples MoreSamples.

(** X1 - when the metadata parser returns.  The parsing loop returns a
    mapping exactly on the files that are well nested: every property line
    met while a section and a unit are held finds that unit registered in
    that section, with a value that is bracketed, not made of digits, or
    converted by [int].  On every other file it raises an exception, which
    is not a process exit. *)
Theorem X1_parser_returns_iff_well_nested (lines : list string) :
  (well_nested lines = true <-> exists md, parse_metadata lines = Ok md)
  /\ (well_nested lines = false <->
      exists e, parse_metadata lines = Raise e)
  /\ (forall e, parse_metadata lines = Raise e ->
      forall code, e <> SystemExit code).
Proof.
  pose proof (nested_run lines outside init describes_init) as H.
  fold (well_nested lines) in H. unfold parse_metadata.
  destruct (well_nested lines).
  - destruct H as [f Hf]. rewrite Hf. cbn [rbind]. repeat split; eauto;
      try discriminate.
    intros [e He]. discriminate.
  - destruct H as [e He]. rewrite He. cbn [rbind]. repeat split; eauto;
      try discriminate.
    + intros [md Hmd]. discriminate.
    + intros e' [= <-] code ->.
      pose proof (parse_lines_no_exit lines init) as Hno.
      rewrite He in Hno. exact Hno.
Qed.

(** X2 - the parsed metadata is made of dictionaries.  In the mapping the
    parser returns no section name occurs twice, no unit name occurs twice
    in a section and no property name occurs twice in a unit. *)
Theorem X2_metadata_is_dictionaries (lines : list string) (md : metadata_t) :
  parse_metadata lines = Ok md -> metadata_wf md.
Proof.
  unfold parse_metadata. intros H. apply rbind_ok in H.
  destruct H as (f & Hf & Hmd). injection Hmd as <-.
  apply (metadata_wf_run lines init f); [|assumption].
  split; [apply wf_empty | constructor].
Qed.

Lemma X2_metadata_is_dictionaries_witness :
  parse_metadata (twice_prefix ++ "jobs:" :: twice_suffix)%list
  = Ok [ ("jobs", [("second", [("tags", VList ["full_cv"])])]);
         ("other", [("x", [])]) ]
  /\ metadata_wf [ ("jobs", [("second", [("tags", VList ["full_cv"])])]);
                   ("other", [("x", [])]) ].
Proof.
  split; [reflexivity|].
  apply (X2_metadata_is_dictionaries
           (twice_prefix ++ "jobs:" :: twice_suffix)%list).
  reflexivity.
Defined.

(** X3 - lines that do not count.  A line that is blank, a comment, or
    neither ended by a colon nor indented four spaces can be put into a
    metadata file or taken out of it anywhere: the parser returns, or
    raises, the same. *)
Theorem X3_ignorable_lines (l1 l2 : list string) (raw : string) :
  ignorable raw = true ->
  parse_metadata (l1 ++ raw :: l2)%list = parse_metadata (l1 ++ l2)%list.
Proof.
  intros H. unfold parse_metadata. rewrite !parse_lines_app.
  destruct (parse_lines init l1) as [st|e]; [|reflexivity].
  cbn [rbind]. rewrite parse_lines_cons, (classify_ignorable raw H).
  reflexivity.
Qed.

Lemma X3_ignorable_lines_witness :
  ignorable "  priority: 1" = true
  /\ parse_metadata (["jobs:"; "  first:"] ++ "  priority: 1" :: ["  second:"])%list
     = Ok [("jobs", [("first", []); ("second", [])])].
Proof.
  split; [reflexivity|].
  rewrite (X3_ignorable_lines ["jobs:"; "  first:"] ["  second:"]
             "  priority: 1" eq_refl).
  reflexivity.
Defined.

(** X4 - line ends.  White space at the end of the lines, such as the
    line feed that iterating over a file leaves on each line, does not
    change what the parser returns. *)
Theorem X4_line_endings (lines : list string) (ws : string) :
  forallb isspace (chars ws) = true ->
  parse_metadata (map (fun l => l ++ ws) lines) = parse_metadata lines.
Proof.
  intros Hws. unfold parse_metadata. f_equal.
  generalize init. induction lines as [|x l IH]; intros st; [reflexivity|].
  cbn [map]. rewrite !parse_lines_cons, (classify_rstrip x ws Hws).
  destruct (apply_kind st (classify x)) as [st'|e]; [|reflexivity].
  cbn [rbind]. apply IH.
Qed.

Lemma X4_line_endings_witness :
  forallb isspace (chars nl) = true
  /\ parse_metadata education_lines_nl = Ok education_md.
Proof.
  split; [reflexivity|].
  unfold education_lines_nl.
  rewrite (X4_line_endings education_lines nl eq_refl). reflexivity.
Defined.

(** X5 - what [build_section] prints.  Once the metadata is parsed and
    the units are selected, [build_section] adds to standard output one
    warning for each selected unit whose file is missing, in the order of
    the units, then the notice that no content was generated when no unit
    contributed; for a section without units it prints only the notice that
    no metadata was found.  It returns the joined contributions. *)
Theorem X5_build_section_output (w : world) (section_name : string)
    (tags : option (list string)) (max_items : option Z)
    (exclude_tags : option (list string)) (out : stdout)
    (lines : list string) (md : metadata_t)
    (units : list (string * unit_meta)) :
  metadata_lines w = Some lines ->
  parse_metadata lines = Ok md ->
  select_units (section_data_of md section_name) tags max_items exclude_tags
  = Ok units ->
  build_section w section_name tags max_items exclude_tags out
  = ((out ++ section_messages w section_name
                (section_data_of md section_name) units)%list,
     Ok (join blank_line (contributions w section_name units))).
Proof. apply build_section_full. Qed.

Lemma X5_build_section_output_witness :
  metadata_lines world_without_msc = Some education_lines
  /\ parse_metadata education_lines = Ok education_md
  /\ fst (build_section world_without_msc "education" (Some ["full_cv"])
            None (Some ["old"]) ["earlier"])
     = ["earlier"; "Warning: Unit file units/education/msc.tex not found!"]
  /\ build_section
       {| metadata_lines := Some dotted_lines; read_file := fun _ => None |}
       "education" None None None []
     = (["Warning: Unit file units/education/phd.tex not found!";
         "Warning: No content generated for section 'education'"],
        Ok EmptyString).
Proof.
  split; [reflexivity|]. split; [reflexivity|]. split.
  - rewrite (X5_build_section_output world_without_msc "education"
               (Some ["full_cv"]) None (Some ["old"]) ["earlier"]
               education_lines education_md _ eq_refl eq_refl eq_refl).
    reflexivity.
  - rewrite (X5_build_section_output
               {| metadata_lines := Some dotted_lines;
                  read_file := fun _ => None |}
               "education" None None None [] dotted_lines
               [("education", [("./phd", [("priority", VInt 1)])])]
               _ eq_refl eq_refl eq_refl).
    reflexivity.
Defined.

(** X6 - the files [build_section] depends on.  Two file systems with the
    same metadata file that agree on the files [units/<section>/<unit>.tex]
    of the units of the section give the same output and the same return
    value: no other file is looked at. *)
Theorem X6_build_section_frame (w1 w2 : world) (section_name : string)
    (tags : option (list string)) (max_items : option Z)
    (exclude_tags : option (list string)) (out : stdout) :
  metadata_lines w1 = metadata_lines w2 ->
  (forall lines md u m,
     metadata_lines w1 = Some lines -> parse_metadata lines = Ok md ->
     In (u, m) (section_data_of md section_name) ->
     read_file w1 (unit_path section_name u)
     = read_file w2 (unit_path section_name u)) ->
  build_section w1 section_name tags max_items exclude_tags out
  = build_section w2 section_name tags max_items exclude_tags out.
Proof.
  intros Hmd Hfiles.
  pose proof (build_section_cases w1 section_name tags max_items
                exclude_tags out) as H1.
  pose proof (build_section_cases w2 section_name tags max_items
                exclude_tags out) as H2.
  rewrite <- Hmd in H2.
  destruct (metadata_lines w1) as [lines|] eqn:Hlines; [|congruence].
  destruct (parse_metadata lines) as [md|e] eqn:Hparse; [|congruence].
  destruct (select_units (section_data_of md section_name) tags max_items
              exclude_tags) as [units|e] eqn:Hsel; [|congruence].
  clear H1 H2.
  rewrite (build_section_full w1 _ _ _ _ out lines md units Hlines Hparse Hsel).
  rewrite (build_section_full w2 _ _ _ _ out lines md units
             (eq_sym Hmd) Hparse Hsel).
  assert (Hagree : forall x, In x units ->
            read_file w1 (unit_path section_name (fst x))
            = read_file w2 (unit_path section_name (fst x))).
  { intros [u m] Hx. apply (Hfiles lines md u m eq_refl Hparse).
    eapply select_units_incl; eassumption. }
  assert (Hc : contributions w1 section_name units
               = contributions w2 section_name units).
  { apply flat_map_agree. intros x Hx. unfold contribution.
    rewrite (Hagree x Hx). reflexivity. }
  assert (Hw : warnings w1 section_name units
               = warnings w2 section_name units).
  { apply flat_map_agree. intros x Hx. unfold warning_of.
    rewrite (Hagree x Hx). reflexivity. }
  unfold section_messages. rewrite Hc, Hw. reflexivity.
Qed.

Lemma X6_build_section_frame_witness :
  build_section full_world "education" None None None []
  = build_section
      {| metadata_lines := Some education_lines;
         read_file := fun p =>
           if startswith p "units/education/" then Some (" " ++ p ++ nl)
           else None |}
      "education" None None None [].
Proof.
  apply (X6_build_section_frame full_world); [reflexivity|].
  intros lines md u m Hlines Hparse Hin.
  simpl in Hlines. injection Hlines as <-.
  vm_compute in Hparse. injection Hparse as <-.
  simpl in Hin.
  destruct Hin as [H|[H|[H|[H|[]]]]]; injection H as <- <-; reflexivity.
Defined.

(** X7 - the item limit, whatever its sign.  The selected units are the
    first [kept max_items n] of the [n] sorted units: all of them without a
    limit or with the limit 0, at most [max_items] of them for a positive
    limit, and all but the last [- max_items] of them for a negative limit,
    which is not rejected. *)
Theorem X7_item_limit (section_data : section_meta)
    (tags exclude_tags : option (list string)) (max_items : option Z)
    (filtered sorted : list (string * unit_meta)) :
  filter_units section_data tags exclude_tags = Ok filtered ->
  sort_units filtered = Ok sorted ->
  exists units,
    select_units section_data tags max_items exclude_tags = Ok units
    /\ units = firstn (kept max_items (List.length sorted)) sorted
    /\ List.length units = kept max_items (List.length sorted)
    /\ (forall m, max_items = Some m -> (m < 0)%Z ->
          List.length units = List.length sorted - Z.to_nat (- m))
    /\ (forall m, max_items = Some m -> (0 < m)%Z ->
          List.length units = Nat.min (Z.to_nat m) (List.length sorted)).
Proof.
  intros Hf Hs. exists (limit_units max_items sorted).
  unfold select_units. rewrite Hf. cbn [rbind]. rewrite Hs. cbn [rbind].
  rewrite limit_units_kept. split; [reflexivity|]. split; [reflexivity|].
  assert (Hlen : List.length (firstn (kept max_items (List.length sorted)) sorted)
                 = kept max_items (List.length sorted)).
  { apply firstn_length_le. apply kept_le. }
  rewrite Hlen. repeat split.
  - intros m -> Hm. unfold kept.
    destruct (m =? 0)%Z eqn:E0; [apply Z.eqb_eq in E0; lia|].
    destruct (0 <? m)%Z eqn:E1; [apply Z.ltb_lt in E1; lia | reflexivity].
  - intros m -> Hm. unfold kept.
    destruct (m =? 0)%Z eqn:E0; [apply Z.eqb_eq in E0; lia|].
    destruct (0 <? m)%Z eqn:E1; [reflexivity | apply Z.ltb_ge in E1; lia].
Qed.

Lemma X7_item_limit_witness :
  filter_units (section_data_of education_md "education") None None
  = Ok (section_data_of education_md "education")
  /\ exists units,
       select_units (section_data_of education_md "education") None
         (Some (-3)%Z) None = Ok units
       /\ map fst units = ["msc"].
Proof.
  split; [reflexivity|].
  destruct (X7_item_limit (section_data_of education_md "education")
              None None (Some (-3)%Z) _ _ eq_refl eq_refl)
    as (units & Hsel & Hunits & _).
  exists units. split; [exact Hsel|]. rewrite Hunits. reflexivity.
Defined.

(** X8 - when the sort fails.  The priorities of the filtered units, 999
    for a unit without one, are compared with [<]: the selection returns
    when they are all ints, all strings or all lists, and raises
    [TypeError] when two of them are of different types, whatever the item
    limit. *)
Theorem X8_sort_type_error (section_data : section_meta)
    (tags exclude_tags : option (list string)) (max_items : option Z)
    (filtered : list (string * unit_meta)) :
  filter_units section_data tags exclude_tags = Ok filtered ->
  (one_kind filtered = true ->
   exists units,
     select_units section_data tags max_items exclude_tags = Ok units)
  /\ (one_kind filtered = false ->
      select_units section_data tags max_items exclude_tags
      = Raise TypeError).
Proof.
  intros Hf. unfold select_units. rewrite Hf. cbn [rbind].
  pose proof (sort_units_kind filtered) as H.
  split; intros Hk; rewrite Hk in H.
  - destruct H as [r Hr]. rewrite Hr. cbn [rbind]. eauto.
  - rewrite H. reflexivity.
Qed.

Lemma X8_sort_type_error_witness :
  filter_units mixed_priorities None None = Ok mixed_priorities
  /\ one_kind mixed_priorities = false
  /\ select_units mixed_priorities None None None = Raise TypeError.
Proof.
  split; [reflexivity|]. split; [reflexivity|].
  apply (X8_sort_type_error mixed_priorities None None None
           mixed_priorities eq_refl).
  reflexivity.
Defined.

(** X9 - the assembled text has no white space around it.  Whatever
    [build_section] returns is its own [strip]: the text of a section never
    starts or ends with a blank or a line end. *)
Theorem X9_output_is_stripped (w : world) (section_name : string)
    (tags : option (list string)) (max_items : option Z)
    (exclude_tags : option (list string)) (out : stdout) (text : string) :
  snd (build_section w section_name tags max_items exclude_tags out) = Ok text ->
  strip text = text.
Proof.
  pose proof (build_section_cases w section_name tags max_items
                exclude_tags out) as H.
  destruct (metadata_lines w) as [lines|];
    [|rewrite H; discriminate].
  destruct (parse_metadata lines) as [md|e]; [|rewrite H; discriminate].
  destruct (select_units (section_data_of md section_name) tags max_items
              exclude_tags) as [units|e]; [|rewrite H; discriminate].
  destruct H as [o H]. rewrite H. cbn [snd]. intros [= <-].
  destruct (contributions w section_name units) as [|c l] eqn:Hc;
    [reflexivity|].
  destruct (join_stripped blank_line (c :: l)) as (_ & Hl & Hr);
    [|discriminate|].
  - intros x Hx. rewrite <- Hc in Hx.
    eapply contributions_stripped; eassumption.
  - unfold strip. rewrite Hr. exact Hl.
Qed.

Lemma X9_output_is_stripped_witness :
  snd (build_section full_world "education" None (Some 2%Z) None [])
  = Ok (join blank_line
          ["units/education/msc.tex"; "units/education/course.tex"])
  /\ strip (join blank_line
              ["units/education/msc.tex"; "units/education/course.tex"])
     = join blank_line
         ["units/education/msc.tex"; "units/education/course.tex"].
Proof.
  split; [reflexivity|].
  apply (X9_output_is_stripped full_world "education" None (Some 2%Z) None []).
  reflexivity.
Defined.



(** X11 - loading the keyword mappings.  [load_keyword_mappings] returns
    a mapping on every file, and on no file; the keys and the values of the
    mapping are not empty and have no white space around them. *)
Theorem X11_keyword_mappings (file : option (list string)) :
  exists m, load_keyword_mappings file = Ok m /\ Forall tidy_pair m.
Proof.
  destruct file as [lines|]; cbn [load_keyword_mappings].
  - destruct (mapping_lines_ok lines ODict.empty) as [m Hm].
    exists m. split; [assumption|].
    apply (mapping_lines_tidy lines ODict.empty); [constructor | assumption].
  - exists ODict.empty. split; [reflexivity | constructor].
Qed.

(** X12 - the subsets, entry by entry.  For a bibliography (a dictionary
    of entries) the subset stored under a name is the list of the entries
    tagged with that name, in the order of the bibliography; a name that
    tags no entry has no subset, so that no subset is empty, and no subset
    has the empty name. *)
Theorem X12_subsets_in_order (entries : ODict.t Entry) (tag_prefix : string)
    (s : string) :
  ODict.wf entries ->
  ODict.get (fst (extract_tagged_entries entries tag_prefix)) s
  = match subset_entries entries tag_prefix s with
    | [] => None
    | l => Some l
    end
  /\ (forall d,
        ODict.get (fst (extract_tagged_entries entries tag_prefix)) s = Some d ->
        d <> [] /\ s <> EmptyString).
Proof.
  intros Hwf.
  assert (H : ODict.get (fst (extract_tagged_entries entries tag_prefix)) s
              = match subset_entries entries tag_prefix s with
                | [] => None
                | l => Some l
                end).
  { unfold extract_tagged_entries.
    rewrite (entries_loop_get entries tag_prefix ODict.empty ODict.empty s Hwf).
    destruct (subset_entries entries tag_prefix s); reflexivity. }
  split; [exact H|].
  intros d Hd. rewrite H in Hd.
  destruct (subset_entries entries tag_prefix s) as [|x l] eqn:E;
    [discriminate|].
  injection Hd as <-. split; [discriminate|].
  assert (Hx : In x (subset_entries entries tag_prefix s)).
  { rewrite E. left. reflexivity. }
  unfold subset_entries in Hx. apply filter_In in Hx.
  destruct Hx as [_ Hx]. eapply taggedb_name. eassumption.
Qed.

Lemma X12_subsets_in_order_witness :
  ODict.wf [("k2", book); ("k1", paper); ("k3", paper)]
  /\ ODict.get
       (fst (extract_tagged_entries
               [("k2", book); ("k1", paper); ("k3", paper)] "pub:")) "conf"
     = Some [("k1", paper); ("k3", paper)].
Proof.
  assert (Hwf : ODict.wf [("k2", book); ("k1", paper); ("k3", paper)]).
  { unfold ODict.wf. simpl. repeat constructor; simpl.
    - intros [H|[H|[]]]; discriminate.
    - intros [H|[]]; discriminate.
    - intros []. }
  split; [exact Hwf|].
  destruct (X12_subsets_in_order
              [("k2", book); ("k1", paper); ("k3", paper)] "pub:" "conf" Hwf)
    as [H _].
  rewrite H. reflexivity.
Defined.

(** X13 - the keywords come back.  When the values of the mapping have
    no comma and no white space around them, the ['keywords'] field that
    [process_keywords] writes, split at the commas and stripped, is the
    list of the surviving keywords: joining loses nothing. *)
Theorem X13_keywords_round_trip (entry : Entry)
    (keyword_mappings : ODict.t string)
    (valid_prefixes : option (list string)) (kws : string) :
  forallb clean (values keyword_mappings) = true ->
  ODict.get (fields entry) "keywords" = Some kws ->
  surviving_keywords kws keyword_mappings (prefixes_of valid_prefixes) <> [] ->
  map strip
    (split "," (keywords_of
                  (process_keywords entry keyword_mappings valid_prefixes)))
  = surviving_keywords kws keyword_mappings (prefixes_of valid_prefixes).
Proof. apply processed_round_trip. Qed.

Lemma X13_keywords_round_trip_witness :
  forallb clean (values peer_mapping) = true
  /\ map strip
       (split "," (keywords_of (process_keywords paper peer_mapping None)))
     = ["pub:journal"; "meta:peer"; "topic:ml"; "pub:"; "pub:conf"].
Proof.
  split; [reflexivity|].
  rewrite (X13_keywords_round_trip paper peer_mapping None
             " pub:journal , peer , topic:ml,pub: ,pub:conf"
             eq_refl eq_refl).
  - reflexivity.
  - discriminate.
Defined.

(** X14 - processing twice.  When the values of the mapping have no comma
    and no white space around them, processing a processed entry again,
    with the same valid prefixes and no remapping, returns it as it is,
    however the fields of the entry were written. *)
Theorem X14_process_keywords_idempotent (entry : Entry)
    (keyword_mappings : ODict.t string)
    (valid_prefixes : option (list string)) :
  lower (type entry) = type entry ->
  forallb clean (values keyword_mappings) = true ->
  process_keywords
    (process_keywords entry keyword_mappings valid_prefixes)
    ODict.empty valid_prefixes
  = process_keywords entry keyword_mappings valid_prefixes.
Proof.
  intros Ht Hm.
  destruct (ODict.get (fields entry) "keywords") as [kws|] eqn:Hk.
  - rewrite (process_keywords_some entry _ _ kws Hk).
    pose proof (surviving_clean kws keyword_mappings
                  (prefixes_of valid_prefixes) Hm) as Hc.
    destruct (surviving_keywords kws keyword_mappings
                (prefixes_of valid_prefixes)) as [|x l] eqn:E.
    + unfold process_keywords at 1. cbn [fields].
      rewrite get_remove_same. reflexivity.
    + rewrite (process_keywords_some _ ODict.empty valid_prefixes
                 (join ", " (x :: l))) by (cbn [fields]; apply get_set_same).
      rewrite plain_fields_plain by apply wf_set, wf_plain_fields.
      cbn [type fields persons]. rewrite Ht.
      assert (Hs : surviving_keywords (join ", " (x :: l)) ODict.empty
                     (prefixes_of valid_prefixes) = x :: l).
      { unfold surviving_keywords at 1.
        rewrite <- (map_map strip (remap ODict.empty)).
        rewrite (strip_split_join (x :: l)) by (discriminate || assumption).
        rewrite map_ext with (g := fun kw => kw) by apply remap_empty.
        rewrite map_id. apply filter_all.
        intros y Hy. rewrite <- E in Hy.
        eapply surviving_valid. eassumption. }
      rewrite Hs, set_set, !Ht. reflexivity.
  - unfold process_keywords at 2. rewrite Hk.
    unfold process_keywords. rewrite Hk. reflexivity.
Qed.

Lemma X14_process_keywords_idempotent_witness :
  lower (type paper) = type paper
  /\ forallb clean (values peer_mapping) = true
  /\ process_keywords (process_keywords paper peer_mapping None)
       ODict.empty None
     = process_keywords paper peer_mapping None
  /\ process_keywords (process_keywords capitalised peer_mapping None)
       ODict.empty None
     = process_keywords capitalised peer_mapping None.
Proof.
  split; [reflexivity|]. split; [reflexivity|]. split.
  - apply (X14_process_keywords_idempotent paper peer_mapping None);
      reflexivity.
  - apply (X14_process_keywords_idempotent capitalised peer_mapping None);
      reflexivity.
Defined.

(** X15 - the subsets of a processed entry.  When the values of the
    mapping have no comma and no white space around them, a processed entry
    is tagged for the subset [s] exactly when one of the surviving keywords
    starts with the tag prefix and what follows the prefix, stripped, is
    the non-empty [s]. *)
Theorem X15_processed_entry_subsets (entry : Entry)
    (keyword_mappings : ODict.t string)
    (valid_prefixes : option (list string)) (kws tag_prefix s : string) :
  forallb clean (values keyword_mappings) = true ->
  ODict.get (fields entry) "keywords" = Some kws ->
  (tagged_as tag_prefix
     (process_keywords entry keyword_mappings valid_prefixes) s
   <-> exists kw,
         In kw (surviving_keywords kws keyword_mappings
                  (prefixes_of valid_prefixes))
         /\ names_subset tag_prefix kw s).
Proof.
  intros Hm Hk. unfold tagged_as, names_subset.
  destruct (surviving_keywords kws keyword_mappings
              (prefixes_of valid_prefixes)) as [|x l] eqn:E.
  - rewrite (keywords_of_processed entry _ _ kws Hk), E. split.
    + intros (kw & Hin & Hs & -> & Hne).
      destruct Hin as [<-|[]]. exfalso. apply Hne.
      destruct (String.length tag_prefix); reflexivity.
    + intros (kw & [] & _).
  - pose proof (processed_round_trip entry keyword_mappings valid_prefixes
                  kws Hm Hk) as Hrt.
    rewrite E in Hrt. specialize (Hrt ltac:(discriminate)).
    split.
    + intros (kw & Hin & Hs & Heq & Hne). exists (strip kw).
      split; [|auto]. rewrite <- Hrt. apply in_map. assumption.
    + intros (kw & Hin & Hs & Heq & Hne). rewrite <- Hrt in Hin.
      apply in_map_iff in Hin. destruct Hin as (raw & <- & Hraw).
      exists raw. auto.
Qed.

Lemma X15_processed_entry_subsets_witness :
  forallb clean (values peer_mapping) = true
  /\ tagged_as "meta:" (process_keywords paper peer_mapping None) "peer".
Proof.
  assert (Hm : forallb clean (values peer_mapping) = true)
    by (vm_compute; reflexivity).
  assert (Hk : ODict.get (fields paper) "keywords"
               = Some " pub:journal , peer , topic:ml,pub: ,pub:conf")
    by (vm_compute; reflexivity).
  split; [exact Hm|].
  apply (X15_processed_entry_subsets paper peer_mapping None
           " pub:journal , peer , topic:ml,pub: ,pub:conf" "meta:" "peer"
           Hm Hk).
  exists "meta:peer". split; vm_compute.
  - right. left. reflexivity.
  - split; [reflexivity|]. split; [reflexivity | discriminate].
Defined.





(** X17 - the tag counts of the status report.  When every ['tags']
    property of the metadata is a list, the counting loop returns, and the
    count it holds for a tag is the number of times the tag occurs in the
    tag lists of all units of all sections; a tag that occurs nowhere has no
    count. *)
Theorem X17_tag_counts (md : metadata_t) :
  StatusMore.tags_are_lists md = true ->
  exists tc,
    StatusMore.tag_count md = Ok tc
    /\ forall t,
         ODict.get tc t
         = StatusMore.counted
             (StatusMore.occurrences (StatusMore.all_tags md) t).
Proof.
  intros H. unfold StatusMore.tag_count.
  rewrite (count_sections_list md ODict.empty H).
  eexists. split; [reflexivity|].
  intros t. rewrite count_tags_get. unfold StatusMore.counted.
  destruct (StatusMore.occurrences (StatusMore.all_tags md) t);
    reflexivity.
Qed.

Lemma X17_tag_counts_witness :
  StatusMore.tags_are_lists StatusMore.sample_md = true
  /\ StatusMore.tag_count StatusMore.sample_md
     = Ok [("full_cv", 3%Z); ("short_cv", 1%Z); ("old", 1%Z)]
  /\ exists tc,
       StatusMore.tag_count StatusMore.sample_md = Ok tc
       /\ ODict.get tc "full_cv" = Some 3%Z.
Proof.
  split; [reflexivity|]. split; [reflexivity|].
  destruct (X17_tag_counts StatusMore.sample_md eq_refl) as (tc & Htc & Hget).
  exists tc. split; [exact Htc|]. rewrite Hget. reflexivity.
Defined.

(** X18 - the most common tags.  The status report lists at most five
    tags, in descending order of their counts; every tag that is left out
    has a count no higher than the counts of the tags listed; and tags of
    one count are ranked in the order in which the count dictionary holds
    them. *)
Theorem X18_most_common (tc : StatusMore.counts) :
  List.length (StatusMore.most_common tc) <= 5
  /\ StronglySorted StatusMore.higher (StatusMore.most_common tc)
  /\ exists rest,
       Permutation tc (StatusMore.most_common tc ++ rest)%list
       /\ List.length rest = List.length tc - 5
       /\ (forall x y, In x (StatusMore.most_common tc) -> In y rest ->
             StatusMore.higher x y)
       /\ (forall c,
             filter (StatusMore.with_count c)
               (StatusMore.most_common tc ++ rest)%list
             = filter (StatusMore.with_count c) tc).
Proof.
  unfold StatusMore.most_common.
  pose proof (sorted_reverse_sorted tc) as Hs.
  rewrite <- (firstn_skipn 5 (StatusMore.sorted_reverse tc)) in Hs.
  apply sorted_app_inv in Hs. destruct Hs as [Hs Hdom].
  split; [apply firstn_le_length|]. split; [exact Hs|].
  exists (skipn 5 (StatusMore.sorted_reverse tc)).
  rewrite (firstn_skipn 5 (StatusMore.sorted_reverse tc)).
  split; [apply sorted_reverse_perm|]. split.
  - rewrite length_skipn.
    rewrite <- (Permutation_length (sorted_reverse_perm tc)). reflexivity.
  - split; [exact Hdom | intros c; apply sorted_reverse_stable].
Qed.


(** X20 - the value stored for a property line.  A property line
    (indented four spaces, containing [':'], no comment) splits into a key
    and a value.  Under a held section and a held unit whose mapping is in
    the section, and for a trimmed value that is bracketed or that [int]
    converts whenever [isdigit] holds for it, the loop keeps the section
    and the unit and stores under the key: the list of the
    comma-separated, trimmed, non-empty tokens when the value is bracketed;
    else the int when [isdigit] holds for the value; else the string,
    without its first and last character when it starts and ends with a
    double quote. *)
Theorem X20_property_value (st : pstate) (raw cs cu : string)
    (sec : section_meta) (u : unit_meta) :
  is_property_line raw = true ->
  held (current_section st) = Some cs ->
  held (current_unit st) = Some cu ->
  ODict.get (metadata st) cs = Some sec ->
  ODict.get sec cu = Some u ->
  exists key rest,
    split1 ":" (strip (rstrip raw)) = [key; rest]
    /\ (bracketed (strip rest) = true
        \/ isdigit (strip rest) = int_accepts (strip rest) ->
        exists md',
          parse_line st raw
          = Ok {| metadata := md';
                  current_section := current_section st;
                  current_unit := current_unit st |}
          /\ (bracketed (strip rest) = true ->
              lookup md' cs cu key = Some (VList (tokens (strip rest))))
          /\ (bracketed (strip rest) = false ->
              isdigit (strip rest) = true ->
              lookup md' cs cu key
              = Some (VInt (decimal_value (strip rest))))
          /\ (bracketed (strip rest) = false ->
              isdigit (strip rest) = false ->
              lookup md' cs cu key
              = Some (VStr (if startswith (strip rest) dquote
                               && endswith (strip rest) dquote
                            then inner (strip rest) else strip rest)))).
Proof.
  intros Hline Hcs Hcu Hsec Hu.
  destruct (classify_property_line raw Hline) as (key & rest & Hsplit & Hk).
  exists key, rest. split; [exact Hsplit|].
  set (v := strip rest) in *. intros Hshape.
  assert (Hpv : exists pv,
             parse_value v = Ok pv
             /\ (bracketed v = true -> pv = VList (tokens v))
             /\ (bracketed v = false -> isdigit v = true ->
                 pv = VInt (decimal_value v))
             /\ (bracketed v = false -> isdigit v = false ->
                 pv = VStr (if startswith v dquote && endswith v dquote
                            then inner v else v))).
  { unfold parse_value, py_int, tokens, bracketed in *.
    destruct (startswith v "[" && endswith v "]") eqn:Hb.
    - eexists. split; [reflexivity|]. repeat split; congruence.
    - destruct Hshape as [Hshape | Hshape]; [discriminate|].
      rewrite Hshape.
      destruct (int_accepts v) eqn:Hd; cbn [rbind].
      + eexists. split; [reflexivity|]. repeat split; congruence.
      + eexists. split; [reflexivity|]. repeat split; congruence. }
  destruct Hpv as (pv & Hpv & H1 & H2 & H3).
  exists (ODict.set (metadata st) cs (ODict.set sec cu (ODict.set u key pv))).
  assert (Hl : lookup (ODict.set (metadata st) cs
                         (ODict.set sec cu (ODict.set u key pv))) cs cu key
               = Some pv).
  { apply (lookup_set_property (metadata st)).
    apply set_property_ok; assumption. }
  split.
  - rewrite parse_line_classify, Hk. cbn [apply_kind].
    rewrite Hcs, Hcu, Hpv. cbn [rbind].
    rewrite (set_property_ok _ _ _ _ _ _ _ Hsec Hu). reflexivity.
  - rewrite Hl. repeat split; intros; f_equal; auto.
Qed.

Lemma X20_property_value_witness :
  is_property_line "    tags: [full_cv, short_cv]  " = true
  /\ exists md',
       parse_line
         {| metadata := [("education", [("phd", [])])];
            current_section := Some "education";
            current_unit := Some "phd" |}
         "    tags: [full_cv, short_cv]  "
       = Ok {| metadata := md';
               current_section := Some "education";
               current_unit := Some "phd" |}
       /\ lookup md' "education" "phd" "tags"
          = Some (VList ["full_cv"; "short_cv"]).
Proof.
  split; [reflexivity|].
  destruct (X20_property_value
              {| metadata := [("education", [("phd", [])])];
                 current_section := Some "education";
                 current_unit := Some "phd" |}
              "    tags: [full_cv, short_cv]  " "education" "phd"
              [("phd", [])] [] eq_refl eq_refl eq_refl eq_refl eq_refl)
    as (key & rest & Hsplit & H).
  vm_compute in Hsplit. injection Hsplit as <- <-.
  destruct (H (or_introl eq_refl)) as (md' & Hp & Hlist & _).
  exists md'. split; [exact Hp|]. exact (Hlist eq_refl).
Defined.

(** X21 - the frame of keyword processing on fields written as they are
    looked up.  For an entry whose type is in lower case, as [Entry]
    stores it, and whose field names are written as they are looked up
    (in lower case for a parsed entry), [process_keywords] returns an
    entry with the same type and the same persons, in which every field
    other than ['keywords'] is as it was; an entry without a ['keywords']
    field is returned as it is; otherwise the ['keywords'] field of the
    result stands where it stood and holds the remapped keywords that
    start with a valid prefix, joined by a comma and a space, and it is
    removed when there is none. *)
Theorem X21_process_keywords_frame (entry : Entry)
    (keyword_mappings : ODict.t string)
    (valid_prefixes : option (list string)) :
  lower (type entry) = type entry ->
  spelling entry = ODict.empty ->
  ODict.wf (fields entry) ->
  type (process_keywords entry keyword_mappings valid_prefixes) = type entry
  /\ persons (process_keywords entry keyword_mappings valid_prefixes)
     = persons entry
  /\ (forall k, k <> "keywords" ->
        ODict.get
          (fields (process_keywords entry keyword_mappings valid_prefixes)) k
        = ODict.get (fields entry) k)
  /\ (ODict.get (fields entry) "keywords" = None ->
      process_keywords entry keyword_mappings valid_prefixes = entry)
  /\ (forall kws, ODict.get (fields entry) "keywords" = Some kws ->
        fields (process_keywords entry keyword_mappings valid_prefixes)
        = match surviving_keywords kws keyword_mappings
                  (prefixes_of valid_prefixes) with
          | [] => ODict.remove (fields entry) "keywords"
          | l => ODict.set (fields entry) "keywords" (join ", " l)
          end
        /\ ODict.get
             (fields (process_keywords entry keyword_mappings valid_prefixes))
             "keywords"
           = match surviving_keywords kws keyword_mappings
                     (prefixes_of valid_prefixes) with
             | [] => None
             | l => Some (join ", " l)
             end).
Proof.
  intros Htype Hsp Hwf.
  destruct (ODict.get (fields entry) "keywords") as [kws|] eqn:Hk.
  - rewrite (process_keywords_some entry _ _ kws Hk).
    rewrite (plain_fields_id entry Hsp Hwf). cbn [type persons fields].
    split; [exact Htype|]. split; [reflexivity|]. split; [|split].
    + intros k Hne.
      destruct (surviving_keywords kws keyword_mappings
                  (prefixes_of valid_prefixes)).
      * apply get_remove_other. congruence.
      * apply get_set_other. congruence.
    + discriminate.
    + intros kws' [= <-]. split; [reflexivity|].
      destruct (surviving_keywords kws keyword_mappings
                  (prefixes_of valid_prefixes)).
      * apply get_remove_same.
      * apply get_set_same.
  - unfold process_keywords. rewrite Hk.
    repeat split; auto; discriminate.
Qed.

Lemma X21_process_keywords_frame_witness :
  lower (type paper) = type paper
  /\ spelling paper = ODict.empty
  /\ ODict.wf (fields paper)
  /\ fields (process_keywords paper ODict.empty None)
     = [ ("title", "A title");
         ("keywords", "pub:journal, topic:ml, pub:, pub:conf") ]
  /\ type (process_keywords paper ODict.empty None) = "article".
Proof.
  assert (Hwf : ODict.wf (fields paper)).
  { unfold ODict.wf. cbn. constructor.
    - intros [H | []]. discriminate H.
    - constructor; [intros [] | constructor]. }
  split; [reflexivity|]. split; [reflexivity|]. split; [exact Hwf|].
  destruct (X21_process_keywords_frame paper ODict.empty None
              eq_refl eq_refl Hwf) as (Ht & _ & _ & _ & Hkw).
  destruct (Hkw _ eq_refl) as [Hf _].
  split; [exact Hf | exact Ht].
Defined.

End Extras.
